(** * haproxy_log_analysis: the log-line parser of [haproxy/line.py]

    A shallow embedding of [haproxy.line] and the properties of its
    specification.

    Python strings are modelled as sequences of 8-bit code points
    (U+0000 .. U+00FF): [list ascii] inside the regular-expression engine,
    [string] in the record.  The character classes [\d], [\s] and [\w] are
    those of Python 3 [str] patterns restricted to that range.

    The two compiled patterns of the module are values of a small regular
    expression syntax, run by a backtracking matcher with the priorities of
    Python's [re]: alternatives left to right, greedy repetition, the last
    span of a named group kept. *)

From Stdlib Require Import List String Ascii Bool Arith ZArith Lia.
Import ListNotations.

Local Open Scope string_scope.
Local Open Scope list_scope.
Local Open Scope nat_scope.

(** ** Characters and character classes *)

Definition chars := list ascii.

Definition L (s : string) : chars := list_ascii_of_string s.
Definition S_ (l : chars) : string := string_of_list_ascii l.

Definition code (a : ascii) : nat := nat_of_ascii a.

Definition in_range (lo hi : nat) (a : ascii) : bool :=
  (lo <=? code a) && (code a <=? hi).

Definition is_char (x : ascii) (a : ascii) : bool := Ascii.eqb x a.

(** [one_of "abc"]: the class [[abc]]. *)
Definition one_of (s : string) (a : ascii) : bool :=
  existsb (Ascii.eqb a) (L s).

(** [\d]: the decimal digits; below U+0100 these are [0-9]. *)
Definition cls_digit (a : ascii) : bool := in_range 48 57 a.

(** [\s]: Unicode white space below U+0100: TAB, LF, VT, FF, CR, the four
    separators U+001C..U+001F, SPACE, NEL (U+0085) and NBSP (U+00A0). *)
Definition cls_space (a : ascii) : bool :=
  in_range 9 13 a || in_range 28 32 a || (code a =? 133) || (code a =? 160).

(** [\w]: alphanumeric code points and the underscore.  Below U+0100 the
    alphanumerics are the ASCII letters and digits, the ordinal indicators
    and micro sign, the superscript digits and vulgar fractions, and the
    Latin-1 letters (U+00C0..U+00FF without the two operators). *)
Definition cls_word (a : ascii) : bool :=
  in_range 48 57 a || in_range 65 90 a || in_range 97 122 a || (code a =? 95)
  || (code a =? 170) || (code a =? 181) || (code a =? 186)
  || in_range 178 179 a || (code a =? 185) || in_range 188 190 a
  || in_range 192 214 a || in_range 216 246 a || in_range 248 255 a.

(** [.] without DOTALL: anything but a line feed. *)
Definition cls_dot (a : ascii) : bool := negb (code a =? 10).

Definition cls_union (f g : ascii -> bool) (a : ascii) : bool := f a || g a.
Definition cls_not (f : ascii -> bool) (a : ascii) : bool := negb (f a).

(** ** Regular expressions *)

Inductive regex : Type :=
| Empty                              (* the empty pattern *)
| Set_ (cs : ascii -> bool)          (* one character of a class *)
| Cat (r1 r2 : regex)                (* r1 r2 *)
| Alt (r1 r2 : regex)                (* r1|r2, r1 tried first *)
| Star (r : regex)                   (* r*, greedy *)
| Named (g : string) (r : regex)     (* (?P<g>r) *)
| Bos                                (* \A *)
| Eos.                               (* \Z *)

(** Unnamed groups only group: no code of the module reads them by number. *)
Definition Plus (r : regex) : regex := Cat r (Star r).
Definition Opt (r : regex) : regex := Alt r Empty.
Definition Chr (x : ascii) : regex := Set_ (is_char x).
Definition Dot : regex := Set_ cls_dot.
Definition Digit : regex := Set_ cls_digit.
Definition Space : regex := Set_ cls_space.
Definition Word : regex := Set_ cls_word.

Fixpoint Lit (l : chars) : regex :=
  match l with
  | [] => Empty
  | [a] => Chr a
  | a :: l' => Cat (Chr a) (Lit l')
  end.

Fixpoint Seq (rs : list regex) : regex :=
  match rs with
  | [] => Empty
  | [r] => r
  | r :: rs' => Cat r (Seq rs')
  end.

(** ** Capture sets *)

Definition caps := list (string * chars).

Fixpoint group (g : string) (c : caps) : option chars :=
  match c with
  | [] => None
  | (g', v) :: c' => if String.eqb g g' then Some v else group g c'
  end.

Definition set_group (g : string) (v : chars) (c : caps) : caps := (g, v) :: c.

(** ** The backtracking matcher

    [run total r s c k]: match [r] at the suffix [s] of a subject of length
    [total], with the captures [c] made so far, and hand what is left to the
    continuation [k]; [None] makes the matcher backtrack into the latest
    choice.  An iteration of a star that consumes nothing is not repeated. *)

Section Matcher.
Variable total : nat.
Variable R : Type.

Definition cont := chars -> caps -> option R.

(** The greedy loop of a star over [body]: one more iteration first, the
    continuation when none succeeds. *)
Definition star_loop (body : chars -> caps -> cont -> option R) (k : cont)
  : nat -> chars -> caps -> option R :=
  fix loop (fuel : nat) (s : chars) (c : caps) {struct fuel} : option R :=
    match fuel with
    | O => k s c
    | S fuel' =>
        match body s c (fun s1 c1 =>
                if List.length s1 <? List.length s then loop fuel' s1 c1 else None) with
        | Some x => Some x
        | None => k s c
        end
    end.

Fixpoint run (r : regex) (s : chars) (c : caps) (k : cont) {struct r} : option R :=
  match r with
  | Empty => k s c
  | Set_ cs =>
      match s with
      | a :: s' => if cs a then k s' c else None
      | [] => None
      end
  | Cat r1 r2 => run r1 s c (fun s1 c1 => run r2 s1 c1 k)
  | Alt r1 r2 =>
      match run r1 s c k with
      | Some x => Some x
      | None => run r2 s c k
      end
  | Star r1 => star_loop (run r1) k (List.length s) s c
  | Named g r1 =>
      run r1 s c (fun s1 c1 =>
        k s1 (set_group g (firstn (List.length s - List.length s1) s) c1))
  | Bos => if List.length s =? total then k s c else None
  | Eos => match s with [] => k s c | _ :: _ => None end
  end.
End Matcher.

Arguments star_loop {R} body k fuel s c.
Arguments run total {R} r s c k.

(** A successful match: the named groups and the unconsumed rest of the
    subject ([m.end()] is the length of the subject minus that of the rest). *)
Record Match : Type := mkMatch { m_groups : caps; m_rest : chars }.

(** [pattern.match(s)]: anchored at the start, not at the end. *)
Definition re_match (r : regex) (s : chars) : option Match :=
  run (List.length s) r s [] (fun s' c => Some (mkMatch c s')).

(** [m.group(name)] *)
Definition mgroup (g : string) (m : Match) : option chars := group g (m_groups m).

(** ** What a pattern can match

    [den total r s c s' c']: starting at the suffix [s] with the captures
    [c], the pattern [r] can consume the characters of [s] before [s'] and
    leave the captures [c'].  The matcher returns the first of these in its
    order of preference. *)

Section Den.
Variable total : nat.

Definition outcome := chars -> caps -> chars -> caps -> Prop.

Inductive iter (D : outcome) : outcome :=
| iter_done : forall s c, iter D s c s c
| iter_step : forall s c s1 c1 s2 c2,
    D s c s1 c1 -> List.length s1 < List.length s ->
    iter D s1 c1 s2 c2 -> iter D s c s2 c2.

Fixpoint den (r : regex) (s : chars) (c : caps) (s' : chars) (c' : caps) : Prop :=
  match r with
  | Empty => s' = s /\ c' = c
  | Set_ cs => exists a, s = a :: s' /\ cs a = true /\ c' = c
  | Cat r1 r2 => exists s1 c1, den r1 s c s1 c1 /\ den r2 s1 c1 s' c'
  | Alt r1 r2 => den r1 s c s' c' \/ den r2 s c s' c'
  | Star r1 => iter (den r1) s c s' c'
  | Named g r1 =>
      exists c1, den r1 s c s' c1 /\
        c' = set_group g (firstn (List.length s - List.length s') s) c1
  | Bos => List.length s = total /\ s' = s /\ c' = c
  | Eos => s = [] /\ s' = [] /\ c' = c
  end.
End Den.

(** ** The patterns of the module *)

Definition Sp : regex := Plus Space.                 (* \s+ *)
Definition Digits : regex := Plus Digit.             (* \d+ *)
Definition Neg : regex := Cat (Opt (Chr "-")) Digits.   (* -?\d+ *)
Definition Pos : regex := Cat (Opt (Chr "+")) Digits.   (* \+?\d+ *)
Definition Any : regex := Star Dot.                  (* .* *)

(** [[a-fA-F\d+\.:]] *)
Definition cls_ip (a : ascii) : bool :=
  in_range 97 102 a || in_range 65 70 a || cls_digit a || one_of "+.:" a.

Definition SYSLOG_PREFIX : regex :=
  Opt (Seq [Bos; Any; Chr "]"; Chr ":"; Sp]).

Definition CLIENT : regex :=
  Seq [Named "client_ip" (Plus (Set_ cls_ip)); Chr ":";
       Named "client_port" Digits; Sp].

Definition ACCEPT_DATE : regex :=
  Seq [Chr "["; Named "accept_date" (Plus Dot); Chr "]"; Sp].

Definition HTTP_SHAPE : regex :=
  Seq [Named "http_frontend_name" Any; Sp;
       Named "http_backend_name" Any; Chr "/";
       Named "http_server_name" Any; Sp;
       Named "http_Tq" Neg; Chr "/"; Named "http_Tw" Neg; Chr "/";
       Named "http_Tc" Neg; Chr "/";
       Named "http_Tr" Neg; Chr "/"; Named "http_Ta" Pos; Sp;
       Named "http_status_code" Neg; Sp; Named "http_bytes_read" Pos].

Definition TCP_SHAPE : regex :=
  Seq [Named "tcp_frontend_name" Any; Sp;
       Named "tcp_backend_name" Any; Chr "/";
       Named "tcp_server_name" Any; Sp;
       Named "tcp_Tw" Neg; Chr "/"; Named "tcp_Tc" Neg; Chr "/";
       Named "tcp_Tt" Pos; Sp;
       Named "tcp_bytes_read" Pos].

Definition COUNTERS : regex :=
  Seq [Any; Sp;
       Named "actconn" Digits; Chr "/"; Named "feconn" Digits; Chr "/";
       Named "beconn" Digits; Chr "/"; Named "srv_conn" Digits; Chr "/";
       Named "retries" Pos].

Definition QUEUES : regex :=
  Seq [Sp; Named "srv_queue" Digits; Chr "/"; Named "backend_queue" Digits].

Definition HEADERS : regex :=
  Opt (Alt (Seq [Chr "{"; Named "captured_request_headers" Any; Chr "}"; Sp;
                 Chr "{"; Named "captured_response_headers" Any; Chr "}"; Sp])
      (Alt (Seq [Chr "{"; Named "headers" Any; Chr "}"; Sp])
           Sp)).

Definition dquote : ascii := ascii_of_nat 34.

(** The class of every character but the double quote. *)
Definition cls_not_quote : ascii -> bool := cls_not (is_char dquote).

Definition TAIL : regex :=
  Opt (Seq [Sp; HEADERS; Chr dquote;
            Named "http_request" (Plus (Set_ cls_not_quote));
            Opt (Chr dquote)]).

(** The line pattern around the part that tells the two log formats apart. *)
Definition LINE_WITH (shape : regex) : regex :=
  Seq [SYSLOG_PREFIX; CLIENT; ACCEPT_DATE; shape; COUNTERS; QUEUES; TAIL; Eos].

Definition HAPROXY_LINE_REGEX : regex := LINE_WITH (Alt HTTP_SHAPE TCP_SHAPE).

(** [[`\u00c2\u00b4\\<>/\w:,;.#$!?=&@%_+'*^~|()\[\]{\}-]] *)
Definition cls_path (a : ascii) : bool :=
  cls_word a || one_of "`<>/:,;.#$!?=&@%_+'*^~|()[]{}-" a
  || (code a =? 194) || (code a =? 180) || (code a =? 92).

Definition HTTP_REQUEST_REGEX : regex :=
  Seq [Named "method" (Plus Word); Sp;
       Named "path" (Plus (Cat (Chr "/") (Star (Set_ cls_path))));
       Opt (Seq [Sp; Named "protocol"
                       (Seq [Plus Word; Chr "/"; Digit; Chr "."; Digit])])].

(** ** Python values and exceptions *)

Inductive exn : Type := ValueError | TypeError.

Inductive LineType : Type := HTTP | TCP.

(** [datetime]: a naive instant with microsecond precision. *)
Record datetime : Type := mkDatetime {
  year : Z; month : Z; day : Z;
  hour : Z; minute : Z; second : Z; microsecond : Z }.

(** The values an attribute of a [Line] can hold. *)
Inductive pyval : Type :=
| PNone
| PStr (s : string)
| PInt (z : Z)
| PDate (d : datetime)
| PKind (t : LineType).

Definition of_group (o : option chars) : pyval :=
  match o with
  | Some v => PStr (S_ v)
  | None => PNone
  end.

(** *** [s.strip()]: the white space of [str.isspace] is removed at both
    ends. *)

Fixpoint lstrip (l : chars) : chars :=
  match l with
  | a :: l' => if cls_space a then lstrip l' else l
  | [] => []
  end.

Definition strip (l : chars) : chars := rev (lstrip (rev (lstrip l))).

(** *** [int(s)] on a string: surrounding white space stripped, an optional
    sign, decimal digits with single underscores between them, and no more
    digits than the interpreter's limit on integer string conversion.

    The white space [int] skips is narrower than that of [str.strip]: TAB,
    LF, VT, FF, CR and SPACE, and NEL and NBSP, but not the four separators
    U+001C..U+001F. *)

Definition cls_int_space (a : ascii) : bool :=
  in_range 9 13 a || (code a =? 32) || (code a =? 133) || (code a =? 160).

Fixpoint int_lstrip (l : chars) : chars :=
  match l with
  | a :: l' => if cls_int_space a then int_lstrip l' else l
  | [] => []
  end.

Definition int_strip (l : chars) : chars :=
  rev (int_lstrip (rev (int_lstrip l))).

(** [sys.get_int_max_str_digits()], at its default. *)
Definition int_max_str_digits : Z := 4300.

(** The digits of the text are not more than the limit; signs, white space
    and underscores do not count. *)
Definition within_limit (l : chars) : bool :=
  (Z.of_nat (List.length (filter cls_digit l)) <=? int_max_str_digits)%Z.

Definition digit_val (a : ascii) : Z := Z.of_nat (code a - 48).

(** [digits_from acc l]: the value of [l] read after the digits summed up in
    [acc]; an underscore must stand between two digits. *)
Fixpoint digits_from (acc : Z) (l : chars) : option Z :=
  match l with
  | [] => Some acc
  | a :: l' =>
      if cls_digit a then digits_from (10 * acc + digit_val a)%Z l'
      else if code a =? 95 then
        match l' with
        | b :: l'' =>
            if cls_digit b then digits_from (10 * acc + digit_val b)%Z l'' else None
        | [] => None
        end
      else None
  end.

Definition unsigned_of (l : chars) : option Z :=
  match l with
  | a :: l' =>
      if cls_digit a && within_limit l then digits_from (digit_val a) l' else None
  | [] => None
  end.

Definition int_of_chars (l : chars) : option Z :=
  match int_strip l with
  | a :: l' =>
      if code a =? 45 then option_map Z.opp (unsigned_of l')
      else if code a =? 43 then unsigned_of l'
      else unsigned_of (a :: l')
  | [] => None
  end.

Definition int_ (v : pyval) : exn + Z :=
  match v with
  | PStr s =>
      match int_of_chars (L s) with
      | Some z => inr z
      | None => inl ValueError
      end
  | PInt z => inr z
  | _ => inl TypeError
  end.

(** ** [datetime.strptime(s, '%d/%b/%Y:%H:%M:%S.%f')]

    The library turns the format into a pattern (case-insensitive, English
    month abbreviations), matches it at the start of the string, refuses
    unconverted data after the match, and builds the date, which refuses a
    day the month does not have, the year 0 and a leap second. *)

Definition lower (a : ascii) : ascii :=
  if in_range 65 90 a then ascii_of_nat (code a + 32) else a.

(** One letter, in either case. *)
Definition CI (x : ascii) : regex := Set_ (fun a => Ascii.eqb (lower a) x).

Fixpoint LitCI (l : chars) : regex :=
  match l with
  | [] => Empty
  | [a] => CI a
  | a :: l' => Cat (CI a) (LitCI l')
  end.

Definition Range (lo hi : string) : regex :=
  match L lo, L hi with
  | [a], [b] => Set_ (in_range (code a) (code b))
  | _, _ => Set_ (fun _ => false)
  end.

Fixpoint Alts (rs : list regex) : regex :=
  match rs with
  | [] => Set_ (fun _ => false)
  | [r] => r
  | r :: rs' => Alt r (Alts rs')
  end.

Definition a_month : list string :=
  ["jan"; "feb"; "mar"; "apr"; "may"; "jun";
   "jul"; "aug"; "sep"; "oct"; "nov"; "dec"].

(** [r{1,n+1}], greedy. *)
Fixpoint UpTo (n : nat) (r : regex) : regex :=
  match n with
  | O => r
  | S n' => Cat r (Opt (UpTo n' r))
  end.

Definition ACCEPT_DATE_FORMAT : regex :=
  Seq [Named "d" (Alts [Cat (Chr "3") (Range "0" "1"); Cat (Range "1" "2") Digit;
                        Cat (Chr "0") (Range "1" "9"); Range "1" "9";
                        Cat (Chr " ") (Range "1" "9")]);
       Chr "/";
       Named "b" (Alts (map (fun m => LitCI (L m)) a_month));
       Chr "/";
       Named "Y" (Seq [Digit; Digit; Digit; Digit]);
       Chr ":";
       Named "H" (Alts [Cat (Chr "2") (Range "0" "3"); Cat (Range "0" "1") Digit; Digit]);
       Chr ":";
       Named "M" (Alts [Cat (Range "0" "5") Digit; Digit]);
       Chr ":";
       Named "S" (Alts [Cat (Chr "6") (Range "0" "1"); Cat (Range "0" "5") Digit; Digit]);
       Chr ".";
       Named "f" (UpTo 5 (Range "0" "9"))].

Fixpoint index_of (x : string) (l : list string) (i : Z) : option Z :=
  match l with
  | [] => None
  | y :: l' => if String.eqb x y then Some i else index_of x l' (i + 1)%Z
  end.

Definition is_leap (y : Z) : bool :=
  ((y mod 4 =? 0) && (negb (y mod 100 =? 0) || (y mod 400 =? 0)))%Z.

Definition days_in_month (y m : Z) : Z :=
  if (m =? 2)%Z then (if is_leap y then 29 else 28)%Z
  else if ((m =? 4) || (m =? 6) || (m =? 9) || (m =? 11))%Z then 30%Z
  else 31%Z.

Definition datetime_ok (d : datetime) : bool :=
  ((1 <=? year d) && (year d <=? 9999) && (1 <=? month d) && (month d <=? 12)
   && (1 <=? day d) && (day d <=? days_in_month (year d) (month d))
   && (0 <=? hour d) && (hour d <=? 23) && (0 <=? minute d) && (minute d <=? 59)
   && (0 <=? second d) && (second d <=? 59)
   && (0 <=? microsecond d) && (microsecond d <=? 999999))%Z.

(** The fraction is padded with zeros on the right to six digits. *)
Definition pad6 (l : chars) : chars := l ++ repeat "0"%char (6 - List.length l).

Definition strptime (raw : chars) : option datetime :=
  match re_match ACCEPT_DATE_FORMAT raw with
  | None => None
  | Some m =>
      match m_rest m with
      | _ :: _ => None
      | [] =>
          match mgroup "d" m, mgroup "b" m, mgroup "Y" m,
                mgroup "H" m, mgroup "M" m, mgroup "S" m, mgroup "f" m with
          | Some d, Some b, Some y, Some h, Some mi, Some s, Some f =>
              match int_of_chars d, index_of (S_ (map lower b)) a_month 1,
                    int_of_chars y, int_of_chars h, int_of_chars mi,
                    int_of_chars s, int_of_chars (pad6 f) with
              | Some d', Some b', Some y', Some h', Some mi', Some s', Some f' =>
                  let t := mkDatetime y' b' d' h' mi' s' f' in
                  if datetime_ok t then Some t else None
              | _, _, _, _, _, _, _ => None
              end
          | _, _, _, _, _, _, _ => None
          end
      end
  end.

(** ** The class [Line]

    One field per attribute; the class-level defaults are all [None].
    [is_valid] has no class default: it is assigned last by [__init__]. *)

Record Line : Type := mkLine {
  log_type : pyval;
  client_ip : pyval;
  client_port : pyval;
  raw_accept_date : pyval;
  accept_date : pyval;
  request_date : pyval;
  frontend_name : pyval;
  backend_name : pyval;
  server_name : pyval;
  time_wait_request : pyval;
  time_wait_queues : pyval;
  time_connect_server : pyval;
  time_wait_response : pyval;
  total_time : pyval;
  status_code : pyval;
  bytes_read : pyval;
  captured_request_cookie : pyval;
  captured_response_cookie : pyval;
  termination_state : pyval;
  connections_active : pyval;
  connections_frontend : pyval;
  connections_backend : pyval;
  connections_server : pyval;
  retries : pyval;
  queue_server : pyval;
  queue_backend : pyval;
  captured_request_headers : pyval;
  captured_response_headers : pyval;
  raw_http_request : pyval;
  http_request_method : pyval;
  http_request_path : pyval;
  http_request_protocol : pyval;
  raw_line : pyval;
  is_valid : bool }.

Definition Line_defaults : Line :=
  mkLine PNone PNone PNone PNone PNone PNone PNone PNone PNone PNone PNone PNone PNone
    PNone PNone PNone PNone PNone PNone PNone PNone PNone PNone PNone PNone PNone
    PNone PNone PNone PNone PNone PNone PNone false.

(** Attribute assignment, [self.f = v]. *)

Definition set_log_type (v : pyval) (o : Line) : Line :=
  mkLine v (client_ip o) (client_port o) (raw_accept_date o) (accept_date o)
    (request_date o) (frontend_name o) (backend_name o) (server_name o)
    (time_wait_request o) (time_wait_queues o) (time_connect_server o)
    (time_wait_response o) (total_time o) (status_code o) (bytes_read o)
    (captured_request_cookie o) (captured_response_cookie o) (termination_state o)
    (connections_active o) (connections_frontend o) (connections_backend o)
    (connections_server o) (retries o) (queue_server o) (queue_backend o)
    (captured_request_headers o) (captured_response_headers o) (raw_http_request o)
    (http_request_method o) (http_request_path o) (http_request_protocol o) (raw_line
    o) (is_valid o).

Definition set_client_ip (v : pyval) (o : Line) : Line :=
  mkLine (log_type o) v (client_port o) (raw_accept_date o) (accept_date o)
    (request_date o) (frontend_name o) (backend_name o) (server_name o)
    (time_wait_request o) (time_wait_queues o) (time_connect_server o)
    (time_wait_response o) (total_time o) (status_code o) (bytes_read o)
    (captured_request_cookie o) (captured_response_cookie o) (termination_state o)
    (connections_active o) (connections_frontend o) (connections_backend o)
    (connections_server o) (retries o) (queue_server o) (queue_backend o)
    (captured_request_headers o) (captured_response_headers o) (raw_http_request o)
    (http_request_method o) (http_request_path o) (http_request_protocol o) (raw_line
    o) (is_valid o).

Definition set_client_port (v : pyval) (o : Line) : Line :=
  mkLine (log_type o) (client_ip o) v (raw_accept_date o) (accept_date o)
    (request_date o) (frontend_name o) (backend_name o) (server_name o)
    (time_wait_request o) (time_wait_queues o) (time_connect_server o)
    (time_wait_response o) (total_time o) (status_code o) (bytes_read o)
    (captured_request_cookie o) (captured_response_cookie o) (termination_state o)
    (connections_active o) (connections_frontend o) (connections_backend o)
    (connections_server o) (retries o) (queue_server o) (queue_backend o)
    (captured_request_headers o) (captured_response_headers o) (raw_http_request o)
    (http_request_method o) (http_request_path o) (http_request_protocol o) (raw_line
    o) (is_valid o).

Definition set_raw_accept_date (v : pyval) (o : Line) : Line :=
  mkLine (log_type o) (client_ip o) (client_port o) v (accept_date o) (request_date o)
    (frontend_name o) (backend_name o) (server_name o) (time_wait_request o)
    (time_wait_queues o) (time_connect_server o) (time_wait_response o) (total_time o)
    (status_code o) (bytes_read o) (captured_request_cookie o)
    (captured_response_cookie o) (termination_state o) (connections_active o)
    (connections_frontend o) (connections_backend o) (connections_server o) (retries
    o) (queue_server o) (queue_backend o) (captured_request_headers o)
    (captured_response_headers o) (raw_http_request o) (http_request_method o)
    (http_request_path o) (http_request_protocol o) (raw_line o) (is_valid o).

Definition set_accept_date (v : pyval) (o : Line) : Line :=
  mkLine (log_type o) (client_ip o) (client_port o) (raw_accept_date o) v
    (request_date o) (frontend_name o) (backend_name o) (server_name o)
    (time_wait_request o) (time_wait_queues o) (time_connect_server o)
    (time_wait_response o) (total_time o) (status_code o) (bytes_read o)
    (captured_request_cookie o) (captured_response_cookie o) (termination_state o)
    (connections_active o) (connections_frontend o) (connections_backend o)
    (connections_server o) (retries o) (queue_server o) (queue_backend o)
    (captured_request_headers o) (captured_response_headers o) (raw_http_request o)
    (http_request_method o) (http_request_path o) (http_request_protocol o) (raw_line
    o) (is_valid o).

Definition set_request_date (v : pyval) (o : Line) : Line :=
  mkLine (log_type o) (client_ip o) (client_port o) (raw_accept_date o) (accept_date
    o) v (frontend_name o) (backend_name o) (server_name o) (time_wait_request o)
    (time_wait_queues o) (time_connect_server o) (time_wait_response o) (total_time o)
    (status_code o) (bytes_read o) (captured_request_cookie o)
    (captured_response_cookie o) (termination_state o) (connections_active o)
    (connections_frontend o) (connections_backend o) (connections_server o) (retries
    o) (queue_server o) (queue_backend o) (captured_request_headers o)
    (captured_response_headers o) (raw_http_request o) (http_request_method o)
    (http_request_path o) (http_request_protocol o) (raw_line o) (is_valid o).

Definition set_frontend_name (v : pyval) (o : Line) : Line :=
  mkLine (log_type o) (client_ip o) (client_port o) (raw_accept_date o) (accept_date
    o) (request_date o) v (backend_name o) (server_name o) (time_wait_request o)
    (time_wait_queues o) (time_connect_server o) (time_wait_response o) (total_time o)
    (status_code o) (bytes_read o) (captured_request_cookie o)
    (captured_response_cookie o) (termination_state o) (connections_active o)
    (connections_frontend o) (connections_backend o) (connections_server o) (retries
    o) (queue_server o) (queue_backend o) (captured_request_headers o)
    (captured_response_headers o) (raw_http_request o) (http_request_method o)
    (http_request_path o) (http_request_protocol o) (raw_line o) (is_valid o).

Definition set_backend_name (v : pyval) (o : Line) : Line :=
  mkLine (log_type o) (client_ip o) (client_port o) (raw_accept_date o) (accept_date
    o) (request_date o) (frontend_name o) v (server_name o) (time_wait_request o)
    (time_wait_queues o) (time_connect_server o) (time_wait_response o) (total_time o)
    (status_code o) (bytes_read o) (captured_request_cookie o)
    (captured_response_cookie o) (termination_state o) (connections_active o)
    (connections_frontend o) (connections_backend o) (connections_server o) (retries
    o) (queue_server o) (queue_backend o) (captured_request_headers o)
    (captured_response_headers o) (raw_http_request o) (http_request_method o)
    (http_request_path o) (http_request_protocol o) (raw_line o) (is_valid o).

Definition set_server_name (v : pyval) (o : Line) : Line :=
  mkLine (log_type o) (client_ip o) (client_port o) (raw_accept_date o) (accept_date
    o) (request_date o) (frontend_name o) (backend_name o) v (time_wait_request o)
    (time_wait_queues o) (time_connect_server o) (time_wait_response o) (total_time o)
    (status_code o) (bytes_read o) (captured_request_cookie o)
    (captured_response_cookie o) (termination_state o) (connections_active o)
    (connections_frontend o) (connections_backend o) (connections_server o) (retries
    o) (queue_server o) (queue_backend o) (captured_request_headers o)
    (captured_response_headers o) (raw_http_request o) (http_request_method o)
    (http_request_path o) (http_request_protocol o) (raw_line o) (is_valid o).

Definition set_time_wait_request (v : pyval) (o : Line) : Line :=
  mkLine (log_type o) (client_ip o) (client_port o) (raw_accept_date o) (accept_date
    o) (request_date o) (frontend_name o) (backend_name o) (server_name o) v
    (time_wait_queues o) (time_connect_server o) (time_wait_response o) (total_time o)
    (status_code o) (bytes_read o) (captured_request_cookie o)
    (captured_response_cookie o) (termination_state o) (connections_active o)
    (connections_frontend o) (connections_backend o) (connections_server o) (retries
    o) (queue_server o) (queue_backend o) (captured_request_headers o)
    (captured_response_headers o) (raw_http_request o) (http_request_method o)
    (http_request_path o) (http_request_protocol o) (raw_line o) (is_valid o).

Definition set_time_wait_queues (v : pyval) (o : Line) : Line :=
  mkLine (log_type o) (client_ip o) (client_port o) (raw_accept_date o) (accept_date
    o) (request_date o) (frontend_name o) (backend_name o) (server_name o)
    (time_wait_request o) v (time_connect_server o) (time_wait_response o) (total_time
    o) (status_code o) (bytes_read o) (captured_request_cookie o)
    (captured_response_cookie o) (termination_state o) (connections_active o)
    (connections_frontend o) (connections_backend o) (connections_server o) (retries
    o) (queue_server o) (queue_backend o) (captured_request_headers o)
    (captured_response_headers o) (raw_http_request o) (http_request_method o)
    (http_request_path o) (http_request_protocol o) (raw_line o) (is_valid o).

Definition set_time_connect_server (v : pyval) (o : Line) : Line :=
  mkLine (log_type o) (client_ip o) (client_port o) (raw_accept_date o) (accept_date
    o) (request_date o) (frontend_name o) (backend_name o) (server_name o)
    (time_wait_request o) (time_wait_queues o) v (time_wait_response o) (total_time o)
    (status_code o) (bytes_read o) (captured_request_cookie o)
    (captured_response_cookie o) (termination_state o) (connections_active o)
    (connections_frontend o) (connections_backend o) (connections_server o) (retries
    o) (queue_server o) (queue_backend o) (captured_request_headers o)
    (captured_response_headers o) (raw_http_request o) (http_request_method o)
    (http_request_path o) (http_request_protocol o) (raw_line o) (is_valid o).

Definition set_time_wait_response (v : pyval) (o : Line) : Line :=
  mkLine (log_type o) (client_ip o) (client_port o) (raw_accept_date o) (accept_date
    o) (request_date o) (frontend_name o) (backend_name o) (server_name o)
    (time_wait_request o) (time_wait_queues o) (time_connect_server o) v (total_time
    o) (status_code o) (bytes_read o) (captured_request_cookie o)
    (captured_response_cookie o) (termination_state o) (connections_active o)
    (connections_frontend o) (connections_backend o) (connections_server o) (retries
    o) (queue_server o) (queue_backend o) (captured_request_headers o)
    (captured_response_headers o) (raw_http_request o) (http_request_method o)
    (http_request_path o) (http_request_protocol o) (raw_line o) (is_valid o).

Definition set_total_time (v : pyval) (o : Line) : Line :=
  mkLine (log_type o) (client_ip o) (client_port o) (raw_accept_date o) (accept_date
    o) (request_date o) (frontend_name o) (backend_name o) (server_name o)
    (time_wait_request o) (time_wait_queues o) (time_connect_server o)
    (time_wait_response o) v (status_code o) (bytes_read o) (captured_request_cookie
    o) (captured_response_cookie o) (termination_state o) (connections_active o)
    (connections_frontend o) (connections_backend o) (connections_server o) (retries
    o) (queue_server o) (queue_backend o) (captured_request_headers o)
    (captured_response_headers o) (raw_http_request o) (http_request_method o)
    (http_request_path o) (http_request_protocol o) (raw_line o) (is_valid o).

Definition set_status_code (v : pyval) (o : Line) : Line :=
  mkLine (log_type o) (client_ip o) (client_port o) (raw_accept_date o) (accept_date
    o) (request_date o) (frontend_name o) (backend_name o) (server_name o)
    (time_wait_request o) (time_wait_queues o) (time_connect_server o)
    (time_wait_response o) (total_time o) v (bytes_read o) (captured_request_cookie o)
    (captured_response_cookie o) (termination_state o) (connections_active o)
    (connections_frontend o) (connections_backend o) (connections_server o) (retries
    o) (queue_server o) (queue_backend o) (captured_request_headers o)
    (captured_response_headers o) (raw_http_request o) (http_request_method o)
    (http_request_path o) (http_request_protocol o) (raw_line o) (is_valid o).

Definition set_bytes_read (v : pyval) (o : Line) : Line :=
  mkLine (log_type o) (client_ip o) (client_port o) (raw_accept_date o) (accept_date
    o) (request_date o) (frontend_name o) (backend_name o) (server_name o)
    (time_wait_request o) (time_wait_queues o) (time_connect_server o)
    (time_wait_response o) (total_time o) (status_code o) v (captured_request_cookie
    o) (captured_response_cookie o) (termination_state o) (connections_active o)
    (connections_frontend o) (connections_backend o) (connections_server o) (retries
    o) (queue_server o) (queue_backend o) (captured_request_headers o)
    (captured_response_headers o) (raw_http_request o) (http_request_method o)
    (http_request_path o) (http_request_protocol o) (raw_line o) (is_valid o).

Definition set_connections_active (v : pyval) (o : Line) : Line :=
  mkLine (log_type o) (client_ip o) (client_port o) (raw_accept_date o) (accept_date
    o) (request_date o) (frontend_name o) (backend_name o) (server_name o)
    (time_wait_request o) (time_wait_queues o) (time_connect_server o)
    (time_wait_response o) (total_time o) (status_code o) (bytes_read o)
    (captured_request_cookie o) (captured_response_cookie o) (termination_state o) v
    (connections_frontend o) (connections_backend o) (connections_server o) (retries
    o) (queue_server o) (queue_backend o) (captured_request_headers o)
    (captured_response_headers o) (raw_http_request o) (http_request_method o)
    (http_request_path o) (http_request_protocol o) (raw_line o) (is_valid o).

Definition set_connections_frontend (v : pyval) (o : Line) : Line :=
  mkLine (log_type o) (client_ip o) (client_port o) (raw_accept_date o) (accept_date
    o) (request_date o) (frontend_name o) (backend_name o) (server_name o)
    (time_wait_request o) (time_wait_queues o) (time_connect_server o)
    (time_wait_response o) (total_time o) (status_code o) (bytes_read o)
    (captured_request_cookie o) (captured_response_cookie o) (termination_state o)
    (connections_active o) v (connections_backend o) (connections_server o) (retries
    o) (queue_server o) (queue_backend o) (captured_request_headers o)
    (captured_response_headers o) (raw_http_request o) (http_request_method o)
    (http_request_path o) (http_request_protocol o) (raw_line o) (is_valid o).

Definition set_connections_backend (v : pyval) (o : Line) : Line :=
  mkLine (log_type o) (client_ip o) (client_port o) (raw_accept_date o) (accept_date
    o) (request_date o) (frontend_name o) (backend_name o) (server_name o)
    (time_wait_request o) (time_wait_queues o) (time_connect_server o)
    (time_wait_response o) (total_time o) (status_code o) (bytes_read o)
    (captured_request_cookie o) (captured_response_cookie o) (termination_state o)
    (connections_active o) (connections_frontend o) v (connections_server o) (retries
    o) (queue_server o) (queue_backend o) (captured_request_headers o)
    (captured_response_headers o) (raw_http_request o) (http_request_method o)
    (http_request_path o) (http_request_protocol o) (raw_line o) (is_valid o).

Definition set_connections_server (v : pyval) (o : Line) : Line :=
  mkLine (log_type o) (client_ip o) (client_port o) (raw_accept_date o) (accept_date
    o) (request_date o) (frontend_name o) (backend_name o) (server_name o)
    (time_wait_request o) (time_wait_queues o) (time_connect_server o)
    (time_wait_response o) (total_time o) (status_code o) (bytes_read o)
    (captured_request_cookie o) (captured_response_cookie o) (termination_state o)
    (connections_active o) (connections_frontend o) (connections_backend o) v (retries
    o) (queue_server o) (queue_backend o) (captured_request_headers o)
    (captured_response_headers o) (raw_http_request o) (http_request_method o)
    (http_request_path o) (http_request_protocol o) (raw_line o) (is_valid o).

Definition set_retries (v : pyval) (o : Line) : Line :=
  mkLine (log_type o) (client_ip o) (client_port o) (raw_accept_date o) (accept_date
    o) (request_date o) (frontend_name o) (backend_name o) (server_name o)
    (time_wait_request o) (time_wait_queues o) (time_connect_server o)
    (time_wait_response o) (total_time o) (status_code o) (bytes_read o)
    (captured_request_cookie o) (captured_response_cookie o) (termination_state o)
    (connections_active o) (connections_frontend o) (connections_backend o)
    (connections_server o) v (queue_server o) (queue_backend o)
    (captured_request_headers o) (captured_response_headers o) (raw_http_request o)
    (http_request_method o) (http_request_path o) (http_request_protocol o) (raw_line
    o) (is_valid o).

Definition set_queue_server (v : pyval) (o : Line) : Line :=
  mkLine (log_type o) (client_ip o) (client_port o) (raw_accept_date o) (accept_date
    o) (request_date o) (frontend_name o) (backend_name o) (server_name o)
    (time_wait_request o) (time_wait_queues o) (time_connect_server o)
    (time_wait_response o) (total_time o) (status_code o) (bytes_read o)
    (captured_request_cookie o) (captured_response_cookie o) (termination_state o)
    (connections_active o) (connections_frontend o) (connections_backend o)
    (connections_server o) (retries o) v (queue_backend o) (captured_request_headers
    o) (captured_response_headers o) (raw_http_request o) (http_request_method o)
    (http_request_path o) (http_request_protocol o) (raw_line o) (is_valid o).

Definition set_queue_backend (v : pyval) (o : Line) : Line :=
  mkLine (log_type o) (client_ip o) (client_port o) (raw_accept_date o) (accept_date
    o) (request_date o) (frontend_name o) (backend_name o) (server_name o)
    (time_wait_request o) (time_wait_queues o) (time_connect_server o)
    (time_wait_response o) (total_time o) (status_code o) (bytes_read o)
    (captured_request_cookie o) (captured_response_cookie o) (termination_state o)
    (connections_active o) (connections_frontend o) (connections_backend o)
    (connections_server o) (retries o) (queue_server o) v (captured_request_headers o)
    (captured_response_headers o) (raw_http_request o) (http_request_method o)
    (http_request_path o) (http_request_protocol o) (raw_line o) (is_valid o).

Definition set_captured_request_headers (v : pyval) (o : Line) : Line :=
  mkLine (log_type o) (client_ip o) (client_port o) (raw_accept_date o) (accept_date
    o) (request_date o) (frontend_name o) (backend_name o) (server_name o)
    (time_wait_request o) (time_wait_queues o) (time_connect_server o)
    (time_wait_response o) (total_time o) (status_code o) (bytes_read o)
    (captured_request_cookie o) (captured_response_cookie o) (termination_state o)
    (connections_active o) (connections_frontend o) (connections_backend o)
    (connections_server o) (retries o) (queue_server o) (queue_backend o) v
    (captured_response_headers o) (raw_http_request o) (http_request_method o)
    (http_request_path o) (http_request_protocol o) (raw_line o) (is_valid o).

Definition set_captured_response_headers (v : pyval) (o : Line) : Line :=
  mkLine (log_type o) (client_ip o) (client_port o) (raw_accept_date o) (accept_date
    o) (request_date o) (frontend_name o) (backend_name o) (server_name o)
    (time_wait_request o) (time_wait_queues o) (time_connect_server o)
    (time_wait_response o) (total_time o) (status_code o) (bytes_read o)
    (captured_request_cookie o) (captured_response_cookie o) (termination_state o)
    (connections_active o) (connections_frontend o) (connections_backend o)
    (connections_server o) (retries o) (queue_server o) (queue_backend o)
    (captured_request_headers o) v (raw_http_request o) (http_request_method o)
    (http_request_path o) (http_request_protocol o) (raw_line o) (is_valid o).

Definition set_raw_http_request (v : pyval) (o : Line) : Line :=
  mkLine (log_type o) (client_ip o) (client_port o) (raw_accept_date o) (accept_date
    o) (request_date o) (frontend_name o) (backend_name o) (server_name o)
    (time_wait_request o) (time_wait_queues o) (time_connect_server o)
    (time_wait_response o) (total_time o) (status_code o) (bytes_read o)
    (captured_request_cookie o) (captured_response_cookie o) (termination_state o)
    (connections_active o) (connections_frontend o) (connections_backend o)
    (connections_server o) (retries o) (queue_server o) (queue_backend o)
    (captured_request_headers o) (captured_response_headers o) v (http_request_method
    o) (http_request_path o) (http_request_protocol o) (raw_line o) (is_valid o).

Definition set_http_request_method (v : pyval) (o : Line) : Line :=
  mkLine (log_type o) (client_ip o) (client_port o) (raw_accept_date o) (accept_date
    o) (request_date o) (frontend_name o) (backend_name o) (server_name o)
    (time_wait_request o) (time_wait_queues o) (time_connect_server o)
    (time_wait_response o) (total_time o) (status_code o) (bytes_read o)
    (captured_request_cookie o) (captured_response_cookie o) (termination_state o)
    (connections_active o) (connections_frontend o) (connections_backend o)
    (connections_server o) (retries o) (queue_server o) (queue_backend o)
    (captured_request_headers o) (captured_response_headers o) (raw_http_request o) v
    (http_request_path o) (http_request_protocol o) (raw_line o) (is_valid o).

Definition set_http_request_path (v : pyval) (o : Line) : Line :=
  mkLine (log_type o) (client_ip o) (client_port o) (raw_accept_date o) (accept_date
    o) (request_date o) (frontend_name o) (backend_name o) (server_name o)
    (time_wait_request o) (time_wait_queues o) (time_connect_server o)
    (time_wait_response o) (total_time o) (status_code o) (bytes_read o)
    (captured_request_cookie o) (captured_response_cookie o) (termination_state o)
    (connections_active o) (connections_frontend o) (connections_backend o)
    (connections_server o) (retries o) (queue_server o) (queue_backend o)
    (captured_request_headers o) (captured_response_headers o) (raw_http_request o)
    (http_request_method o) v (http_request_protocol o) (raw_line o) (is_valid o).

Definition set_http_request_protocol (v : pyval) (o : Line) : Line :=
  mkLine (log_type o) (client_ip o) (client_port o) (raw_accept_date o) (accept_date
    o) (request_date o) (frontend_name o) (backend_name o) (server_name o)
    (time_wait_request o) (time_wait_queues o) (time_connect_server o)
    (time_wait_response o) (total_time o) (status_code o) (bytes_read o)
    (captured_request_cookie o) (captured_response_cookie o) (termination_state o)
    (connections_active o) (connections_frontend o) (connections_backend o)
    (connections_server o) (retries o) (queue_server o) (queue_backend o)
    (captured_request_headers o) (captured_response_headers o) (raw_http_request o)
    (http_request_method o) (http_request_path o) v (raw_line o) (is_valid o).

Definition set_raw_line (v : pyval) (o : Line) : Line :=
  mkLine (log_type o) (client_ip o) (client_port o) (raw_accept_date o) (accept_date
    o) (request_date o) (frontend_name o) (backend_name o) (server_name o)
    (time_wait_request o) (time_wait_queues o) (time_connect_server o)
    (time_wait_response o) (total_time o) (status_code o) (bytes_read o)
    (captured_request_cookie o) (captured_response_cookie o) (termination_state o)
    (connections_active o) (connections_frontend o) (connections_backend o)
    (connections_server o) (retries o) (queue_server o) (queue_backend o)
    (captured_request_headers o) (captured_response_headers o) (raw_http_request o)
    (http_request_method o) (http_request_path o) (http_request_protocol o) v
    (is_valid o).

Definition set_is_valid (v : bool) (o : Line) : Line :=
  mkLine (log_type o) (client_ip o) (client_port o) (raw_accept_date o) (accept_date
    o) (request_date o) (frontend_name o) (backend_name o) (server_name o)
    (time_wait_request o) (time_wait_queues o) (time_connect_server o)
    (time_wait_response o) (total_time o) (status_code o) (bytes_read o)
    (captured_request_cookie o) (captured_response_cookie o) (termination_state o)
    (connections_active o) (connections_frontend o) (connections_backend o)
    (connections_server o) (retries o) (queue_server o) (queue_backend o)
    (captured_request_headers o) (captured_response_headers o) (raw_http_request o)
    (http_request_method o) (http_request_path o) (http_request_protocol o) (raw_line
    o) v.

(** ** Formatting a value, as an f-string does *)

Fixpoint dec_digits (fuel : nat) (n : Z) (acc : chars) : chars :=
  match fuel with
  | O => acc
  | S fuel' =>
      let acc' := ascii_of_nat (48 + Z.to_nat (n mod 10)) :: acc in
      if (n / 10 =? 0)%Z then acc' else dec_digits fuel' (n / 10) acc'
  end.

Definition dec (n : Z) : chars := dec_digits (S (Z.to_nat (Z.log2 n))) n [].

Definition zfill (w : nat) (l : chars) : chars :=
  repeat "0"%char (w - List.length l) ++ l.

Definition str_int (z : Z) : chars :=
  if (z <? 0)%Z then "-"%char :: dec (- z) else dec z.

Definition str_datetime (d : datetime) : chars :=
  zfill 4 (dec (year d)) ++ L "-" ++ zfill 2 (dec (month d)) ++ L "-"
  ++ zfill 2 (dec (day d)) ++ L " " ++ zfill 2 (dec (hour d)) ++ L ":"
  ++ zfill 2 (dec (minute d)) ++ L ":" ++ zfill 2 (dec (second d))
  ++ (if (microsecond d =? 0)%Z then [] else L "." ++ zfill 6 (dec (microsecond d))).

Definition str_ (v : pyval) : string :=
  match v with
  | PNone => "None"
  | PStr s => s
  | PInt z => S_ (str_int z)
  | PDate d => S_ (str_datetime d)
  | PKind HTTP => "LineType.HTTP"
  | PKind TCP => "LineType.TCP"
  end.

(** ** Methods: state of the object, standard output, exceptions *)

Record world : Type := mkWorld { self : Line; stdout : list string }.

Definition M (A : Type) : Type := world -> (exn + A) * world.

Definition ret {A} (a : A) : M A := fun w => (inr a, w).

Definition bind {A B} (m : M A) (f : A -> M B) : M B :=
  fun w =>
    match m w with
    | (inr a, w') => f a w'
    | (inl e, w') => (inl e, w')
    end.

Notation "x <- m ;; k" := (bind m (fun x => k))
  (at level 61, m at next level, right associativity).
Notation "m ;; k" := (bind m (fun _ => k))
  (at level 61, right associativity).

Definition raise {A} (e : exn) : M A := fun w => (inl e, w).

Definition lift {A} (r : exn + A) : M A := fun w => (r, w).

Definition get {A} (f : Line -> A) : M A := fun w => (inr (f (self w)), w).

Definition assign {A} (set : A -> Line -> Line) (v : A) : M unit :=
  fun w => (inr tt, mkWorld (set v (self w)) (stdout w)).

Definition print (s : string) : M unit :=
  fun w => (inr tt, mkWorld (self w) (stdout w ++ [s])).

(** [self.f = int(v)] *)
Definition assign_int (set : pyval -> Line -> Line) (v : pyval) : M unit :=
  z <- lift (int_ v) ;; assign set (PInt z).

Definition pyval_is_str (v : pyval) (s : string) : bool :=
  match v with
  | PStr s' => String.eqb s' s
  | _ => false
  end.

Definition handle_bad_http_request : M unit :=
  assign set_http_request_method (PStr "invalid") ;;
  assign set_http_request_path (PStr "invalid") ;;
  assign set_http_request_protocol (PStr "invalid") ;;
  raw <- get raw_http_request ;;
  if negb (pyval_is_str raw "<BADREQ>")
  then print ("Could not process HTTP request " ++ str_ raw)%string
  else ret tt.

Definition _parse_http_request : M unit :=
  raw <- get raw_http_request ;;
  match raw with
  | PStr s =>
      match re_match HTTP_REQUEST_REGEX (L s) with
      | Some matches =>
          assign set_http_request_method (of_group (mgroup "method" matches)) ;;
          assign set_http_request_path (of_group (mgroup "path" matches)) ;;
          assign set_http_request_protocol (of_group (mgroup "protocol" matches))
      | None => handle_bad_http_request
      end
  | _ => raise TypeError
  end.

Definition _parse_accept_date : M pyval :=
  raw <- get raw_accept_date ;;
  match raw with
  | PStr s =>
      match strptime (L s) with
      | Some d => ret (PDate d)
      | None => raise ValueError
      end
  | _ => raise TypeError
  end.

Definition G (g : string) (matches : Match) : pyval := of_group (mgroup g matches).

Definition is_none (v : pyval) : bool :=
  match v with
  | PNone => true
  | _ => false
  end.

Definition _parse_http_fields (matches : Match) : M unit :=
  assign set_frontend_name (G "http_frontend_name" matches) ;;
  assign set_backend_name (G "http_backend_name" matches) ;;
  assign set_server_name (G "http_server_name" matches) ;;
  assign_int set_time_wait_request (G "http_Tq" matches) ;;
  assign_int set_time_wait_queues (G "http_Tw" matches) ;;
  assign_int set_time_connect_server (G "http_Tc" matches) ;;
  assign_int set_time_wait_response (G "http_Tr" matches) ;;
  assign set_total_time (G "http_Ta" matches) ;;
  assign set_status_code (G "http_status_code" matches) ;;
  assign set_bytes_read (G "http_bytes_read" matches) ;;
  assign set_captured_request_headers (G "captured_request_headers" matches) ;;
  assign set_captured_response_headers (G "captured_response_headers" matches) ;;
  (if negb (is_none (G "headers" matches))
   then assign set_captured_request_headers (G "headers" matches)
   else ret tt) ;;
  assign set_raw_http_request (G "http_request" matches) ;;
  raw <- get raw_http_request ;;
  if negb (is_none raw) then _parse_http_request else ret tt.

Definition _parse_tcp_fields (matches : Match) : M unit :=
  assign set_frontend_name (G "tcp_frontend_name" matches) ;;
  assign set_backend_name (G "tcp_backend_name" matches) ;;
  assign set_server_name (G "tcp_server_name" matches) ;;
  assign_int set_time_wait_queues (G "tcp_Tw" matches) ;;
  assign_int set_time_connect_server (G "tcp_Tc" matches) ;;
  assign_int set_total_time (G "tcp_Tt" matches) ;;
  assign set_bytes_read (G "tcp_bytes_read" matches).

Definition _parse_protocol_specific_fields (matches : Match) : M unit :=
  (if negb (is_none (G "http_frontend_name" matches))
   then assign set_log_type (PKind HTTP) ;; _parse_http_fields matches
   else assign set_log_type (PKind TCP) ;; _parse_tcp_fields matches) ;;
  assign set_connections_active (G "actconn" matches) ;;
  assign set_connections_frontend (G "feconn" matches) ;;
  assign set_connections_backend (G "beconn" matches) ;;
  assign set_connections_server (G "srv_conn" matches) ;;
  assign set_retries (G "retries" matches) ;;
  assign_int set_queue_server (G "srv_queue" matches) ;;
  assign_int set_queue_backend (G "backend_queue" matches).

Definition _parse_line (line : string) : M bool :=
  match re_match HAPROXY_LINE_REGEX (L line) with
  | None => ret false
  | Some matches =>
      assign set_client_ip (G "client_ip" matches) ;;
      assign_int set_client_port (G "client_port" matches) ;;
      assign set_raw_accept_date (G "accept_date" matches) ;;
      d <- _parse_accept_date ;;
      assign set_accept_date d ;;
      d' <- get accept_date ;;
      assign set_request_date d' ;;
      _parse_protocol_specific_fields matches ;;
      ret true
  end.

Definition __init__ (line : string) : M unit :=
  assign set_raw_line (PStr line) ;;
  v <- _parse_line line ;;
  assign set_is_valid v.

(** [Line(line)]: the object when the constructor returns, the exception when
    it raises, and what was printed. *)
Definition new_Line (line : string) : (exn + Line) * list string :=
  match __init__ line (mkWorld Line_defaults []) with
  | (inr _, w) => (inr (self w), stdout w)
  | (inl e, w) => (inl e, stdout w)
  end.

(** *** The derived queries

    A property or method that raises returns the exception on the left. *)

Fixpoint is_prefix (p l : chars) : bool :=
  match p, l with
  | [], _ => true
  | a :: p', b :: l' => Ascii.eqb a b && is_prefix p' l'
  | _ :: _, [] => false
  end.

(** [needle in hay] on strings. *)
Fixpoint contains (needle hay : chars) : bool :=
  is_prefix needle hay ||
  match hay with
  | [] => false
  | _ :: hay' => contains needle hay'
  end.

Definition is_https (o : Line) : exn + bool :=
  match http_request_path o with
  | PStr path => if contains (L ":443") (L path) then inr true else inr false
  | _ => inl TypeError
  end.

Definition dt_key (d : datetime) : list Z :=
  [year d; month d; day d; hour d; minute d; second d; microsecond d].

Fixpoint lex_ltb (a b : list Z) : bool :=
  match a, b with
  | x :: a', y :: b' => (x <? y)%Z || ((x =? y)%Z && lex_ltb a' b')
  | _, _ => false
  end.

(** [a < b] on instants. *)
Definition dt_ltb (a b : datetime) : bool := lex_ltb (dt_key a) (dt_key b).

(** The bounds are instants or [None]; an instant is always true. *)
Definition is_within_time_frame (o : Line) (start end_ : option datetime)
  : exn + bool :=
  match start with
  | None => inr true
  | Some s =>
      match accept_date o with
      | PDate a =>
          if dt_ltb a s then inr false
          else
            match end_ with
            | None => inr true
            | Some e => if dt_ltb e a then inr false else inr true
            end
      | _ => inl TypeError
      end
  end.

(** [s.split(sep)] for a separator of one character. *)
Fixpoint split (sep : ascii) (l : chars) : list chars :=
  match l with
  | [] => [[]]
  | a :: l' =>
      if Ascii.eqb a sep then [] :: split sep l'
      else
        match split sep l' with
        | w :: ws => (a :: w) :: ws
        | [] => [[a]]
        end
  end.

Definition first_token (h : chars) : chars := hd [] (split "|" h).

Definition nonempty (l : chars) : bool :=
  match l with
  | [] => false
  | _ :: _ => true
  end.

(** The property [ip]. *)
Definition ip (o : Line) : exn + pyval :=
  match captured_request_headers o with
  | PNone => inr (client_ip o)
  | PStr h =>
      let ip := first_token (L h) in
      if nonempty ip then inr (PStr (S_ ip)) else inr (client_ip o)
  | _ => inl TypeError
  end.




(** ** Shapes of captured substrings *)

(** A non-empty run of characters of a class. *)
Definition run_of (cs : ascii -> bool) (w : chars) : bool :=
  nonempty w && forallb cs w.

Definition digits (w : chars) : bool := run_of cls_digit w.

(** Digits after an optional sign [x]. *)
Definition signed (x : ascii) (w : chars) : bool :=
  match w with
  | a :: w' => if Ascii.eqb a x then digits w' else digits w
  | [] => false
  end.

(** ** The capture set of an accepted line, by parts

    What the groups of a successful match of the line pattern hold: the
    leading segments, the groups of the shape that matched, the counters and
    queues, and the optional tail. *)

Inductive shape_view : Type :=
| HttpView (fe be sv tq tw tc tr ta st by_ : chars)
| TcpView (fe be sv tw tc ttot by_ : chars).

Inductive headers_view : Type :=
| NoHeaders
| OneGroup (h : chars)
| TwoGroups (rq rs : chars).

Record view : Type := mkView {
  v_ip : chars; v_port : chars; v_date : chars;
  v_shape : shape_view;
  v_actconn : chars; v_feconn : chars; v_beconn : chars; v_srv_conn : chars;
  v_retries : chars;
  v_srv_queue : chars; v_backend_queue : chars;
  v_tail : option (headers_view * chars) }.

Definition shape_caps (v : shape_view) : caps :=
  match v with
  | HttpView fe be sv tq tw tc tr ta st by_ =>
      [("http_bytes_read", by_); ("http_status_code", st);
       ("http_Ta", ta); ("http_Tr", tr); ("http_Tc", tc);
       ("http_Tw", tw); ("http_Tq", tq);
       ("http_server_name", sv); ("http_backend_name", be);
       ("http_frontend_name", fe)]
  | TcpView fe be sv tw tc ttot by_ =>
      [("tcp_bytes_read", by_); ("tcp_Tt", ttot); ("tcp_Tc", tc); ("tcp_Tw", tw);
       ("tcp_server_name", sv); ("tcp_backend_name", be);
       ("tcp_frontend_name", fe)]
  end.

Definition headers_caps (h : headers_view) : caps :=
  match h with
  | NoHeaders => []
  | OneGroup h => [("headers", h)]
  | TwoGroups rq rs =>
      [("captured_response_headers", rs); ("captured_request_headers", rq)]
  end.

Definition tail_caps (t : option (headers_view * chars)) : caps :=
  match t with
  | None => []
  | Some (h, req) => ("http_request", req) :: headers_caps h
  end.

(** The groups in the order the matcher sets them, latest first. *)
Definition caps_of_view (v : view) : caps :=
  tail_caps (v_tail v)
  ++ [("backend_queue", v_backend_queue v); ("srv_queue", v_srv_queue v);
      ("retries", v_retries v); ("srv_conn", v_srv_conn v);
      ("beconn", v_beconn v); ("feconn", v_feconn v);
      ("actconn", v_actconn v)]
  ++ shape_caps (v_shape v)
  ++ [("accept_date", v_date v); ("client_port", v_port v);
      ("client_ip", v_ip v)].

Definition shape_ok (v : shape_view) : bool :=
  match v with
  | HttpView fe be sv tq tw tc tr ta st by_ =>
      signed "-" tq && signed "-" tw && signed "-" tc && signed "-" tr
      && signed "+" ta && signed "-" st && signed "+" by_
  | TcpView fe be sv tw tc ttot by_ =>
      signed "-" tw && signed "-" tc && signed "+" ttot && signed "+" by_
  end.

Definition tail_ok (t : option (headers_view * chars)) : bool :=
  match t with
  | None => true
  | Some (_, req) => run_of cls_not_quote req
  end.

Definition view_ok (v : view) : bool :=
  run_of cls_ip (v_ip v) && digits (v_port v) && run_of cls_dot (v_date v)
  && shape_ok (v_shape v)
  && digits (v_actconn v) && digits (v_feconn v) && digits (v_beconn v)
  && digits (v_srv_conn v) && signed "+" (v_retries v)
  && digits (v_srv_queue v) && digits (v_backend_queue v)
  && tail_ok (v_tail v).

(** The value of a run of digits, and of one with an optional sign. *)
Definition dec_value (w : chars) : Z :=
  fold_left (fun acc a => (10 * acc + digit_val a)%Z) w 0%Z.

Definition signed_value (w : chars) : Z :=
  match w with
  | a :: w' =>
      if code a =? 45 then (- dec_value w')%Z
      else if code a =? 43 then dec_value w'
      else dec_value w
  | [] => 0%Z
  end.

(** ** The record of an accepted line, field by field

    What [Line(line)] holds when the line pattern matched with the capture
    set [v] and the accept date parsed to [d]. *)

(** The three request attributes and what is printed, from the raw request. *)
Definition request_fields (raw : chars) : pyval * pyval * pyval * list string :=
  match re_match HTTP_REQUEST_REGEX raw with
  | Some m => (G "method" m, G "path" m, G "protocol" m, [])
  | None =>
      (PStr "invalid", PStr "invalid", PStr "invalid",
       if negb (pyval_is_str (PStr (S_ raw)) "<BADREQ>")
       then [("Could not process HTTP request " ++ S_ raw)%string]
       else [])
  end.

Definition str (w : chars) : pyval := PStr (S_ w).

Definition record_of (line : string) (v : view) (d : datetime) : Line :=
  match v_shape v with
  | HttpView fe be sv tq tw tc tr ta st by_ =>
      let hq := match v_tail v with
                | Some (OneGroup h, _) => str h
                | Some (TwoGroups rq _, _) => str rq
                | _ => PNone
                end in
      let hs := match v_tail v with
                | Some (TwoGroups _ rs, _) => str rs
                | _ => PNone
                end in
      let rq := match v_tail v with
                | Some (_, req) =>
                    let '(m, p, pr, _) := request_fields req in (str req, m, p, pr)
                | None => (PNone, PNone, PNone, PNone)
                end in
      let '(raw, m, p, pr) := rq in
      mkLine (PKind HTTP) (str (v_ip v)) (PInt (dec_value (v_port v)))
        (str (v_date v)) (PDate d) (PDate d)
        (str fe) (str be) (str sv)
        (PInt (signed_value tq)) (PInt (signed_value tw))
        (PInt (signed_value tc)) (PInt (signed_value tr)) (str ta)
        (str st) (str by_)
        PNone PNone PNone
        (str (v_actconn v)) (str (v_feconn v)) (str (v_beconn v))
        (str (v_srv_conn v)) (str (v_retries v))
        (PInt (dec_value (v_srv_queue v))) (PInt (dec_value (v_backend_queue v)))
        hq hs raw m p pr (PStr line) true
  | TcpView fe be sv tw tc ttot by_ =>
      mkLine (PKind TCP) (str (v_ip v)) (PInt (dec_value (v_port v)))
        (str (v_date v)) (PDate d) (PDate d)
        (str fe) (str be) (str sv)
        PNone (PInt (signed_value tw))
        (PInt (signed_value tc)) PNone (PInt (signed_value ttot))
        PNone (str by_)
        PNone PNone PNone
        (str (v_actconn v)) (str (v_feconn v)) (str (v_beconn v))
        (str (v_srv_conn v)) (str (v_retries v))
        (PInt (dec_value (v_srv_queue v))) (PInt (dec_value (v_backend_queue v)))
        PNone PNone PNone PNone PNone PNone (PStr line) true
  end.

Definition output_of (v : view) : list string :=
  match v_shape v, v_tail v with
  | HttpView _ _ _ _ _ _ _ _ _ _, Some (_, req) =>
      let '(_, _, _, out) := request_fields req in out
  | _, _ => []
  end.

(** The numbers of the capture set that the constructor converts with
    [int] are within the limit on digits: the timers of the format, the
    total time for TCP only. *)
Definition shape_fits (sv : shape_view) : bool :=
  match sv with
  | HttpView fe be sv tq tw tc tr ta st by_ =>
      within_limit tq && within_limit tw && within_limit tc && within_limit tr
  | TcpView fe be sv tw tc ttot by_ =>
      within_limit tw && within_limit tc && within_limit ttot
  end.

Definition view_fits (v : view) : bool :=
  within_limit (v_port v) && shape_fits (v_shape v)
  && within_limit (v_srv_queue v) && within_limit (v_backend_queue v).

(** What [Line(line)] does when the line pattern matched with the capture
    set [v], in the order of the code: the port is converted, the accept
    date parsed, the timers converted, the request parsed (and the notice
    printed), the queue pair converted. *)
Definition outcome_of (line : string) (v : view) : (exn + Line) * list string :=
  if within_limit (v_port v) then
    match strptime (v_date v) with
    | Some d =>
        if shape_fits (v_shape v) then
          if within_limit (v_srv_queue v) && within_limit (v_backend_queue v)
          then (inr (record_of line v d), output_of v)
          else (inl ValueError, output_of v)
        else (inl ValueError, [])
    | None => (inl ValueError, [])
    end
  else (inl ValueError, []).

(** The same on the groups of a match: every captured number the constructor
    converts is within the limit (the groups of the other format are not
    set). *)
Definition group_fits (g : string) (m : Match) : bool :=
  match mgroup g m with
  | Some w => within_limit w
  | None => true
  end.

Definition converted_fit (m : Match) : bool :=
  forallb (fun g => group_fits g m)
    ["client_port"; "http_Tq"; "http_Tw"; "http_Tc"; "http_Tr";
     "tcp_Tw"; "tcp_Tc"; "tcp_Tt"; "srv_queue"; "backend_queue"].

(** A line of the log whose port has one digit more than [int] converts. *)
Definition oversize_port_line : string :=
  "127.0.0.1:" ++ S_ (repeat "1"%char 4301)
  ++ " [09/Dec/2013:12:59:46.633] loadbalancer default/instance8 0/51536/1/48082/99627 200 83285 - - ---- 87/89/98/1/20 2/67".

(** [w] stands somewhere in [s]. *)
Definition factor (w s : chars) : Prop := exists pre post, s = pre ++ w ++ post.

(** ** How an attribute holds a captured number *)

(** The attribute is the integer [int] reads from the captured substring,
    its sign included. *)
Definition int_of_group (field : pyval) (cap : option chars) : Prop :=
  exists w, cap = Some w
    /\ int_of_chars w = Some (signed_value w)
    /\ field = PInt (signed_value w).

(** The attribute is the captured substring itself. *)
Definition str_of_group (field : pyval) (cap : option chars) : Prop :=
  exists w, cap = Some w /\ field = PStr (S_ w).

(** ** Full matches under one shape *)


(** What follows the choice between the two formats in the line pattern. *)
Definition AFTER_SHAPE : regex := Seq [COUNTERS; QUEUES; TAIL; Eos].


(** ** Inputs used in the examples *)

Definition example_line : string :=
  "127.0.0.1:2345 [09/Dec/2013:12:59:46.633] loadbalancer default/instance8 0/51536/1/48082/99627 200 83285 - - ---- 87/89/98/1/20 2/67 {77.24.148.74} "
  ++ String dquote "GET /path/to/image HTTP/1.1" ++ String dquote EmptyString.

(** The record of the example line. *)
Definition example_record : Line :=
  Eval vm_compute in
    match fst (new_Line example_line) with
    | inr r => r
    | inl _ => Line_defaults
    end.

(** The line of the test suite whose byte count is not a number. *)
Definition wrong_bytes_line : string :=
  "Dec  9 13:01:26 localhost haproxy[28029]: 127.0.0.1:2345 [09/Dec/2013:12:59:46.633] loadbalancer default/instance8 0/51536/1/48082/99627 200 wroooong - - ---- 87/89/98/1/20 2/67 {77.24.148.74} "
  ++ String dquote "GET /path/to/image HTTP/1.1" ++ String dquote EmptyString.

(** The accept date of the example line, and the same time a day earlier. *)
Definition example_accept : datetime := mkDatetime 2013 12 9 12 59 46 633000.
Definition day_before : datetime := mkDatetime 2013 12 8 12 59 46 633000.

(** The example line with an empty first token in its captured headers. *)
Definition empty_token_line : string :=
  "127.0.0.1:2345 [09/Dec/2013:12:59:46.633] loadbalancer default/instance8 0/51536/1/48082/99627 200 83285 - - ---- 87/89/98/1/20 2/67 {|77.24.148.74} "
  ++ String dquote "GET /path/to/image HTTP/1.1" ++ String dquote EmptyString.

(** A line in the TCP format, as the test suite builds it. *)
Definition tcp_line : string :=
  "Dec  9 13:01:26 localhost haproxy[28029]: 127.0.0.1:2345 [09/Dec/2013:12:59:46.633] loadbalancer default/instance8 51536/1/302045 18923 -- 87/89/98/1/20 2/67".

Definition tcp_record : Line :=
  Eval vm_compute in
    match fst (new_Line tcp_line) with
    | inr r => r
    | inl _ => Line_defaults
    end.

(** The example line with a bracketed field that is not a date. *)
Definition bad_date_line : string :=
  "127.0.0.1:2345 [yesterday] loadbalancer default/instance8 0/51536/1/48082/99627 200 83285 - - ---- 87/89/98/1/20 2/67 {77.24.148.74} "
  ++ String dquote "GET /path/to/image HTTP/1.1" ++ String dquote EmptyString.

Definition no_match : Match := mkMatch [] [].

Definition bad_date_match : Match :=
  Eval vm_compute in
    match re_match HAPROXY_LINE_REGEX (L bad_date_line) with
    | Some m => m
    | None => no_match
    end.

(** The example line with a request that is no request, as in the tests. *)
Definition bad_request_line : string :=
  "127.0.0.1:2345 [09/Dec/2013:12:59:46.633] loadbalancer default/instance8 0/51536/1/48082/99627 200 83285 - - ---- 87/89/98/1/20 2/67 {77.24.148.74} "
  ++ String dquote "something" ++ String dquote EmptyString.

Definition bad_request_match : Match :=
  Eval vm_compute in
    match re_match HAPROXY_LINE_REGEX (L bad_request_line) with
    | Some m => m
    | None => no_match
    end.

(** A line in the TCP format followed by a quoted string. *)
Definition tcp_request_line : string :=
  "127.0.0.1:2345 [09/Dec/2013:12:59:46.633] loadbalancer default/instance8 51536/1/302045 18923 -- 87/89/98/1/20 2/67 "
  ++ String dquote "something" ++ String dquote EmptyString.



(** ** Definitions used in the statements *)

Definition token (P : chars -> Prop) (r : regex) : Prop :=
  forall total s c s' c', den total r s c s' c' ->
    exists w, s = w ++ s' /\ c' = c /\ P w.

Definition leading_caps (ip port d : chars) : caps :=
  [("accept_date", d); ("client_port", port); ("client_ip", ip)].

Definition trailing_caps (ac fe be sv re sq bq : chars) : caps :=
  [("backend_queue", bq); ("srv_queue", sq);
   ("retries", re); ("srv_conn", sv); ("beconn", be); ("feconn", fe);
   ("actconn", ac)].

Definition path_like (w : chars) : Prop :=
  exists rest, w = "/"%char :: rest /\ forallb cls_path rest = true.

(** What is printed for a request that could not be processed. *)
Definition bad_request_notice (raw : chars) : list string :=
  if String.eqb (S_ raw) "<BADREQ>" then []
  else [("Could not process HTTP request " ++ S_ raw)%string].





(** What stands after a run is not of its class. *)
Definition stops (cs : ascii -> bool) (rest : chars) : Prop :=
  match rest with
  | a :: _ => cs a = false
  | [] => True
  end.










(** ** Further definitions used in the statements *)

Definition bad_request_record : Line :=
  Eval vm_compute in
    match fst (new_Line bad_request_line) with
    | inr r => r
    | inl _ => Line_defaults
    end.

(** The attribute is a string of digits after an optional sign [x]; [int]
    converts it to its value when its digits are within the limit, and
    raises [ValueError] when they are not. *)
Definition number_text (x : ascii) (v : pyval) : Prop :=
  exists w,
    v = PStr (S_ w) /\ signed x w = true
    /\ int_ v = if within_limit w then inr (signed_value w) else inl ValueError.

(** The attribute is a number that is not negative: an integer, or a string
    of digits after an optional [+]. *)
Definition nonneg_number (v : pyval) : Prop :=
  (exists z, v = PInt z /\ (0 <= z)%Z)
  \/ (number_text "+" v /\ forall z, int_ v = inr z -> (0 <= z)%Z).

(** [a <= b] on instants. *)
Definition dt_leb (a b : datetime) : bool := negb (dt_ltb b a).

(** The example line with the request of the test suite for HTTPS. *)
Definition https_line : string :=
  "127.0.0.1:2345 [09/Dec/2013:12:59:46.633] loadbalancer default/instance8 0/51536/1/48082/99627 200 83285 - - ---- 87/89/98/1/20 2/67 {77.24.148.74} "
  ++ String dquote "GET /domain:443/to/image HTTP/1.1" ++ String dquote EmptyString.

Definition https_record : Line :=
  Eval vm_compute in
    match fst (new_Line https_line) with
    | inr r => r
    | inl _ => Line_defaults
    end.

(** The example line with two values in its captured headers. *)
Definition two_headers_line : string :=
  "127.0.0.1:2345 [09/Dec/2013:12:59:46.633] loadbalancer default/instance8 0/51536/1/48082/99627 200 83285 - - ---- 87/89/98/1/20 2/67 {1.2.3.4|example.org} "
  ++ String dquote "GET /path/to/image HTTP/1.1" ++ String dquote EmptyString.

Definition two_headers_record : Line :=
  Eval vm_compute in
    match fst (new_Line two_headers_line) with
    | inr r => r
    | inl _ => Line_defaults
    end.

(** [parse_line(line)]: [Line(line.strip())]. *)
Definition parse_line (line : string) : (exn + Line) * list string :=
  new_Line (S_ (strip (L line))).

(** Neither the first nor the last character is white space. *)
Definition no_outer_space (core : chars) : bool :=
  match core with
  | [] => true
  | a :: _ => negb (cls_space a) && negb (cls_space (last core a))
  end.

(** The shape of a captured protocol. *)
Definition protocol_like (pr : chars) : Prop :=
  exists w d1 d2,
    pr = w ++ ["/"%char; d1; "."%char; d2]
    /\ run_of cls_word w = true /\ cls_digit d1 = true /\ cls_digit d2 = true.

(** What follows the optional syslog prefix in the line pattern. *)
Definition AFTER_PREFIX : regex :=
  Seq [CLIENT; ACCEPT_DATE; Alt HTTP_SHAPE TCP_SHAPE; COUNTERS; QUEUES; TAIL; Eos].

(** What the syslog prefix ends with. *)
Definition PREFIX_END : regex := Seq [Chr "]"; Chr ":"; Sp].

(** Patterns that never look at the start of the subject. *)
Fixpoint no_bos (r : regex) : bool :=
  match r with
  | Empty | Set_ _ | Eos => true
  | Cat r1 r2 | Alt r1 r2 => no_bos r1 && no_bos r2
  | Star r1 | Named _ r1 => no_bos r1
  | Bos => false
  end.

(** The text starts with what ends a syslog prefix: [\]:\s]. *)
Definition starts_prefix_end (l : chars) : bool :=
  match l with
  | a :: b :: x :: _ => is_char "]" a && is_char ":" b && cls_space x
  | _ => false
  end.

(** Nowhere in the text stands what ends a syslog prefix. *)
Fixpoint no_prefix_end (l : chars) : bool :=
  match l with
  | [] => true
  | a :: l' => negb (starts_prefix_end (a :: l')) && no_prefix_end l'
  end.

(** The example line behind the syslog prefix of the module's comment. *)
Definition syslog_line : string :=
  "Dec  9 13:01:26 localhost haproxy[28029]: " ++ example_line.

(** The text starts with a method, white space and a slash. *)
Definition request_like (raw : chars) : Prop :=
  exists me sp after,
    raw = me ++ sp ++ "/"%char :: after
    /\ run_of cls_word me = true /\ run_of cls_space sp = true.

(** The text between the accept date and the counters, in the HTTP and in the
    TCP log format: names, timers, and for HTTP the status code, then the
    bytes read, separated by single spaces and slashes. *)
Inductive shape_text : chars -> Prop :=
| http_text (fe be sv tq tw tc tr ta st by_ : chars) :
    forallb cls_dot fe = true -> forallb cls_dot be = true ->
    forallb cls_dot sv = true ->
    signed "-" tq = true -> signed "-" tw = true -> signed "-" tc = true ->
    signed "-" tr = true -> signed "+" ta = true ->
    signed "-" st = true -> signed "+" by_ = true ->
    shape_text (fe ++ " "%char :: be ++ "/"%char :: sv ++ " "%char
                  :: tq ++ "/"%char :: tw ++ "/"%char :: tc ++ "/"%char
                  :: tr ++ "/"%char :: ta ++ " "%char :: st ++ " "%char :: by_)
| tcp_text (fe be sv tw tc ttot by_ : chars) :
    forallb cls_dot fe = true -> forallb cls_dot be = true ->
    forallb cls_dot sv = true ->
    signed "-" tw = true -> signed "-" tc = true -> signed "+" ttot = true ->
    signed "+" by_ = true ->
    shape_text (fe ++ " "%char :: be ++ "/"%char :: sv ++ " "%char
                  :: tw ++ "/"%char :: tc ++ "/"%char :: ttot ++ " "%char :: by_).

(** The captured headers before the request: none, one group in braces, or
    two. *)
Inductive headers_text : chars -> Prop :=
| no_headers : headers_text []
| one_group (h : chars) :
    forallb cls_dot h = true ->
    headers_text ("{"%char :: h ++ "}"%char :: [" "%char])
| two_groups (rq rs : chars) :
    forallb cls_dot rq = true -> forallb cls_dot rs = true ->
    headers_text ("{"%char :: rq ++ "}"%char :: " "%char
                    :: "{"%char :: rs ++ "}"%char :: [" "%char]).

(** The end of the line: nothing, or the headers and the quoted request,
    with or without its closing quote. *)
Inductive tail_text : chars -> Prop :=
| no_tail : tail_text []
| request_tail (hs req cq : chars) :
    headers_text hs -> run_of cls_not_quote req = true ->
    cq = [] \/ cq = [dquote] ->
    tail_text (" "%char :: hs ++ dquote :: req ++ cq).

(** A line of the log: address, port, accept date, the part of the format,
    the flags, the counters, the queues and the end of the line. *)
Definition log_line (ip port date shape flags ac fc bc sc re sq bq tail : chars)
  : chars :=
  ip ++ ":"%char :: port ++ " "%char :: "["%char :: date ++ "]"%char :: " "%char
     :: shape ++ flags ++ " "%char
     :: ac ++ "/"%char :: fc ++ "/"%char :: bc ++ "/"%char :: sc ++ "/"%char
     :: re ++ " "%char :: sq ++ "/"%char :: bq ++ tail.

(** [reaches total r s s']: the pattern can consume [s] down to [s'],
    whatever the captures. *)
Definition reaches (total : nat) (r : regex) (s s' : chars) : Prop :=
  forall c, exists c', den total r s c s' c'.

(** The pieces of the example line. *)
Definition example_shape : chars :=
  L "loadbalancer default/instance8 0/51536/1/48082/99627 200 83285".

Definition example_tail : chars :=
  L " {77.24.148.74} " ++ dquote :: L "GET /path/to/image HTTP/1.1" ++ [dquote].

(** The text is empty or starts with a character no address starts with. *)
Definition no_address_start (l : chars) : bool :=
  match l with
  | [] => true
  | a :: _ => negb (cls_ip a)
  end.

(** * Properties *)

(** ** The matcher against [den] *)

Section MatcherFacts.
Variable total : nat.
Variable R : Type.

Lemma star_loop_sound (D : outcome) (body : chars -> caps -> cont R -> option R) :
  (forall s c k x, body s c k = Some x ->
     exists s' c', D s c s' c' /\ k s' c' = Some x) ->
  forall k fuel s c x, star_loop body k fuel s c = Some x ->
    exists s' c', iter D s c s' c' /\ k s' c' = Some x.
Proof.
  intros Hbody k fuel.
  induction fuel as [|fuel IH]; intros s c x H; simpl in H.
  - exists s, c. split; [constructor | exact H].
  - destruct (body s c _) as [y|] eqn:Eb.
    + inversion H; subst y; clear H.
      apply Hbody in Eb. destruct Eb as (s1 & c1 & HD & Hk).
      destruct (List.length s1 <? List.length s) eqn:El; [|discriminate].
      apply Nat.ltb_lt in El.
      apply IH in Hk. destruct Hk as (s2 & c2 & Hit & Hk).
      exists s2, c2. split; [|exact Hk].
      eapply iter_step; eauto.
    + exists s, c. split; [constructor | exact H].
Qed.

Theorem run_sound : forall r s c (k : cont R) x,
  run total r s c k = Some x ->
  exists s' c', den total r s c s' c' /\ k s' c' = Some x.
Proof.
  induction r as [|cs|r1 IH1 r2 IH2|r1 IH1 r2 IH2|r1 IH1|g r1 IH1| |];
    intros s c k x H; simpl in H.
  - exists s, c. simpl. auto.
  - destruct s as [|a s']; [discriminate|].
    destruct (cs a) eqn:Ea; [|discriminate].
    exists s', c. simpl. split; [exists a; auto | exact H].
  - apply IH1 in H. destruct H as (s1 & c1 & H1 & H).
    apply IH2 in H. destruct H as (s2 & c2 & H2 & H).
    exists s2, c2. split; [|exact H]. simpl. exists s1, c1. auto.
  - destruct (run total r1 s c k) as [y|] eqn:E1.
    + inversion H; subst y. apply IH1 in E1.
      destruct E1 as (s1 & c1 & H1 & Hk). exists s1, c1. simpl. auto.
    + apply IH2 in H. destruct H as (s1 & c1 & H1 & Hk).
      exists s1, c1. simpl. auto.
  - eapply star_loop_sound in H; [|intros; eapply IH1; eassumption].
    destruct H as (s1 & c1 & H1 & Hk). exists s1, c1. simpl. auto.
  - apply IH1 in H. destruct H as (s1 & c1 & H1 & Hk).
    eexists s1, _. split; [|exact Hk]. simpl. exists c1. auto.
  - destruct (List.length s =? total) eqn:E; [|discriminate].
    apply Nat.eqb_eq in E. exists s, c. simpl. auto.
  - destruct s; [|discriminate]. exists [], c. simpl. auto.
Qed.

Lemma star_loop_complete (D : outcome) (body : chars -> caps -> cont R -> option R) :
  (forall s c s' c' k, D s c s' c' -> k s' c' <> None -> body s c k <> None) ->
  forall k s c s' c', iter D s c s' c' -> k s' c' <> None ->
  forall fuel, List.length s <= fuel -> star_loop body k fuel s c <> None.
Proof.
  intros Hbody k s c s' c' Hit.
  induction Hit as [s c | s c s1 c1 s2 c2 HD Hlt Hit IH]; intros Hk fuel Hf.
  - destruct fuel; simpl; [exact Hk|].
    destruct (body s c _); [discriminate | exact Hk].
  - destruct fuel as [|fuel]; [lia|]. simpl.
    destruct (body s c _) as [y|] eqn:Eb; [discriminate|].
    exfalso. revert Eb. eapply Hbody; [exact HD|].
    assert (Hf' : List.length s1 <= fuel) by lia.
    apply Nat.ltb_lt in Hlt. rewrite Hlt. apply IH; [exact Hk | exact Hf'].
Qed.

Theorem run_complete : forall r s c s' c' (k : cont R),
  den total r s c s' c' -> k s' c' <> None -> run total r s c k <> None.
Proof.
  induction r as [|cs|r1 IH1 r2 IH2|r1 IH1 r2 IH2|r1 IH1|g r1 IH1| |];
    intros s c s' c' k H Hk; simpl in H; simpl.
  - destruct H; subst; exact Hk.
  - destruct H as (a & -> & Ha & ->). rewrite Ha. exact Hk.
  - destruct H as (s1 & c1 & H1 & H2).
    eapply IH1; [exact H1|]. eapply IH2; eauto.
  - destruct (run total r1 s c k) eqn:E1; [discriminate|].
    destruct H as [H|H]; [|eapply IH2; eauto].
    exfalso. revert E1. eapply IH1; eauto.
  - eapply star_loop_complete; eauto.
  - destruct H as (c1 & H1 & ->). eapply IH1; [exact H1|]. exact Hk.
  - destruct H as (Hl & -> & ->). apply Nat.eqb_eq in Hl. rewrite Hl. exact Hk.
  - destruct H as (-> & -> & ->). exact Hk.
Qed.
End MatcherFacts.

(** ** Tokens: patterns without groups

    [token P r]: whatever [r] matches is a string with the property [P], and
    the captures are left as they were. *)

Lemma token_Empty : token (fun w => w = []) Empty.
Proof. intros total s c s' c' [-> ->]. exists []. auto. Qed.

Lemma token_Set cs : token (fun w => exists a, w = [a] /\ cs a = true) (Set_ cs).
Proof.
  intros total s c s' c' (a & -> & Ha & ->). exists [a]. split; [reflexivity|].
  split; [reflexivity|]. exists a. auto.
Qed.

Lemma token_Chr x : token (fun w => w = [x]) (Chr x).
Proof.
  intros total s c s' c' H. apply token_Set in H.
  destruct H as (w & -> & -> & a & -> & Ha).
  apply Ascii.eqb_eq in Ha. subst a. exists [x]. auto.
Qed.

Lemma token_Cat P Q r1 r2 :
  token P r1 -> token Q r2 ->
  token (fun w => exists u v, w = u ++ v /\ P u /\ Q v) (Cat r1 r2).
Proof.
  intros H1 H2 total s c s' c' (s1 & c1 & D1 & D2).
  apply H1 in D1. apply H2 in D2.
  destruct D1 as (u & -> & -> & Hu). destruct D2 as (v & -> & -> & Hv).
  exists (u ++ v). rewrite app_assoc. split; [reflexivity|].
  split; [reflexivity|]. exists u, v. auto.
Qed.

Lemma token_Alt P Q r1 r2 :
  token P r1 -> token Q r2 -> token (fun w => P w \/ Q w) (Alt r1 r2).
Proof.
  intros H1 H2 total s c s' c' [D|D]; [apply H1 in D | apply H2 in D];
    destruct D as (w & -> & -> & Hw); exists w; auto.
Qed.

Lemma token_weaken (P Q : chars -> Prop) r :
  (forall w, P w -> Q w) -> token P r -> token Q r.
Proof.
  intros HPQ H total s c s' c' D. apply H in D.
  destruct D as (w & -> & -> & Hw). exists w. auto.
Qed.

Lemma token_Star_Set cs : token (fun w => forallb cs w = true) (Star (Set_ cs)).
Proof.
  intros total s c s' c' H. simpl in H.
  induction H as [s c | s c s1 c1 s2 c2 HD Hlt Hit IH].
  - exists []. auto.
  - destruct HD as (a & -> & Ha & ->).
    destruct IH as (w & -> & -> & Hw).
    exists (a :: w). simpl. rewrite Ha, Hw. auto.
Qed.

Lemma token_Plus_Set cs : token (fun w => run_of cs w = true) (Plus (Set_ cs)).
Proof.
  eapply token_weaken; [|apply token_Cat; [apply token_Set | apply token_Star_Set]].
  intros w (u & v & -> & (a & -> & Ha) & Hv). unfold run_of. simpl.
  rewrite Ha, Hv. reflexivity.
Qed.

Lemma token_Digits : token (fun w => digits w = true) Digits.
Proof. apply token_Plus_Set. Qed.

Lemma token_Sp : token (fun w => run_of cls_space w = true) Sp.
Proof. apply token_Plus_Set. Qed.

Lemma token_Any : token (fun w => forallb cls_dot w = true) Any.
Proof. apply token_Star_Set. Qed.

Lemma digits_not_sign x w :
  cls_digit x = false -> digits w = true -> signed x w = true.
Proof.
  intros Hx Hw. destruct w as [|a w]; [discriminate|]. simpl.
  destruct (Ascii.eqb a x) eqn:E; [|exact Hw].
  apply Ascii.eqb_eq in E. subst a.
  unfold digits, run_of in Hw. simpl in Hw. rewrite Hx in Hw. discriminate.
Qed.

Lemma token_signed x :
  cls_digit x = false ->
  token (fun w => signed x w = true) (Cat (Opt (Chr x)) Digits).
Proof.
  intros Hx.
  eapply token_weaken;
    [|apply token_Cat; [apply token_Alt; [apply token_Chr | apply token_Empty]
                       | apply token_Digits]].
  intros w (u & v & -> & [-> | ->] & Hv).
  - simpl. rewrite Ascii.eqb_refl. exact Hv.
  - simpl. apply digits_not_sign; assumption.
Qed.

Lemma token_Neg : token (fun w => signed "-" w = true) Neg.
Proof. apply token_signed. reflexivity. Qed.

Lemma token_Pos : token (fun w => signed "+" w = true) Pos.
Proof. apply token_signed. reflexivity. Qed.

Lemma firstn_consumed (w s' : chars) :
  firstn (List.length (w ++ s') - List.length s') (w ++ s') = w.
Proof.
  rewrite length_app, Nat.add_sub. rewrite firstn_app, Nat.sub_diag.
  rewrite firstn_all. simpl. apply app_nil_r.
Qed.

(** A group around a token captures the token. *)
Lemma den_Named_token P g r :
  token P r -> forall total s c s' c',
  den total (Named g r) s c s' c' ->
  exists w, s = w ++ s' /\ c' = (g, w) :: c /\ P w.
Proof.
  intros Hr total s c s' c' (c1 & D & ->). apply Hr in D. destruct D as (w & -> & -> & Hw).
  exists w. rewrite firstn_consumed. auto.
Qed.

(** ** The parts of the line pattern *)

Lemma den_Cat total r1 r2 s c s' c' :
  den total (Cat r1 r2) s c s' c' ->
  exists s1 c1, den total r1 s c s1 c1 /\ den total r2 s1 c1 s' c'.
Proof. exact (fun H => H). Qed.

Lemma den_token P r :
  token P r -> forall total s c s' c',
  den total r s c s' c' -> exists w, s = w ++ s' /\ c' = c /\ P w.
Proof. intros H. apply H. Qed.

(** Take a sequence of tokens and groups of tokens apart. *)
Ltac tok_lemma r :=
  lazymatch r with
  | Digits => constr:(token_Digits)
  | Neg => constr:(token_Neg)
  | Pos => constr:(token_Pos)
  | Any => constr:(token_Any)
  | Sp => constr:(token_Sp)
  | Chr ?x => constr:(token_Chr x)
  | Plus Dot => constr:(token_Plus_Set cls_dot)
  | Plus (Set_ ?cs) => constr:(token_Plus_Set cs)
  | Star (Set_ ?cs) => constr:(token_Star_Set cs)
  end.

Ltac take_apart H :=
  lazymatch type of H with
  | den _ (Cat _ _) _ _ _ _ =>
      let s1 := fresh "s" in
      let c1 := fresh "c" in
      let D1 := fresh "D" in
      let D2 := fresh "D" in
      apply den_Cat in H; destruct H as (s1 & c1 & D1 & D2);
      take_apart D1; take_apart D2
  | den _ (Named ?g ?r) _ _ _ _ =>
      let l := tok_lemma r in
      let w := fresh "w" in
      let Hw := fresh "Hw" in
      apply (den_Named_token _ _ _ l) in H; destruct H as (w & ? & ? & Hw); subst
  | den _ ?r _ _ _ _ =>
      let l := tok_lemma r in
      let w := fresh "w" in
      let Hw := fresh "Hw" in
      apply (den_token _ _ l) in H; destruct H as (w & ? & ? & Hw); subst
  end.

Lemma den_CLIENT total s c s' c' :
  den total CLIENT s c s' c' ->
  exists ip port,
    c' = ("client_port", port) :: ("client_ip", ip) :: c
    /\ run_of cls_ip ip = true /\ digits port = true.
Proof.
  unfold CLIENT; cbn [Seq]; intros H. take_apart H. eauto.
Qed.

Lemma den_ACCEPT_DATE total s c s' c' :
  den total ACCEPT_DATE s c s' c' ->
  exists d, c' = ("accept_date", d) :: c /\ run_of cls_dot d = true.
Proof.
  unfold ACCEPT_DATE; cbn [Seq]; intros H. take_apart H. eauto.
Qed.

Lemma den_HTTP_SHAPE total s c s' c' :
  den total HTTP_SHAPE s c s' c' ->
  exists fe be sv tq tw tc tr ta st by_,
    c' = ("http_bytes_read", by_) :: ("http_status_code", st)
         :: ("http_Ta", ta) :: ("http_Tr", tr) :: ("http_Tc", tc)
         :: ("http_Tw", tw) :: ("http_Tq", tq)
         :: ("http_server_name", sv) :: ("http_backend_name", be)
         :: ("http_frontend_name", fe) :: c
    /\ signed "-" tq = true /\ signed "-" tw = true /\ signed "-" tc = true
    /\ signed "-" tr = true /\ signed "+" ta = true
    /\ signed "-" st = true /\ signed "+" by_ = true.
Proof.
  unfold HTTP_SHAPE; cbn [Seq]; intros H. take_apart H.
  do 10 eexists. split; [reflexivity|]. auto 10.
Qed.

Lemma den_TCP_SHAPE total s c s' c' :
  den total TCP_SHAPE s c s' c' ->
  exists fe be sv tw tc ttot by_,
    c' = ("tcp_bytes_read", by_) :: ("tcp_Tt", ttot) :: ("tcp_Tc", tc)
         :: ("tcp_Tw", tw)
         :: ("tcp_server_name", sv) :: ("tcp_backend_name", be)
         :: ("tcp_frontend_name", fe) :: c
    /\ signed "-" tw = true /\ signed "-" tc = true
    /\ signed "+" ttot = true /\ signed "+" by_ = true.
Proof.
  unfold TCP_SHAPE; cbn [Seq]; intros H. take_apart H.
  do 7 eexists. split; [reflexivity|]. auto 10.
Qed.

Lemma den_COUNTERS total s c s' c' :
  den total COUNTERS s c s' c' ->
  exists ac fe be sv re,
    c' = ("retries", re) :: ("srv_conn", sv) :: ("beconn", be)
         :: ("feconn", fe) :: ("actconn", ac) :: c
    /\ digits ac = true /\ digits fe = true /\ digits be = true
    /\ digits sv = true /\ signed "+" re = true.
Proof.
  unfold COUNTERS; cbn [Seq]; intros H. take_apart H.
  do 5 eexists. split; [reflexivity|]. auto 10.
Qed.

Lemma den_QUEUES total s c s' c' :
  den total QUEUES s c s' c' ->
  exists sq bq,
    c' = ("backend_queue", bq) :: ("srv_queue", sq) :: c
    /\ digits sq = true /\ digits bq = true.
Proof.
  unfold QUEUES; cbn [Seq]; intros H. take_apart H. eauto.
Qed.

Lemma token_Bos : token (fun w => w = []) Bos.
Proof. intros total s c s' c' (_ & -> & ->). exists []. auto. Qed.

Lemma token_any_prop (P : chars -> Prop) r : token P r -> token (fun _ => True) r.
Proof. apply token_weaken. auto. Qed.

Lemma token_SYSLOG_PREFIX : token (fun _ => True) SYSLOG_PREFIX.
Proof.
  unfold SYSLOG_PREFIX, Opt; cbn [Seq].
  eapply token_weaken; [|apply token_Alt; [|apply token_Empty]].
  - intros w _. exact I.
  - eapply token_any_prop.
    apply token_Cat; [apply token_Bos|].
    apply token_Cat; [apply token_Any|].
    apply token_Cat; [apply token_Chr|].
    apply token_Cat; [apply token_Chr | apply token_Sp].
Qed.

Lemma den_HEADERS total s c s' c' :
  den total HEADERS s c s' c' ->
  exists h w, s = w ++ s' /\ c' = headers_caps h ++ c.
Proof.
  unfold HEADERS, Opt; cbn [Seq]. intros [[H|[H|H]]|H].
  - take_apart H. eexists (TwoGroups _ _), _.
    split; [|reflexivity]. repeat rewrite app_assoc. reflexivity.
  - take_apart H. eexists (OneGroup _), _.
    split; [|reflexivity]. repeat rewrite app_assoc. reflexivity.
  - take_apart H. exists NoHeaders. eexists. split; reflexivity.
  - destruct H as [-> ->]. exists NoHeaders, []. split; reflexivity.
Qed.

(** The tail, when present, ends with an opening quote, the request without
    any quote in it, and possibly a closing quote. *)
Lemma den_TAIL total s c s' c' :
  den total TAIL s c s' c' ->
  exists t, c' = tail_caps t ++ c /\ tail_ok t = true /\
    match t with
    | None => s = s'
    | Some (_, req) =>
        exists pre cq, s = pre ++ dquote :: req ++ cq ++ s'
                       /\ (cq = [] \/ cq = [dquote])
    end.
Proof.
  unfold TAIL, Opt; cbn [Seq]. intros [H|H].
  - apply den_Cat in H. destruct H as (s1 & c1 & D1 & H).
    apply den_Cat in H. destruct H as (s2 & c2 & D2 & H).
    apply den_Cat in H. destruct H as (s3 & c3 & D3 & H).
    apply den_Cat in H. destruct H as (s4 & c4 & D4 & D5).
    apply (den_token _ _ token_Sp) in D1. destruct D1 as (sp & -> & -> & _).
    apply den_HEADERS in D2. destruct D2 as (h & wh & -> & ->).
    apply (den_token _ _ (token_Chr dquote)) in D3.
    destruct D3 as (q & -> & -> & ->).
    apply (den_Named_token _ _ _ (token_Plus_Set cls_not_quote)) in D4.
    destruct D4 as (req & -> & -> & Hreq).
    exists (Some (h, req)).
    destruct D5 as [D5|D5].
    + apply (den_token _ _ (token_Chr dquote)) in D5.
      destruct D5 as (q & -> & -> & ->).
      split; [reflexivity|]. split; [exact Hreq|].
      exists (sp ++ wh), [dquote]. split; [|auto].
      repeat rewrite <- app_assoc. reflexivity.
    + destruct D5 as [-> ->].
      split; [reflexivity|]. split; [exact Hreq|].
      exists (sp ++ wh), []. split; [|auto].
      repeat rewrite <- app_assoc. reflexivity.
  - destruct H as [-> ->]. exists None. simpl. auto.
Qed.

(** What a pattern leaves is a suffix of where it started. *)
Lemma den_suffix total : forall r s c s' c',
  den total r s c s' c' -> exists w, s = w ++ s'.
Proof.
  induction r as [|cs|r1 IH1 r2 IH2|r1 IH1 r2 IH2|r1 IH1|g r1 IH1| |];
    intros s c s' c' H; simpl in H.
  - destruct H as [-> _]. exists []. reflexivity.
  - destruct H as (a & -> & _). exists [a]. reflexivity.
  - destruct H as (s1 & c1 & H1 & H2).
    apply IH1 in H1. apply IH2 in H2.
    destruct H1 as (u & ->). destruct H2 as (v & ->).
    exists (u ++ v). apply app_assoc.
  - destruct H as [H|H]; eauto.
  - induction H as [s c | s c s1 c1 s2 c2 HD Hlt Hit IH].
    + exists []. reflexivity.
    + apply IH1 in HD. destruct HD as (u & ->). destruct IH as (v & ->).
      exists (u ++ v). apply app_assoc.
  - destruct H as (c1 & H & _). eauto.
  - destruct H as (_ & -> & _). exists []. reflexivity.
  - destruct H as (-> & -> & _). exists []. reflexivity.
Qed.

(** The parts of a match of the whole line, around any shape. *)
Lemma den_LINE_WITH total shape s s' c' :
  den total (LINE_WITH shape) s [] s' c' ->
  exists ip port d s1 s2 c2 ac fe be sv re sq bq t,
    run_of cls_ip ip = true /\ digits port = true /\ run_of cls_dot d = true
    /\ den total shape s1 (leading_caps ip port d) s2 c2
    /\ digits ac = true /\ digits fe = true /\ digits be = true
    /\ digits sv = true /\ signed "+" re = true
    /\ digits sq = true /\ digits bq = true
    /\ tail_ok t = true
    /\ c' = tail_caps t ++ trailing_caps ac fe be sv re sq bq ++ c2
    /\ s' = []
    /\ match t with
       | None => True
       | Some (_, req) =>
           exists pre cq, s = pre ++ dquote :: req ++ cq
                          /\ (cq = [] \/ cq = [dquote])
       end.
Proof.
  unfold LINE_WITH; cbn [Seq]. intros H.
  apply den_Cat in H. destruct H as (sa & ca & Da & H).
  apply den_Cat in H. destruct H as (sb & cb & Db & H).
  apply den_Cat in H. destruct H as (sc & cc & Dc & H).
  apply den_Cat in H. destruct H as (sd & cd & Dd & H).
  apply den_Cat in H. destruct H as (se & ce & De & H).
  apply den_Cat in H. destruct H as (sf & cf & Df & H).
  apply den_Cat in H. destruct H as (sg & cg & Dg & Dh).
  pose proof (den_suffix _ _ _ _ _ _ Da) as (wa & Ea).
  pose proof (den_suffix _ _ _ _ _ _ Db) as (wb & Eb).
  pose proof (den_suffix _ _ _ _ _ _ Dc) as (wc & Ec).
  pose proof (den_suffix _ _ _ _ _ _ Dd) as (wd & Ed).
  pose proof (den_suffix _ _ _ _ _ _ De) as (we & Ee).
  pose proof (den_suffix _ _ _ _ _ _ Df) as (wf & Ef).
  apply (den_token _ _ token_SYSLOG_PREFIX) in Da. destruct Da as (_ & _ & -> & _).
  apply den_CLIENT in Db. destruct Db as (ip & port & -> & Hip & Hport).
  apply den_ACCEPT_DATE in Dc. destruct Dc as (d & -> & Hd).
  apply den_COUNTERS in De.
  destruct De as (ac & fe & be & sv & re & -> & Hac & Hfe & Hbe & Hsv & Hre).
  apply den_QUEUES in Df. destruct Df as (sq & bq & -> & Hsq & Hbq).
  apply den_TAIL in Dg. destruct Dg as (t & -> & Ht & Hs).
  destruct Dh as (-> & -> & ->).
  exists ip, port, d, sc, sd, cd, ac, fe, be, sv, re, sq, bq, t.
  repeat (split; [assumption || reflexivity|]).
  destruct t as [[h req]|]; [|exact I].
  destruct Hs as (pre & cq & -> & Hcq).
  exists (wa ++ wb ++ wc ++ wd ++ we ++ wf ++ pre), cq. split; [|exact Hcq].
  subst. repeat rewrite <- app_assoc. rewrite app_nil_r. reflexivity.
Qed.

(** The capture set of an accepted line. *)
Theorem line_view (s : chars) (m : Match) :
  re_match HAPROXY_LINE_REGEX s = Some m ->
  exists v, m_groups m = caps_of_view v /\ view_ok v = true /\ m_rest m = []
    /\ match v_tail v with
       | None => True
       | Some (_, req) =>
           exists pre cq, s = pre ++ dquote :: req ++ cq
                          /\ (cq = [] \/ cq = [dquote])
       end.
Proof.
  unfold re_match. intros H. apply run_sound in H.
  destruct H as (s' & c' & D & Hm). inversion Hm; subst m; clear Hm. simpl.
  apply den_LINE_WITH in D.
  destruct D as (ip & port & d & s1 & s2 & c2 & ac & fe & be & sv & re & sq
                 & bq & t & Hip & Hport & Hd & Dsh & Hac & Hfe & Hbe & Hsv
                 & Hre & Hsq & Hbq & Ht & -> & -> & Hs).
  destruct Dsh as [Dsh|Dsh].
  - apply den_HTTP_SHAPE in Dsh.
    destruct Dsh as (f & b & sn & tq & tw & tc & tr & ta & st & by_ & ->
                     & H1 & H2 & H3 & H4 & H5 & H6 & H7).
    exists (mkView ip port d (HttpView f b sn tq tw tc tr ta st by_)
                   ac fe be sv re sq bq t).
    split; [reflexivity|]. split; [|split; [reflexivity | exact Hs]].
    unfold view_ok; simpl.
    rewrite Hip, Hport, Hd, H1, H2, H3, H4, H5, H6, H7, Hac, Hfe, Hbe, Hsv,
      Hre, Hsq, Hbq, Ht. reflexivity.
  - apply den_TCP_SHAPE in Dsh.
    destruct Dsh as (f & b & sn & tw & tc & ttot & by_ & -> & H1 & H2 & H3 & H4).
    exists (mkView ip port d (TcpView f b sn tw tc ttot by_)
                   ac fe be sv re sq bq t).
    split; [reflexivity|]. split; [|split; [reflexivity | exact Hs]].
    unfold view_ok; simpl.
    rewrite Hip, Hport, Hd, H1, H2, H3, H4, Hac, Hfe, Hbe, Hsv,
      Hre, Hsq, Hbq, Ht. reflexivity.
Qed.

(** ** [int] on the captured numbers *)

Lemma int_lstrip_no_space l :
  forallb (fun a => negb (cls_int_space a)) l = true -> int_lstrip l = l.
Proof.
  destruct l as [|a l]; simpl; [reflexivity|].
  destruct (cls_int_space a); simpl; [discriminate | reflexivity].
Qed.

Lemma forallb_rev (f : ascii -> bool) l :
  forallb f (rev l) = forallb f l.
Proof.
  induction l as [|a l IH]; simpl; [reflexivity|].
  rewrite forallb_app, IH. simpl. rewrite andb_true_r. apply andb_comm.
Qed.

Lemma int_strip_no_space l :
  forallb (fun a => negb (cls_int_space a)) l = true -> int_strip l = l.
Proof.
  intros H. unfold int_strip. rewrite (int_lstrip_no_space _ H).
  rewrite int_lstrip_no_space by (rewrite forallb_rev; exact H).
  apply rev_involutive.
Qed.

Lemma digit_code a : cls_digit a = true -> 48 <= code a <= 57.
Proof.
  unfold cls_digit, in_range. intros H.
  apply andb_true_iff in H. destruct H as [H1 H2].
  apply Nat.leb_le in H1. apply Nat.leb_le in H2. lia.
Qed.

(** Decide comparisons of character codes that occur in the goal. *)
Ltac by_code :=
  repeat match goal with
    | |- context [?x <=? ?y] => destruct (Nat.leb_spec x y)
    | |- context [?x =? ?y] => destruct (Nat.eqb_spec x y)
    end;
  simpl; try reflexivity; try discriminate; try lia.

Lemma digit_not_space a : cls_digit a = true -> negb (cls_int_space a) = true.
Proof.
  intros H. apply digit_code in H. unfold cls_int_space, in_range. by_code.
Qed.

Lemma digits_no_space w :
  forallb cls_digit w = true -> forallb (fun a => negb (cls_int_space a)) w = true.
Proof.
  induction w as [|a w IH]; simpl; [reflexivity|].
  intros H. apply andb_true_iff in H. destruct H as [Ha Hw].
  rewrite (digit_not_space _ Ha), (IH Hw). reflexivity.
Qed.

Lemma digits_from_all acc w :
  forallb cls_digit w = true ->
  digits_from acc w = Some (fold_left (fun acc a => (10 * acc + digit_val a)%Z) w acc).
Proof.
  revert acc. induction w as [|a w IH]; intros acc H; simpl; [reflexivity|].
  simpl in H. apply andb_true_iff in H. destruct H as [Ha Hw].
  rewrite Ha. apply IH. exact Hw.
Qed.

(** [int] on a run of digits: its value when the digits are within the
    limit, [ValueError] otherwise. *)
Lemma unsigned_of_digits w :
  digits w = true ->
  unsigned_of w = if within_limit w then Some (dec_value w) else None.
Proof.
  unfold digits, run_of. destruct w as [|a w]; [discriminate|].
  cbn [nonempty forallb andb]. intros H.
  apply andb_true_iff in H. destruct H as [Ha Hw].
  unfold unsigned_of. rewrite Ha. cbn [andb].
  destruct (within_limit (a :: w)); [|reflexivity].
  unfold dec_value. cbn [fold_left]. apply digits_from_all. exact Hw.
Qed.

Lemma int_of_digits w :
  digits w = true ->
  int_of_chars w = if within_limit w then Some (dec_value w) else None.
Proof.
  intros H. pose proof H as H'. unfold digits, run_of in H'.
  apply andb_true_iff in H'. destruct H' as [Hne Hall].
  unfold int_of_chars.
  rewrite int_strip_no_space by (apply digits_no_space; exact Hall).
  destruct w as [|a w]; [discriminate|].
  simpl in Hall. apply andb_true_iff in Hall. destruct Hall as [Ha _].
  apply digit_code in Ha.
  replace (code a =? 45) with false by (symmetry; apply Nat.eqb_neq; lia).
  replace (code a =? 43) with false by (symmetry; apply Nat.eqb_neq; lia).
  apply unsigned_of_digits. exact H.
Qed.

(** A sign is no digit: it does not count for the limit. *)
Lemma within_limit_sign x w :
  x = "-"%char \/ x = "+"%char -> within_limit (x :: w) = within_limit w.
Proof. intros [-> | ->]; reflexivity. Qed.

Lemma int_of_signed x w :
  x = "-"%char \/ x = "+"%char ->
  signed x w = true ->
  int_of_chars w = if within_limit w then Some (signed_value w) else None.
Proof.
  intros Hx H. destruct w as [|a w]; [discriminate|]. simpl in H.
  destruct (Ascii.eqb a x) eqn:E.
  - apply Ascii.eqb_eq in E. subst a.
    pose proof H as H'. unfold digits, run_of in H'.
    apply andb_true_iff in H'. destruct H' as [_ Hall].
    rewrite (within_limit_sign _ _ Hx).
    unfold int_of_chars. rewrite int_strip_no_space.
    + destruct Hx as [-> | ->]; cbn [code Nat.eqb nat_of_ascii];
        rewrite (unsigned_of_digits _ H);
        destruct (within_limit w); reflexivity.
    + simpl. rewrite (digits_no_space _ Hall).
      destruct Hx as [-> | ->]; reflexivity.
  - rewrite (int_of_digits _ H). unfold signed_value.
    pose proof H as H'. unfold digits, run_of in H'. simpl in H'.
    apply andb_true_iff in H'. destruct H' as [Ha _].
    apply digit_code in Ha.
    replace (code a =? 45) with false by (symmetry; apply Nat.eqb_neq; lia).
    replace (code a =? 43) with false by (symmetry; apply Nat.eqb_neq; lia).
    reflexivity.
Qed.

Lemma L_S (w : chars) : L (S_ w) = w.
Proof. apply list_ascii_of_string_of_list_ascii. Qed.

Lemma S_L (s : string) : S_ (L s) = s.
Proof. apply string_of_list_ascii_of_string. Qed.

Lemma int_digits w :
  digits w = true ->
  int_ (PStr (S_ w))
  = if within_limit w then inr (dec_value w) else inl ValueError.
Proof.
  intros H. cbn [int_]. rewrite L_S, (int_of_digits _ H).
  destruct (within_limit w); reflexivity.
Qed.

Lemma int_signed_neg w :
  signed "-" w = true ->
  int_ (PStr (S_ w))
  = if within_limit w then inr (signed_value w) else inl ValueError.
Proof.
  intros H. cbn [int_]. rewrite L_S, (int_of_signed "-"%char w); auto.
  destruct (within_limit w); reflexivity.
Qed.

Lemma int_signed_pos w :
  signed "+" w = true ->
  int_ (PStr (S_ w))
  = if within_limit w then inr (signed_value w) else inl ValueError.
Proof.
  intros H. cbn [int_]. rewrite L_S, (int_of_signed "+"%char w); auto.
  destruct (within_limit w); reflexivity.
Qed.

(** ** The constructor on an accepted line *)

(** Reading an attribute that was just assigned. *)
Lemma get_raw_accept_date v o : raw_accept_date (set_raw_accept_date v o) = v.
Proof. reflexivity. Qed.

Lemma get_accept_date v o : accept_date (set_accept_date v o) = v.
Proof. reflexivity. Qed.

Lemma get_raw_http_request v o : raw_http_request (set_raw_http_request v o) = v.
Proof. reflexivity. Qed.

Lemma parse_accept_date_eval d o out :
  _parse_accept_date (mkWorld (set_raw_accept_date (PStr (S_ d)) o) out) =
    match strptime d with
    | Some dt => (inr (PDate dt), mkWorld (set_raw_accept_date (PStr (S_ d)) o) out)
    | None => (inl ValueError, mkWorld (set_raw_accept_date (PStr (S_ d)) o) out)
    end.
Proof.
  unfold _parse_accept_date, bind, get. cbn [self].
  rewrite get_raw_accept_date, L_S. destruct (strptime d); reflexivity.
Qed.

Lemma parse_http_request_eval req o out :
  _parse_http_request (mkWorld (set_raw_http_request (PStr (S_ req)) o) out) =
    let '(m, p, pr, printed) := request_fields req in
    (inr tt,
     mkWorld (set_http_request_protocol pr
               (set_http_request_path p
                 (set_http_request_method m
                   (set_raw_http_request (PStr (S_ req)) o))))
             (out ++ printed)).
Proof.
  unfold _parse_http_request, request_fields, bind, get. cbn [self].
  rewrite get_raw_http_request, L_S.
  destruct (re_match HTTP_REQUEST_REGEX req) as [m|].
  - cbn. rewrite app_nil_r. reflexivity.
  - unfold handle_bad_http_request, bind, assign, get, print, ret.
    cbn [self stdout].
    change (raw_http_request _) with (PStr (S_ req)).
    destruct (pyval_is_str (PStr (S_ req)) "<BADREQ>"); cbn [negb];
      [rewrite app_nil_r|]; reflexivity.
Qed.

(** Look the groups up in a capture set that is known. *)
Ltac lookup_groups :=
  repeat match goal with
    | |- context [G ?n ?M] =>
        let v := eval lazy beta iota zeta delta -[S_] in (G n M) in
        change (G n M) with v
    end.

Ltac rewrite_ints :=
  repeat match goal with
    | Hd : digits ?w = true |- context [int_ (PStr (S_ ?w))] =>
        rewrite (int_digits _ Hd)
    | Hd : signed "-" ?w = true |- context [int_ (PStr (S_ ?w))] =>
        rewrite (int_signed_neg _ Hd)
    | Hd : signed "+" ?w = true |- context [int_ (PStr (S_ ?w))] =>
        rewrite (int_signed_pos _ Hd)
    end.

(** The steps of a method. *)
Lemma bind_assoc A B C (m : M A) (f : A -> M B) (g : B -> M C) w :
  bind (bind m f) g w = bind m (fun a => bind (f a) g) w.
Proof. unfold bind. destruct (m w) as [[e|a] w']; reflexivity. Qed.

Lemma bind_assign A B (set : A -> Line -> Line) v (f : unit -> M B) w :
  bind (assign set v) f w = f tt (mkWorld (set v (self w)) (stdout w)).
Proof. reflexivity. Qed.

Lemma bind_lift A B (a : A) (f : A -> M B) w : bind (lift (inr a)) f w = f a w.
Proof. reflexivity. Qed.

Lemma bind_get A B (p : Line -> A) (f : A -> M B) w :
  bind (get p) f w = f (p (self w)) w.
Proof. reflexivity. Qed.

Lemma bind_ret A B (a : A) (f : A -> M B) w : bind (ret a) f w = f a w.
Proof. reflexivity. Qed.

Lemma bind_parse_accept_date B d o out (f : pyval -> M B) :
  bind _parse_accept_date f (mkWorld (set_raw_accept_date (PStr (S_ d)) o) out) =
    match strptime d with
    | Some dt => f (PDate dt) (mkWorld (set_raw_accept_date (PStr (S_ d)) o) out)
    | None => (inl ValueError, mkWorld (set_raw_accept_date (PStr (S_ d)) o) out)
    end.
Proof.
  unfold bind at 1. rewrite parse_accept_date_eval.
  destruct (strptime d); reflexivity.
Qed.

Lemma bind_parse_http_request B req o out (f : unit -> M B) :
  bind _parse_http_request f
       (mkWorld (set_raw_http_request (PStr (S_ req)) o) out) =
    f tt (mkWorld (set_http_request_protocol (snd (fst (request_fields req)))
                    (set_http_request_path (snd (fst (fst (request_fields req))))
                      (set_http_request_method
                         (fst (fst (fst (request_fields req))))
                         (set_raw_http_request (PStr (S_ req)) o))))
                  (out ++ snd (request_fields req))).
Proof.
  unfold bind at 1. rewrite parse_http_request_eval.
  destruct (request_fields req) as [[[m p] pr] printed]. reflexivity.
Qed.

(** Run the assignments of a method, leaving the setters folded. *)
Ltac run_method :=
  repeat (first [ rewrite bind_assoc | rewrite bind_assign | rewrite bind_lift
                | rewrite bind_get | rewrite bind_ret
                | rewrite bind_parse_http_request
                | rewrite get_accept_date | rewrite get_raw_http_request ];
          cbv beta; cbn [self stdout negb is_none]).

Lemma bind_lift_if A B (c : bool) (a : A) (e : exn) (f : A -> M B) w :
  bind (lift (if c then inr a else inl e)) f w
  = if c then f a w else (inl e, w).
Proof. destruct c; reflexivity. Qed.

(** The next conversion of the method: within the limit or not. *)
Ltac next_int :=
  rewrite bind_lift_if;
  match goal with
  | |- context [if within_limit ?w then _ else (inl _, _)] =>
      destruct (within_limit w);
      [|try destruct (request_fields _) as [[[? ?] ?] ?]; reflexivity]
  end.

Lemma new_Line_accepted line m v :
  re_match HAPROXY_LINE_REGEX (L line) = Some m ->
  m_groups m = caps_of_view v -> view_ok v = true ->
  new_Line line = outcome_of line v.
Proof.
  intros Hm Hg Hok.
  unfold new_Line, __init__, _parse_line. rewrite Hm.
  destruct m as [g r]. simpl in Hg. subst g.
  destruct v as [ip port d sh ac fe be sv re sq bq t].
  destruct sh; destruct t as [[[|h|rq rs] req]|];
    unfold view_ok in Hok; simpl in Hok;
    repeat match goal with
      | Hc : _ && _ = true |- _ => apply andb_true_iff in Hc; destruct Hc
      end.
  all: unfold _parse_protocol_specific_fields, _parse_http_fields,
         _parse_tcp_fields, assign_int, outcome_of, shape_fits,
         output_of, record_of;
       cbn [v_port v_date v_shape v_srv_queue v_backend_queue v_tail];
       lookup_groups; rewrite_ints.
  all: run_method; next_int.
  all: run_method; rewrite bind_parse_accept_date;
    (destruct (strptime d) as [dt|]; [|reflexivity]).
  all: repeat (run_method; next_int).
  all: run_method; unfold assign;
    cbn [self stdout andb];
    try (destruct (request_fields req) as [[[? ?] ?] ?]);
    reflexivity.
Qed.

Lemma new_Line_unmatched line :
  re_match HAPROXY_LINE_REGEX (L line) = None ->
  new_Line line = (inr (set_raw_line (PStr line) Line_defaults), []).
Proof.
  intros H. unfold new_Line, __init__, _parse_line. rewrite H. reflexivity.
Qed.

(** The outcome when every converted number is within the limit. *)
Lemma outcome_of_fits line v :
  view_fits v = true ->
  outcome_of line v =
    match strptime (v_date v) with
    | Some d => (inr (record_of line v d), output_of v)
    | None => (inl ValueError, [])
    end.
Proof.
  unfold view_fits, outcome_of. intros H.
  apply andb_true_iff in H. destruct H as [H Hbq].
  apply andb_true_iff in H. destruct H as [H Hsq].
  apply andb_true_iff in H. destruct H as [Hport Hsh].
  rewrite Hport, Hsh, Hsq, Hbq. reflexivity.
Qed.

(** The outcome is a record only when every converted number is within the
    limit and the accept date parses; otherwise it is [ValueError]. *)
Lemma outcome_of_record line v r out :
  outcome_of line v = (inr r, out) ->
  exists d,
    strptime (v_date v) = Some d /\ view_fits v = true
    /\ r = record_of line v d /\ out = output_of v.
Proof.
  unfold outcome_of, view_fits.
  destruct (within_limit (v_port v)); [|discriminate].
  destruct (strptime (v_date v)) as [d|]; [|discriminate].
  destruct (shape_fits (v_shape v)); [|discriminate].
  destruct (within_limit (v_srv_queue v)); [|discriminate].
  destruct (within_limit (v_backend_queue v)); [|discriminate].
  intros H. inversion H; subst. exists d. auto.
Qed.

Lemma outcome_of_raises line v :
  view_fits v = false \/ strptime (v_date v) = None ->
  exists out, outcome_of line v = (inl ValueError, out)
              /\ (out = [] \/ out = output_of v).
Proof.
  unfold outcome_of, view_fits.
  destruct (within_limit (v_port v));
    [|intros _; exists []; split; [reflexivity | left; reflexivity]].
  destruct (strptime (v_date v)) as [d|];
    [|intros _; exists []; split; [reflexivity | left; reflexivity]].
  destruct (shape_fits (v_shape v));
    [|intros _; exists []; split; [reflexivity | left; reflexivity]].
  destruct (within_limit (v_srv_queue v));
    [|intros _; exists (output_of v); split; [reflexivity | right; reflexivity]].
  destruct (within_limit (v_backend_queue v));
    [|intros _; exists (output_of v); split; [reflexivity | right; reflexivity]].
  intros [H|H]; discriminate.
Qed.

(** The limit on the groups of the match and on the capture set. *)
Lemma converted_fit_view m v :
  m_groups m = caps_of_view v -> converted_fit m = view_fits v.
Proof.
  intros Hg. unfold converted_fit, group_fits, mgroup, view_fits, shape_fits.
  rewrite Hg. destruct v as [ip port d sh ac fe be sv re sq bq t].
  destruct sh; destruct t as [[[|h|rq rs] req]|];
    cbn -[within_limit]; rewrite ?andb_true_r, ?andb_assoc; reflexivity.
Qed.

(** Every group a pattern sets holds a part of the text it was run on. *)
Lemma den_groups_factor total : forall r s c s' c',
  den total r s c s' c' ->
  forall g w, In (g, w) c' -> In (g, w) c \/ factor w s.
Proof.
  induction r as [|cs|r1 IH1 r2 IH2|r1 IH1 r2 IH2|r1 IH1|g0 r1 IH1| |];
    intros s c s' c' H g w Hin; simpl in H.
  - destruct H as [_ ->]. left. exact Hin.
  - destruct H as (a & _ & _ & ->). left. exact Hin.
  - destruct H as (s1 & c1 & H1 & H2).
    destruct (IH2 _ _ _ _ H2 _ _ Hin) as [Hc1 | (pre & post & E)].
    + apply (IH1 _ _ _ _ H1 _ _ Hc1).
    + right. destruct (den_suffix _ _ _ _ _ _ H1) as (u & ->). subst s1.
      exists (u ++ pre), post. rewrite <- app_assoc. reflexivity.
  - destruct H as [H|H]; eauto.
  - induction H as [s c | s c s1 c1 s2 c2 HD Hlt Hit IH].
    + left. exact Hin.
    + destruct (IH Hin) as [Hc1 | (pre & post & E)].
      * apply (IH1 _ _ _ _ HD _ _ Hc1).
      * right. destruct (den_suffix _ _ _ _ _ _ HD) as (u & ->). subst s1.
        exists (u ++ pre), post. rewrite <- app_assoc. reflexivity.
  - destruct H as (c1 & H & ->). destruct Hin as [E | Hin].
    + inversion E; subst. right.
      exists [], (skipn (List.length s - List.length s') s).
      cbn [app]. symmetry. apply firstn_skipn.
    + apply (IH1 _ _ _ _ H _ _ Hin).
  - destruct H as (_ & _ & ->). left. exact Hin.
  - destruct H as (_ & _ & ->). left. exact Hin.
Qed.

Lemma group_In g c w : group g c = Some w -> In (g, w) c.
Proof.
  induction c as [|[g' v] c IH]; cbn [group]; [discriminate|].
  destruct (String.eqb g g') eqn:E.
  - apply String.eqb_eq in E. subst g'. intros H. inversion H. left. reflexivity.
  - intros H. right. apply IH. exact H.
Qed.

Lemma match_group_factor r line m g w :
  re_match r line = Some m -> mgroup g m = Some w -> factor w line.
Proof.
  unfold re_match, mgroup. intros H Hg. apply run_sound in H.
  destruct H as (s' & c' & D & Hm). inversion Hm; subst m; clear Hm.
  cbn [m_groups] in Hg. apply group_In in Hg.
  destruct (den_groups_factor _ _ _ _ _ _ D _ _ Hg) as [[]|Hf]. exact Hf.
Qed.

Lemma within_limit_factor w s :
  factor w s -> within_limit s = true -> within_limit w = true.
Proof.
  intros (pre & post & ->). unfold within_limit.
  rewrite !filter_app, !length_app. intros H.
  apply Z.leb_le in H. apply Z.leb_le. lia.
Qed.

(** In a line with no more digits than the limit, every captured number is
    within the limit. *)
Lemma short_line_fits line m :
  re_match HAPROXY_LINE_REGEX line = Some m -> within_limit line = true ->
  converted_fit m = true.
Proof.
  intros Hm Hl. unfold converted_fit. apply forallb_forall. intros g _.
  unfold group_fits. destruct (mgroup g m) as [w|] eqn:Hg; [|reflexivity].
  apply (within_limit_factor w line); [|exact Hl].
  apply (match_group_factor _ _ _ _ _ Hm Hg).
Qed.

(** Every record the constructor returns as valid is the record of the
    capture set of the match, with the accept date parsed. *)
Lemma new_Line_valid line r out :
  new_Line line = (inr r, out) -> is_valid r = true ->
  exists m v d,
    re_match HAPROXY_LINE_REGEX (L line) = Some m
    /\ m_groups m = caps_of_view v /\ view_ok v = true
    /\ strptime (v_date v) = Some d
    /\ r = record_of line v d /\ out = output_of v.
Proof.
  intros H Hv.
  destruct (re_match HAPROXY_LINE_REGEX (L line)) as [m|] eqn:Hm.
  - destruct (line_view _ _ Hm) as (v & Hg & Hok & _ & _).
    rewrite (new_Line_accepted _ _ _ Hm Hg Hok) in H.
    apply outcome_of_record in H. destruct H as (d & Hd & _ & -> & ->).
    exists m, v, d. auto 10.
  - rewrite (new_Line_unmatched _ Hm) in H. inversion H; subst. discriminate.
Qed.

(** The numbers the constructor converted for a valid record were within
    the limit. *)
Lemma new_Line_valid_fits line r out m v :
  new_Line line = (inr r, out) ->
  re_match HAPROXY_LINE_REGEX (L line) = Some m ->
  m_groups m = caps_of_view v -> view_ok v = true ->
  view_fits v = true.
Proof.
  intros H Hm Hg Hok.
  rewrite (new_Line_accepted _ _ _ Hm Hg Hok) in H.
  apply outcome_of_record in H. destruct H as (d & _ & Hf & _). exact Hf.
Qed.

Lemma record_of_valid line v d : is_valid (record_of line v d) = true.
Proof.
  unfold record_of. destruct (v_shape v); [|reflexivity].
  destruct (v_tail v) as [[h req]|];
    [destruct (request_fields req) as [[[? ?] ?] ?]|]; reflexivity.
Qed.

(** A record that is not valid is the default record with the raw line. *)
Lemma new_Line_invalid line r out :
  new_Line line = (inr r, out) -> is_valid r = false ->
  r = set_raw_line (PStr line) Line_defaults /\ out = [].
Proof.
  intros H Hv.
  destruct (re_match HAPROXY_LINE_REGEX (L line)) as [m|] eqn:Hm.
  - destruct (line_view _ _ Hm) as (v & Hg & Hok & _ & _).
    rewrite (new_Line_accepted _ _ _ Hm Hg Hok) in H.
    apply outcome_of_record in H. destruct H as (d & _ & _ & -> & _).
    rewrite record_of_valid in Hv. discriminate.
  - rewrite (new_Line_unmatched _ Hm) in H. inversion H; subst. auto.
Qed.

(** ** The request pattern *)

Lemma token_Star_closed (P Q : chars -> Prop) r :
  token P r -> (forall w, P w -> Q w) -> Q [] ->
  (forall u v, Q u -> Q v -> Q (u ++ v)) ->
  token Q (Star r).
Proof.
  intros Hr HPQ Hnil Happ total s c s' c' H. simpl in H.
  induction H as [s c | s c s1 c1 s2 c2 HD Hlt Hit IH].
  - exists []. auto.
  - apply Hr in HD. destruct HD as (u & -> & -> & Hu).
    destruct IH as (v & -> & -> & Hv).
    exists (u ++ v). rewrite app_assoc. auto.
Qed.

Lemma token_request_path :
  token path_like (Plus (Cat (Chr "/") (Star (Set_ cls_path)))).
Proof.
  assert (Hseg : token (fun w => path_like w)
                   (Cat (Chr "/") (Star (Set_ cls_path)))).
  { eapply token_weaken; [|apply token_Cat; [apply token_Chr | apply token_Star_Set]].
    intros w (u & v & -> & -> & Hv). exists v. auto. }
  unfold Plus. eapply token_weaken;
    [|apply token_Cat;
       [exact Hseg
       |apply (token_Star_closed path_like (fun w => forallb cls_path w = true));
          [exact Hseg| | |]]].
  - intros w (u & v & -> & (rest & -> & Hrest) & Hv).
    exists (rest ++ v). split; [reflexivity|].
    rewrite forallb_app, Hrest, Hv. reflexivity.
  - intros w (rest & -> & Hrest). simpl. rewrite Hrest. reflexivity.
  - reflexivity.
  - intros u v Hu Hv. rewrite forallb_app, Hu, Hv. reflexivity.
Qed.

Lemma token_protocol :
  token (fun _ => True) (Seq [Plus Word; Chr "/"; Digit; Chr "."; Digit]).
Proof.
  cbn [Seq]. eapply token_any_prop.
  apply token_Cat; [apply token_Plus_Set|].
  apply token_Cat; [apply token_Chr|].
  apply token_Cat; [apply token_Set|].
  apply token_Cat; [apply token_Chr | apply token_Set].
Qed.

(** The groups of a successful match of the request pattern. *)
Lemma request_view (s : chars) (m : Match) :
  re_match HTTP_REQUEST_REGEX s = Some m ->
  exists me pa pr,
    m_groups m = match pr with
                 | Some p => [("protocol", p)]
                 | None => []
                 end ++ [("path", pa); ("method", me)]
    /\ run_of cls_word me = true /\ path_like pa.
Proof.
  unfold re_match. intros H. apply run_sound in H.
  destruct H as (s' & c' & D & Hm). inversion Hm; subst m; clear Hm. simpl.
  unfold HTTP_REQUEST_REGEX in D; cbn [Seq] in D.
  apply den_Cat in D. destruct D as (s1 & c1 & D1 & D).
  apply den_Cat in D. destruct D as (s2 & c2 & D2 & D).
  apply den_Cat in D. destruct D as (s3 & c3 & D3 & D4).
  apply (den_Named_token _ _ _ (token_Plus_Set cls_word)) in D1.
  destruct D1 as (me & -> & -> & Hme).
  apply (den_token _ _ token_Sp) in D2. destruct D2 as (sp & -> & -> & _).
  apply (den_Named_token _ _ _ token_request_path) in D3.
  destruct D3 as (pa & -> & -> & Hpa).
  destruct D4 as [D4|D4].
  - apply den_Cat in D4. destruct D4 as (s4 & c4 & D4 & D5).
    apply (den_token _ _ token_Sp) in D4. destruct D4 as (sp' & -> & -> & _).
    apply (den_Named_token _ _ _ token_protocol) in D5.
    destruct D5 as (pr & -> & -> & _).
    exists me, pa, (Some pr). auto.
  - destruct D4 as [-> ->]. exists me, pa, None. auto.
Qed.

(** What is printed: nothing, or the notice of the captured request. *)
Lemma output_of_notice m v :
  m_groups m = caps_of_view v ->
  output_of v = []
  \/ exists raw,
       mgroup "http_request" m = Some raw /\ output_of v = bad_request_notice raw.
Proof.
  intros Hg. unfold mgroup. rewrite Hg.
  destruct v as [ip port dt sh ac fe be sv re sq bq t].
  unfold output_of. cbn [v_shape v_tail].
  destruct sh; [|left; reflexivity].
  destruct t as [[h req]|]; [|left; reflexivity].
  unfold request_fields.
  destruct (re_match HTTP_REQUEST_REGEX req); [left; reflexivity|].
  right. exists req. split; [destruct h; reflexivity|].
  unfold bad_request_notice. cbn [pyval_is_str].
  destruct (String.eqb (S_ req) "<BADREQ>"); reflexivity.
Qed.

(** * The claims *)

(** ** C2: the end-to-end example *)

(** C2. Parsing the example line of the specification (no syslog prefix, one
    brace-delimited header group, a quoted request) gives a valid record with
    client 127.0.0.1:2345, frontend [loadbalancer], backend [default], server
    [instance8], status code "200", method GET, path /path/to/image and
    protocol HTTP/1.1. *)
Theorem C2_example_record :
  exists r,
    new_Line example_line = (inr r, [])
    /\ is_valid r = true
    /\ client_ip r = PStr "127.0.0.1"
    /\ client_port r = PInt 2345
    /\ frontend_name r = PStr "loadbalancer"
    /\ backend_name r = PStr "default"
    /\ server_name r = PStr "instance8"
    /\ status_code r = PStr "200"
    /\ http_request_method r = PStr "GET"
    /\ http_request_path r = PStr "/path/to/image"
    /\ http_request_protocol r = PStr "HTTP/1.1".
Proof.
  eexists. split; [vm_compute; reflexivity|]. repeat split.
Qed.

(** ** C5: lines the pattern does not match *)

(** C5. When the line pattern does not match the input, the constructor
    returns normally, nothing is printed, [is_valid] is false, [raw_line]
    holds the input and every other attribute is at its default [None]. *)
Theorem C5_unmatched_line (line : string) :
  re_match HAPROXY_LINE_REGEX (L line) = None ->
  exists r,
    new_Line line = (inr r, [])
    /\ is_valid r = false
    /\ raw_line r = PStr line
    /\ r = set_raw_line (PStr line) Line_defaults.
Proof.
  intros H. eexists. split; [apply new_Line_unmatched; exact H|].
  repeat split.
Qed.

Lemma C5_unmatched_line_witness :
  re_match HAPROXY_LINE_REGEX (L wrong_bytes_line) = None
  /\ exists r,
       new_Line wrong_bytes_line = (inr r, [])
       /\ is_valid r = false
       /\ raw_line r = PStr wrong_bytes_line
       /\ r = set_raw_line (PStr wrong_bytes_line) Line_defaults.
Proof.
  split; [vm_compute; reflexivity|].
  apply (C5_unmatched_line wrong_bytes_line). vm_compute. reflexivity.
Defined.

(** ** C4: the time window *)

(** What [is_within_time_frame] computes on a record with an accept date. *)
Lemma is_within_time_frame_eval o a start end_ :
  accept_date o = PDate a ->
  is_within_time_frame o start end_ =
    inr match start with
        | None => true
        | Some s =>
            negb (dt_ltb a s)
            && match end_ with
               | None => true
               | Some e => negb (dt_ltb e a)
               end
        end.
Proof.
  intros Ha. unfold is_within_time_frame. rewrite Ha.
  destruct start as [s|]; [|reflexivity].
  destruct (dt_ltb a s); [reflexivity|].
  destruct end_ as [e|]; [|reflexivity].
  destruct (dt_ltb e a); reflexivity.
Qed.

(** C4. With no start bound the check answers true whatever the end bound:
    on the record of the example line, accepted on 9 December 2013, the
    window with no start and an end on 8 December 2013 is reported to contain
    the accept date, although the end bound lies before it. *)
Theorem C4_end_bound_skipped :
  exists r,
    new_Line example_line = (inr r, [])
    /\ is_valid r = true
    /\ accept_date r = PDate example_accept
    /\ dt_ltb day_before example_accept = true
    /\ is_within_time_frame r None (Some day_before) = inr true.
Proof.
  eexists. split; [vm_compute; reflexivity|]. repeat split.
Qed.

(** ** C8: the resolved address *)

Lemma split_first sep l :
  exists w ws, split sep l = w :: ws.
Proof.
  induction l as [|a l IH]; simpl; [eauto|].
  destruct (Ascii.eqb a sep); [eauto|].
  destruct IH as (w & ws & ->). eauto.
Qed.

(** The first token is what stands before the first separator. *)
Lemma first_token_prefix h :
  exists rest,
    h = first_token h ++ rest
    /\ forallb (fun a => negb (Ascii.eqb a "|")) (first_token h) = true
    /\ (rest = [] \/ exists rest', rest = "|"%char :: rest').
Proof.
  unfold first_token. induction h as [|a h IH]; simpl.
  - exists []. auto.
  - destruct (Ascii.eqb a "|") eqn:E.
    + apply Ascii.eqb_eq in E. subst a. exists ("|"%char :: h). simpl. eauto.
    + destruct (split_first "|" h) as (w & ws & Hs). rewrite Hs in *.
      simpl in *. destruct IH as (rest & Hh & Hall & Hrest).
      exists rest. rewrite E, Hall. rewrite <- Hh. auto.
Qed.

(** The capture set fixes the headers and client address of a valid record. *)
Lemma valid_record_address line r out :
  new_Line line = (inr r, out) -> is_valid r = true ->
  (captured_request_headers r = PNone
   \/ exists h, captured_request_headers r = PStr h)
  /\ exists a, client_ip r = PStr (S_ a) /\ run_of cls_ip a = true.
Proof.
  intros H Hv. apply new_Line_valid in H; [|exact Hv].
  destruct H as (m & v & d & _ & _ & Hok & _ & -> & _).
  unfold view_ok in Hok.
  repeat match goal with
    | Hc : _ && _ = true |- _ => apply andb_true_iff in Hc; destruct Hc
    end.
  split.
  - unfold record_of. destruct (v_shape v); [|auto].
    destruct (v_tail v) as [[[|h|rq rs] req]|]; cbn;
      try destruct (request_fields req) as [[[? ?] ?] ?]; cbn; unfold str; eauto.
  - exists (v_ip v). split; [|assumption].
    unfold record_of. destruct (v_shape v); [|reflexivity].
    destruct (v_tail v) as [[[|h|rq rs] req]|]; cbn;
      try destruct (request_fields req) as [[[? ?] ?] ?]; reflexivity.
Qed.

(** C8 (as amended). On every valid record the property [ip] returns
    normally: the first [|]-delimited token of [captured_request_headers]
    when the headers are present and that token is not empty, and
    [client_ip] when the headers are absent or their first token is empty
    (also when the headers as a whole are not empty); [client_ip] is any
    non-empty run of hexadecimal digits, dots, colons and plus signs. *)
Theorem C8_resolved_ip (line : string) (r : Line) (out : list string) :
  new_Line line = (inr r, out) -> is_valid r = true ->
  (captured_request_headers r = PNone -> ip r = inr (client_ip r))
  /\ (forall h, captured_request_headers r = PStr h ->
        first_token (L h) = [] -> ip r = inr (client_ip r))
  /\ (forall h, captured_request_headers r = PStr h ->
        first_token (L h) <> [] ->
        ip r = inr (PStr (S_ (first_token (L h)))))
  /\ (captured_request_headers r = PNone
      \/ exists h, captured_request_headers r = PStr h)
  /\ exists a, client_ip r = PStr (S_ a) /\ run_of cls_ip a = true.
Proof.
  intros H Hv.
  split; [|split; [|split]].
  - intros Hh. unfold ip. rewrite Hh. reflexivity.
  - intros h Hh Ht. unfold ip. rewrite Hh, Ht. reflexivity.
  - intros h Hh Ht. unfold ip. rewrite Hh.
    destruct (first_token (L h)); [contradiction | reflexivity].
  - apply (valid_record_address line r out H Hv).
Qed.

Lemma C8_resolved_ip_witness :
  new_Line example_line = (inr example_record, [])
  /\ is_valid example_record = true
  /\ (captured_request_headers example_record = PNone ->
      ip example_record = inr (client_ip example_record))
  /\ (forall h, captured_request_headers example_record = PStr h ->
        first_token (L h) = [] ->
        ip example_record = inr (client_ip example_record))
  /\ (forall h, captured_request_headers example_record = PStr h ->
        first_token (L h) <> [] ->
        ip example_record = inr (PStr (S_ (first_token (L h)))))
  /\ (captured_request_headers example_record = PNone
      \/ exists h, captured_request_headers example_record = PStr h)
  /\ exists a, client_ip example_record = PStr (S_ a) /\ run_of cls_ip a = true.
Proof.
  split; [vm_compute; reflexivity|]. split; [reflexivity|].
  apply (C8_resolved_ip example_line example_record []);
    vm_compute; reflexivity.
Defined.

(** C8 (counterexample). The headers of this valid record are present and
    not empty, yet [ip] returns [client_ip] and not their first token, which
    is the empty string. *)
Lemma C8_counterexample :
  exists r,
    new_Line empty_token_line = (inr r, [])
    /\ is_valid r = true
    /\ captured_request_headers r = PStr "|77.24.148.74"
    /\ first_token (L "|77.24.148.74") = []
    /\ ip r = inr (PStr "127.0.0.1")
    /\ ip r <> inr (PStr (S_ (first_token (L "|77.24.148.74")))).
Proof.
  eexists. split; [vm_compute; reflexivity|].
  repeat split. vm_compute. discriminate.
Qed.

(** ** C10: [is_https] on records without a request path *)

Lemma request_fields_path req :
  exists p, snd (fst (fst (request_fields req))) = PStr p.
Proof.
  unfold request_fields.
  destruct (re_match HTTP_REQUEST_REGEX req) as [m|] eqn:Hm; [|simpl; eauto].
  apply request_view in Hm. destruct Hm as (me & pa & pr & Hg & _ & _).
  simpl. unfold G, mgroup. rewrite Hg.
  destruct pr as [pr|]; simpl; eauto.
Qed.

(** The request attributes of a record the constructor returned. *)
Lemma record_request_path line r out :
  new_Line line = (inr r, out) ->
  (raw_http_request r = PNone /\ http_request_path r = PNone
   /\ (is_valid r = false \/ log_type r = PKind TCP
       \/ (is_valid r = true /\ log_type r = PKind HTTP)))
  \/ (is_valid r = true /\ log_type r = PKind HTTP
      /\ (exists raw, raw_http_request r = PStr raw)
      /\ exists p, http_request_path r = PStr p).
Proof.
  intros H. destruct (is_valid r) eqn:Hv.
  - apply new_Line_valid in H; [|exact Hv].
    destruct H as (m & v & d & _ & _ & _ & _ & -> & _).
    unfold record_of in *. destruct (v_shape v).
    + destruct (v_tail v) as [[h req]|].
      * right. destruct (request_fields_path req) as (p & Hp).
        destruct (request_fields req) as [[[me pa] pr] pp]. simpl in Hp.
        subst pa. simpl. unfold str. eauto 10.
      * left. simpl. auto 10.
    + left. simpl. auto.
  - apply new_Line_invalid in H; [|exact Hv]. destruct H as [-> _].
    left. simpl. auto.
Qed.

(** C10. On every record the constructor returns whose [http_request_path]
    was never assigned (an invalid line, a valid line in the TCP format, a
    valid line in the HTTP format without a request) [is_https] raises
    [TypeError]; on the other records, those with a request, the path is a
    string (parsed, or the sentinel) and [is_https] returns whether it
    contains [:443]. *)
Theorem C10_is_https_unset_path (line : string) (r : Line) (out : list string) :
  new_Line line = (inr r, out) ->
  ((is_valid r = false \/ log_type r = PKind TCP \/ raw_http_request r = PNone) ->
     http_request_path r = PNone /\ is_https r = inl TypeError)
  /\ (raw_http_request r <> PNone ->
        exists p, http_request_path r = PStr p
                  /\ is_https r = inr (contains (L ":443") (L p))).
Proof.
  intros H. apply record_request_path in H.
  destruct H as [(Hraw & Hpath & _) | (Hv & Ht & (raw & Hraw) & (p & Hp))].
  - split.
    + intros _. split; [exact Hpath|]. unfold is_https. rewrite Hpath. reflexivity.
    + intros Hn. contradiction.
  - split.
    + intros [Hf | [Htcp | Hn]]; [congruence | congruence | congruence].
    + intros _. exists p. split; [exact Hp|]. unfold is_https. rewrite Hp.
      destruct (contains (L ":443") (L p)); reflexivity.
Qed.

Lemma C10_is_https_unset_path_witness :
  new_Line tcp_line = (inr tcp_record, [])
  /\ log_type tcp_record = PKind TCP
  /\ is_https tcp_record = inl TypeError.
Proof.
  split; [vm_compute; reflexivity|]. split; [reflexivity|].
  apply (C10_is_https_unset_path tcp_line tcp_record []);
    [vm_compute; reflexivity | right; left; reflexivity].
Defined.

(** ** C3: which attributes are integers *)

Lemma signed_value_digits w : digits w = true -> signed_value w = dec_value w.
Proof.
  unfold digits, run_of. destruct w as [|a w]; [discriminate|]. simpl.
  intros H. apply andb_true_iff in H. destruct H as [Ha _].
  apply digit_code in Ha. unfold signed_value.
  replace (code a =? 45) with false by (symmetry; apply Nat.eqb_neq; lia).
  replace (code a =? 43) with false by (symmetry; apply Nat.eqb_neq; lia).
  reflexivity.
Qed.

Lemma int_of_group_digits w :
  digits w = true -> within_limit w = true ->
  int_of_group (PInt (dec_value w)) (Some w).
Proof.
  intros H Hf. exists w. rewrite (signed_value_digits _ H).
  split; [reflexivity|].
  split; [rewrite (int_of_digits _ H), Hf; reflexivity | reflexivity].
Qed.

Lemma int_of_group_signed x w :
  x = "-"%char \/ x = "+"%char -> signed x w = true ->
  within_limit w = true ->
  int_of_group (PInt (signed_value w)) (Some w).
Proof.
  intros Hx H Hf. exists w. split; [reflexivity|].
  split; [rewrite (int_of_signed x _ Hx H), Hf; reflexivity | reflexivity].
Qed.

Lemma str_of_group_str w : str_of_group (str w) (Some w).
Proof. exists w. split; reflexivity. Qed.

Lemma dec_value_from_nonneg w acc :
  (0 <= acc)%Z ->
  (0 <= fold_left (fun acc a => (10 * acc + digit_val a)%Z) w acc)%Z.
Proof.
  revert acc. induction w as [|a w IH]; intros acc Hacc; cbn [fold_left];
    [exact Hacc|].
  apply IH. unfold digit_val. lia.
Qed.

Lemma dec_value_nonneg w : (0 <= dec_value w)%Z.
Proof. apply dec_value_from_nonneg. lia. Qed.

(** The value read keeps the sign of the substring. *)
Lemma signed_value_sign w :
  signed_value ("-"%char :: w) = (- dec_value w)%Z
  /\ signed_value ("+"%char :: w) = dec_value w.
Proof. split; reflexivity. Qed.

(** C3 (as amended). On every valid record the attributes parsed to integers
    from their captured substrings, sign preserved, are [client_port], the
    queue pair, the timers [time_wait_request], [time_wait_queues],
    [time_connect_server] and [time_wait_response] of the HTTP format, and
    [time_wait_queues], [time_connect_server] and [total_time] of the TCP
    format.  [total_time] of the HTTP format, the four connection counters
    and [retries] are kept as the captured strings, like [status_code] and
    [bytes_read]. *)
Theorem C3_numeric_fields (line : string) (r : Line) (out : list string) :
  new_Line line = (inr r, out) -> is_valid r = true ->
  exists m,
    re_match HAPROXY_LINE_REGEX (L line) = Some m
    /\ int_of_group (client_port r) (mgroup "client_port" m)
    /\ int_of_group (queue_server r) (mgroup "srv_queue" m)
    /\ int_of_group (queue_backend r) (mgroup "backend_queue" m)
    /\ str_of_group (connections_active r) (mgroup "actconn" m)
    /\ str_of_group (connections_frontend r) (mgroup "feconn" m)
    /\ str_of_group (connections_backend r) (mgroup "beconn" m)
    /\ str_of_group (connections_server r) (mgroup "srv_conn" m)
    /\ str_of_group (retries r) (mgroup "retries" m)
    /\ ((log_type r = PKind HTTP
         /\ int_of_group (time_wait_request r) (mgroup "http_Tq" m)
         /\ int_of_group (time_wait_queues r) (mgroup "http_Tw" m)
         /\ int_of_group (time_connect_server r) (mgroup "http_Tc" m)
         /\ int_of_group (time_wait_response r) (mgroup "http_Tr" m)
         /\ str_of_group (total_time r) (mgroup "http_Ta" m)
         /\ str_of_group (status_code r) (mgroup "http_status_code" m)
         /\ str_of_group (bytes_read r) (mgroup "http_bytes_read" m))
        \/ (log_type r = PKind TCP
            /\ int_of_group (time_wait_queues r) (mgroup "tcp_Tw" m)
            /\ int_of_group (time_connect_server r) (mgroup "tcp_Tc" m)
            /\ int_of_group (total_time r) (mgroup "tcp_Tt" m)
            /\ str_of_group (bytes_read r) (mgroup "tcp_bytes_read" m)
            /\ time_wait_request r = PNone
            /\ time_wait_response r = PNone
            /\ status_code r = PNone)).
Proof.
  intros H Hv. pose proof H as H0. apply new_Line_valid in H; [|exact Hv].
  destruct H as (m & v & d & Hm & Hg & Hok & _ & -> & _).
  pose proof (new_Line_valid_fits _ _ _ _ _ H0 Hm Hg Hok) as Hf. clear H0.
  exists m. split; [exact Hm|]. unfold mgroup. rewrite Hg. clear Hm Hg Hv.
  destruct v as [ip port dt sh ac fe be sv re sq bq t].
  destruct sh; destruct t as [[[|h|rq rs] req]|];
    unfold view_ok in Hok; simpl in Hok;
    unfold view_fits, shape_fits in Hf;
    cbn [v_port v_shape v_srv_queue v_backend_queue] in Hf;
    repeat match goal with
      | Hc : _ && _ = true |- _ => apply andb_true_iff in Hc; destruct Hc
      end;
    unfold record_of; cbn [v_shape v_tail];
    try destruct (request_fields req) as [[[? ?] ?] ?];
    cbn -[signed_value dec_value int_of_group str_of_group str];
    repeat match goal with
      | |- _ /\ _ => split
      | |- int_of_group (PInt (dec_value _)) _ =>
          apply int_of_group_digits; assumption
      | |- int_of_group (PInt (signed_value ?w)) _ =>
          first [ apply (int_of_group_signed "-"%char); [auto | assumption | assumption]
                | apply (int_of_group_signed "+"%char); [auto | assumption | assumption] ]
      | |- str_of_group _ _ => apply str_of_group_str
      | |- _ \/ _ => first [ left; split; [reflexivity|] | right; split; [reflexivity|] ]
      | |- _ = _ => reflexivity
      end.
Qed.

Lemma C3_numeric_fields_witness :
  new_Line example_line = (inr example_record, [])
  /\ is_valid example_record = true
  /\ exists m,
       re_match HAPROXY_LINE_REGEX (L example_line) = Some m
       /\ int_of_group (client_port example_record) (mgroup "client_port" m)
       /\ int_of_group (queue_server example_record) (mgroup "srv_queue" m)
       /\ int_of_group (queue_backend example_record) (mgroup "backend_queue" m).
Proof.
  split; [vm_compute; reflexivity|]. split; [reflexivity|].
  destruct (C3_numeric_fields example_line example_record [])
    as (m & Hm & H1 & H2 & H3 & _);
    [vm_compute; reflexivity | reflexivity |].
  exists m. auto.
Defined.

(** C3 (counterexample). On the example line, accepted by the pattern,
    [total_time], the four connection counters and [retries] are strings, not
    integers. *)
Lemma C3_counterexample :
  new_Line example_line = (inr example_record, [])
  /\ is_valid example_record = true
  /\ total_time example_record = PStr "99627"
  /\ connections_active example_record = PStr "87"
  /\ connections_frontend example_record = PStr "89"
  /\ connections_backend example_record = PStr "98"
  /\ connections_server example_record = PStr "1"
  /\ retries example_record = PStr "20"
  /\ (forall z, total_time example_record <> PInt z).
Proof.
  split; [vm_compute; reflexivity|]. repeat split. intros z. discriminate.
Qed.

(** ** C7: the accept date *)

Lemma mgroup_accept_date_view m v :
  m_groups m = caps_of_view v -> mgroup "accept_date" m = Some (v_date v).
Proof.
  intros Hg. unfold mgroup. rewrite Hg.
  destruct v as [ip port dt sh ac fe be sv re sq bq t].
  destruct sh; destruct t as [[[|h|rq rs] req]|]; reflexivity.
Qed.

Lemma view_ok_date v : view_ok v = true -> run_of cls_dot (v_date v) = true.
Proof.
  unfold view_ok. intros Hok.
  repeat (apply andb_true_iff in Hok; destruct Hok as [Hok ?]). assumption.
Qed.

Lemma record_of_dates line v d :
  raw_accept_date (record_of line v d) = PStr (S_ (v_date v))
  /\ accept_date (record_of line v d) = PDate d
  /\ request_date (record_of line v d) = PDate d.
Proof.
  unfold record_of. destruct (v_shape v); [|repeat split].
  destruct (v_tail v) as [[h req]|];
    [destruct (request_fields req) as [[[? ?] ?] ?]|]; repeat split.
Qed.

(** C7 (as amended). The line pattern only guarantees that the captured
    accept date is a non-empty run of characters other than line feed.  When
    the timestamp parser rejects it, for its shape or for its calendar
    values, the constructor raises [ValueError] before anything is printed
    and no record, valid or not, is returned.  When the parser accepts it
    and every captured number the constructor converts is within the limit
    of [int] on digits, the constructor returns a valid record holding the
    parsed instant; when one of these numbers is over the limit, it raises
    [ValueError] as well.  The numbers are within the limit whenever the
    line as a whole has no more digits than the limit.  A matched line never
    gives a record that is not valid. *)
Theorem C7_accept_date (line : string) (m : Match) :
  re_match HAPROXY_LINE_REGEX (L line) = Some m ->
  exists raw,
    mgroup "accept_date" m = Some raw
    /\ run_of cls_dot raw = true
    /\ (strptime raw = None -> new_Line line = (inl ValueError, []))
    /\ (forall d, strptime raw = Some d -> converted_fit m = true ->
          exists r out,
            new_Line line = (inr r, out) /\ is_valid r = true
            /\ raw_accept_date r = PStr (S_ raw)
            /\ accept_date r = PDate d /\ request_date r = PDate d)
    /\ (converted_fit m = false ->
          exists out, new_Line line = (inl ValueError, out))
    /\ (within_limit (L line) = true -> converted_fit m = true)
    /\ (forall r out,
          new_Line line = (inr r, out) ->
          is_valid r = true
          /\ exists d, strptime raw = Some d /\ accept_date r = PDate d).
Proof.
  intros Hm. destruct (line_view _ _ Hm) as (v & Hg & Hok & _ & _).
  pose proof (new_Line_accepted _ _ _ Hm Hg Hok) as Hn.
  exists (v_date v).
  split; [apply mgroup_accept_date_view; exact Hg|].
  split; [apply view_ok_date; exact Hok|].
  pose proof (short_line_fits _ _ Hm) as Hshort.
  rewrite (converted_fit_view _ _ Hg) in *.
  split; [|split; [|split; [|split; [exact Hshort|]]]].
  - intros Hs. rewrite Hn. unfold outcome_of. rewrite Hs.
    destruct (within_limit (v_port v)); reflexivity.
  - intros d Hs Hfit. rewrite Hn, (outcome_of_fits _ _ Hfit), Hs.
    eexists _, _. split; [reflexivity|].
    split; [apply record_of_valid | apply record_of_dates].
  - intros Hfit. rewrite Hn.
    destruct (outcome_of_raises line v (or_introl Hfit)) as (out & Ho & _).
    exists out. exact Ho.
  - intros r out Hr. rewrite Hn in Hr. apply outcome_of_record in Hr.
    destruct Hr as (d & Hd & _ & -> & _).
    split; [apply record_of_valid|].
    exists d. split; [exact Hd | apply record_of_dates].
Qed.

Lemma C7_accept_date_witness :
  re_match HAPROXY_LINE_REGEX (L bad_date_line) = Some bad_date_match
  /\ exists raw,
       mgroup "accept_date" bad_date_match = Some raw
       /\ run_of cls_dot raw = true
       /\ (strptime raw = None -> new_Line bad_date_line = (inl ValueError, [])).
Proof.
  split; [vm_compute; reflexivity|].
  destruct (C7_accept_date bad_date_line bad_date_match)
    as (raw & H1 & H2 & H3 & _); [vm_compute; reflexivity|].
  exists raw. auto.
Defined.

(** C7 (counterexample). The line pattern accepts this line, whose captured
    accept date does not have the shape of the date format: the format
    pattern of the timestamp parser does not match it, and the constructor
    raises [ValueError]. *)
Lemma C7_counterexample :
  re_match HAPROXY_LINE_REGEX (L bad_date_line) = Some bad_date_match
  /\ mgroup "accept_date" bad_date_match = Some (L "yesterday")
  /\ re_match ACCEPT_DATE_FORMAT (L "yesterday") = None
  /\ strptime (L "yesterday") = None
  /\ new_Line bad_date_line = (inl ValueError, []).
Proof.
  repeat split; vm_compute; reflexivity.
Qed.

(** ** C9: requests the request pattern does not match *)

(** C9 (as amended). For every line the line pattern matches in the HTTP
    format, whose accept date the timestamp parser accepts and whose captured
    request the request pattern does not match: when every captured number
    the constructor converts is within the limit of [int] on digits, the
    constructor returns a record with [is_valid] true and the method, path
    and protocol of the request all set to ['invalid'], and prints one notice
    naming the request, unless the request is [<BADREQ>], for which nothing
    is printed; when one of these numbers is over the limit, the constructor
    raises [ValueError], before the request is read or after that notice. *)
Theorem C9_unparseable_request (line : string) (m : Match) (raw date : chars) :
  re_match HAPROXY_LINE_REGEX (L line) = Some m ->
  mgroup "http_frontend_name" m <> None ->
  mgroup "http_request" m = Some raw ->
  re_match HTTP_REQUEST_REGEX raw = None ->
  mgroup "accept_date" m = Some date -> strptime date <> None ->
  (converted_fit m = true ->
   exists r,
     new_Line line = (inr r, bad_request_notice raw)
     /\ is_valid r = true
     /\ log_type r = PKind HTTP
     /\ raw_http_request r = PStr (S_ raw)
     /\ http_request_method r = PStr "invalid"
     /\ http_request_path r = PStr "invalid"
     /\ http_request_protocol r = PStr "invalid")
  /\ (converted_fit m = false ->
      exists out,
        new_Line line = (inl ValueError, out)
        /\ (out = [] \/ out = bad_request_notice raw)).
Proof.
  intros Hm Hfe Hreq Hbad Hdate Hparse.
  destruct (line_view _ _ Hm) as (v & Hg & Hok & _ & _).
  pose proof (new_Line_accepted _ _ _ Hm Hg Hok) as Hn.
  rewrite (converted_fit_view _ _ Hg).
  rewrite (mgroup_accept_date_view _ _ Hg) in Hdate.
  inversion Hdate as [Hdt]. clear Hdate.
  unfold mgroup in Hfe, Hreq. rewrite Hg in Hfe, Hreq.
  assert (Hv : output_of v = bad_request_notice raw
               /\ forall d,
                    log_type (record_of line v d) = PKind HTTP
                    /\ raw_http_request (record_of line v d) = PStr (S_ raw)
                    /\ http_request_method (record_of line v d) = PStr "invalid"
                    /\ http_request_path (record_of line v d) = PStr "invalid"
                    /\ http_request_protocol (record_of line v d) = PStr "invalid").
  { clear Hn Hdt. destruct v as [ip port dt sh ac fe be sv re sq bq t].
    destruct sh as [f b s tq tw tc tr ta st by_ | f b s tw tc ttot by_].
    - destruct t as [[h req]|].
      + assert (Hr : req = raw).
        { destruct h; cbn in Hreq; congruence. }
        subst req. unfold output_of, record_of. cbn [v_shape v_tail].
        unfold request_fields, bad_request_notice. rewrite Hbad.
        cbn [pyval_is_str].
        destruct (String.eqb (S_ raw) "<BADREQ>"); cbn [negb];
          (split; [reflexivity | intros d; repeat split]).
      + cbn in Hreq. discriminate.
    - exfalso. apply Hfe. destruct t as [[[|h|rq rs] req]|]; reflexivity. }
  destruct Hv as [Hout Hrec]. split.
  - intros Hfit. rewrite Hn, (outcome_of_fits _ _ Hfit), Hdt.
    destruct (strptime date) as [d|]; [|contradiction].
    exists (record_of line v d). rewrite Hout.
    split; [reflexivity|]. split; [apply record_of_valid | apply Hrec].
  - intros Hfit. rewrite Hn.
    destruct (outcome_of_raises line v (or_introl Hfit)) as (out & Ho & Hor).
    exists out. rewrite <- Hout. split; assumption.
Qed.

Lemma C9_unparseable_request_witness :
  re_match HAPROXY_LINE_REGEX (L bad_request_line) = Some bad_request_match
  /\ mgroup "http_frontend_name" bad_request_match <> None
  /\ mgroup "http_request" bad_request_match = Some (L "something")
  /\ re_match HTTP_REQUEST_REGEX (L "something") = None
  /\ mgroup "accept_date" bad_request_match = Some (L "09/Dec/2013:12:59:46.633")
  /\ strptime (L "09/Dec/2013:12:59:46.633") <> None
  /\ converted_fit bad_request_match = true
  /\ exists r,
       new_Line bad_request_line
         = (inr r, ["Could not process HTTP request something"])
       /\ is_valid r = true
       /\ http_request_method r = PStr "invalid"
       /\ http_request_path r = PStr "invalid"
       /\ http_request_protocol r = PStr "invalid".
Proof.
  split; [vm_compute; reflexivity|].
  split; [vm_compute; discriminate|].
  split; [vm_compute; reflexivity|].
  split; [vm_compute; reflexivity|].
  split; [vm_compute; reflexivity|].
  split; [vm_compute; discriminate|].
  split; [vm_compute; reflexivity|].
  destruct (C9_unparseable_request bad_request_line bad_request_match
              (L "something") (L "09/Dec/2013:12:59:46.633"))
    as [H _];
    [ vm_compute; reflexivity | vm_compute; discriminate
    | vm_compute; reflexivity | vm_compute; reflexivity
    | vm_compute; reflexivity | vm_compute; discriminate | ].
  destruct H as (r & H1 & H2 & _ & _ & H3 & H4 & H5);
    [vm_compute; reflexivity|].
  exists r. split; [exact H1|]. auto.
Defined.

(** C9 (counterexample). The line pattern matches this line, in the TCP
    format, and captures a request the request pattern does not match and that
    is not [<BADREQ>]; the record is valid, but the request attributes are left
    unset, not set to ['invalid'], and nothing is printed. *)
Lemma C9_counterexample :
  exists m r,
    re_match HAPROXY_LINE_REGEX (L tcp_request_line) = Some m
    /\ mgroup "http_request" m = Some (L "something")
    /\ re_match HTTP_REQUEST_REGEX (L "something") = None
    /\ new_Line tcp_request_line = (inr r, [])
    /\ is_valid r = true
    /\ log_type r = PKind TCP
    /\ http_request_method r = PNone
    /\ http_request_path r = PNone
    /\ http_request_protocol r = PNone.
Proof.
  eexists _, _. split; [vm_compute; reflexivity|].
  split; [vm_compute; reflexivity|].
  split; [vm_compute; reflexivity|].
  split; [vm_compute; reflexivity|].
  repeat split.
Qed.

(** ** C1: the two formats *)








(** At any position the HTTP shape is tried first, with all that follows
    it; the TCP shape is tried only when that fails. *)
Lemma HTTP_tried_first total (R : Type) s c (k : cont R) :
  run total (Cat (Alt HTTP_SHAPE TCP_SHAPE) AFTER_SHAPE) s c k
  = match run total (Cat HTTP_SHAPE AFTER_SHAPE) s c k with
    | Some x => Some x
    | None => run total (Cat TCP_SHAPE AFTER_SHAPE) s c k
    end.
Proof. reflexivity. Qed.




(** ** Cutting the end of a line

    A pattern that never looks at the end of the subject matches the same
    way when what it left unread is cut off. *)
















(** ** The matcher on greedy runs *)

Lemma run_Cat total (R : Type) r1 r2 s c (k : cont R) :
  run total (Cat r1 r2) s c k
  = run total r1 s c (fun s1 c1 => run total r2 s1 c1 k).
Proof. reflexivity. Qed.

Lemma run_Named total (R : Type) g r s c (k : cont R) :
  run total (Named g r) s c k
  = run total r s c (fun s1 c1 =>
      k s1 (set_group g (firstn (List.length s - List.length s1) s) c1)).
Proof. reflexivity. Qed.

(** A star over a class takes the whole run when the continuation accepts
    what follows it. *)
Lemma run_star_set_greedy total (R : Type) cs w rest c (k : cont R) x :
  forallb cs w = true -> stops cs rest -> k rest c = Some x ->
  run total (Star (Set_ cs)) (w ++ rest) c k = Some x.
Proof.
  intros Hw Hrest Hk. induction w as [|a w IH].
  - simpl. destruct rest as [|b rest]; simpl; [exact Hk|].
    simpl in Hrest. rewrite Hrest. exact Hk.
  - simpl in Hw. apply andb_true_iff in Hw. destruct Hw as [Ha Hw].
    specialize (IH Hw). simpl in IH. simpl. rewrite Ha.
    replace (List.length (w ++ rest) <? S (List.length (w ++ rest))) with true
      by (symmetry; apply Nat.ltb_lt; lia).
    rewrite IH. reflexivity.
Qed.

Lemma run_plus_set_greedy total (R : Type) cs w rest c (k : cont R) x :
  run_of cs w = true -> stops cs rest -> k rest c = Some x ->
  run total (Plus (Set_ cs)) (w ++ rest) c k = Some x.
Proof.
  unfold run_of. intros Hw Hrest Hk. destruct w as [|a w]; [discriminate|].
  simpl in Hw. apply andb_true_iff in Hw. destruct Hw as [Ha Hw].
  unfold Plus. rewrite run_Cat. cbn [run app]. rewrite Ha.
  apply (run_star_set_greedy total); assumption.
Qed.

(** ** The request pattern on a request without protocol *)

(** Facts about one character, checked on every character. *)
Ltac by_all_chars a :=
  destruct a as [[] [] [] [] [] [] [] []]; vm_compute;
  first [ reflexivity | discriminate | intros; reflexivity | intros; discriminate ].

Lemma space_not_word a : cls_space a = true -> cls_word a = false.
Proof. by_all_chars a. Qed.

Lemma slash_not_space : cls_space "/" = false.
Proof. reflexivity. Qed.



(** ** C6: truncated lines *)

Lemma S_inj (a b : chars) : S_ a = S_ b -> a = b.
Proof. intros H. rewrite <- (L_S a), <- (L_S b), H. reflexivity. Qed.





(** * Further properties of the module *)

(** ** What the constructor can do *)

(** X1. The constructor has these outcomes and no other: the line pattern
    does not match and the default record with the raw line is returned,
    nothing printed; the pattern matches and the captured accept date does
    not parse or one of the captured numbers the constructor converts has
    more digits than [int] accepts, and [ValueError] is raised, after at
    most the notice of an unparseable request; the pattern matches, the date
    parses and these numbers are within the limit, and a valid record is
    returned.  It never raises [TypeError], and never returns an invalid
    record for a line the pattern matches. *)
Theorem constructor_outcomes (line : string) :
  (re_match HAPROXY_LINE_REGEX (L line) = None
   /\ new_Line line = (inr (set_raw_line (PStr line) Line_defaults), []))
  \/ (exists m date,
        re_match HAPROXY_LINE_REGEX (L line) = Some m
        /\ mgroup "accept_date" m = Some date
        /\ (((strptime date = None \/ converted_fit m = false)
             /\ exists out,
                  new_Line line = (inl ValueError, out)
                  /\ (out = []
                      \/ exists raw,
                           mgroup "http_request" m = Some raw
                           /\ out = bad_request_notice raw))
            \/ (exists d r out,
                  strptime date = Some d
                  /\ converted_fit m = true
                  /\ new_Line line = (inr r, out)
                  /\ is_valid r = true
                  /\ accept_date r = PDate d))).
Proof.
  destruct (re_match HAPROXY_LINE_REGEX (L line)) as [m|] eqn:Hm.
  - right. destruct (line_view _ _ Hm) as (v & Hg & Hok & _ & _).
    exists m, (v_date v). split; [reflexivity|].
    split; [apply mgroup_accept_date_view; exact Hg|].
    rewrite (new_Line_accepted _ _ _ Hm Hg Hok), (converted_fit_view _ _ Hg).
    destruct (view_fits v) eqn:Hfit.
    + rewrite (outcome_of_fits _ _ Hfit).
      destruct (strptime (v_date v)) as [d|].
      * right. exists d, (record_of line v d), (output_of v).
        split; [reflexivity|]. split; [reflexivity|]. split; [reflexivity|].
        split; [apply record_of_valid | apply record_of_dates].
      * left. split; [left; reflexivity|]. exists []. auto.
    + left. split; [right; reflexivity|].
      destruct (outcome_of_raises line v (or_introl Hfit)) as (out & Ho & Hor).
      exists out. split; [exact Ho|].
      destruct Hor as [-> | ->]; [left; reflexivity|].
      apply output_of_notice. exact Hg.
  - left. split; [reflexivity | apply new_Line_unmatched; exact Hm].
Qed.

(** The line pattern matches this line and its accept date parses, but its
    port has 4301 digits: the constructor raises [ValueError]. *)
Lemma oversize_port_raises :
  exists m,
    re_match HAPROXY_LINE_REGEX (L oversize_port_line) = Some m
    /\ mgroup "client_port" m = Some (repeat "1"%char 4301)
    /\ mgroup "accept_date" m = Some (L "09/Dec/2013:12:59:46.633")
    /\ strptime (L "09/Dec/2013:12:59:46.633") = Some example_accept
    /\ converted_fit m = false
    /\ new_Line oversize_port_line = (inl ValueError, []).
Proof.
  eexists. split; [vm_compute; reflexivity|].
  split; [vm_compute; reflexivity|].
  split; [vm_compute; reflexivity|].
  split; [vm_compute; reflexivity|].
  split; vm_compute; reflexivity.
Qed.

(** ** What the constructor prints *)

(** X2. The constructor prints at most one line, and only for a record in
    the HTTP format whose request the request pattern does not match and is
    not [<BADREQ>]: the line names that request, and the method, path and
    protocol of the record are the sentinel ['invalid']. *)
Theorem printed_only_for_bad_request (line : string) (r : Line) (out : list string) :
  new_Line line = (inr r, out) ->
  out = []
  \/ exists raw,
       out = [("Could not process HTTP request " ++ raw)%string]
       /\ raw <> "<BADREQ>"
       /\ raw_http_request r = PStr raw
       /\ re_match HTTP_REQUEST_REGEX (L raw) = None
       /\ log_type r = PKind HTTP
       /\ http_request_method r = PStr "invalid"
       /\ http_request_path r = PStr "invalid"
       /\ http_request_protocol r = PStr "invalid".
Proof.
  intros H. destruct (is_valid r) eqn:Hv.
  - apply new_Line_valid in H; [|exact Hv].
    destruct H as (m & v & d & _ & _ & _ & _ & -> & ->).
    unfold output_of, record_of. destruct (v_shape v); [|left; reflexivity].
    destruct (v_tail v) as [[h req]|]; [|left; reflexivity].
    unfold request_fields.
    destruct (re_match HTTP_REQUEST_REGEX req) as [m'|] eqn:Hreq;
      [left; reflexivity|].
    cbn [pyval_is_str].
    destruct (String.eqb (S_ req) "<BADREQ>") eqn:E; [left; reflexivity|].
    right. exists (S_ req). cbn [negb].
    split; [reflexivity|].
    split; [intros Hb; rewrite Hb in E; discriminate|].
    rewrite L_S. repeat split. exact Hreq.
  - apply new_Line_invalid in H; [|exact Hv]. destruct H as [_ ->]. left. reflexivity.
Qed.

Lemma printed_only_for_bad_request_witness :
  new_Line bad_request_line
    = (inr bad_request_record, ["Could not process HTTP request something"])
  /\ (["Could not process HTTP request something"] = []
      \/ exists raw,
           ["Could not process HTTP request something"]
             = [("Could not process HTTP request " ++ raw)%string]
           /\ raw <> "<BADREQ>"
           /\ raw_http_request bad_request_record = PStr raw
           /\ re_match HTTP_REQUEST_REGEX (L raw) = None
           /\ log_type bad_request_record = PKind HTTP
           /\ http_request_method bad_request_record = PStr "invalid"
           /\ http_request_path bad_request_record = PStr "invalid"
           /\ http_request_protocol bad_request_record = PStr "invalid").
Proof.
  split; [vm_compute; reflexivity|].
  apply (printed_only_for_bad_request bad_request_line bad_request_record).
  vm_compute. reflexivity.
Defined.

(** ** The numbers of a valid record *)

Lemma signed_plus_nonneg w : signed "+" w = true -> (0 <= signed_value w)%Z.
Proof.
  intros H. destruct w as [|a w]; [discriminate|]. simpl in H.
  destruct (Ascii.eqb a "+") eqn:E.
  - apply Ascii.eqb_eq in E. subst a. apply dec_value_nonneg.
  - rewrite (signed_value_digits _ H). apply dec_value_nonneg.
Qed.

Lemma number_text_signed x w :
  x = "-"%char \/ x = "+"%char -> signed x w = true -> number_text x (str w).
Proof.
  intros Hx H. exists w. split; [reflexivity|]. split; [exact H|].
  unfold str. destruct Hx as [-> | ->];
    [apply int_signed_neg | apply int_signed_pos]; exact H.
Qed.

Lemma nonneg_number_plus w : signed "+" w = true -> nonneg_number (str w).
Proof.
  intros H. right. split; [apply number_text_signed; auto|].
  intros z. unfold str. rewrite (int_signed_pos _ H).
  destruct (within_limit w); [|discriminate].
  intros E. inversion E. apply signed_plus_nonneg. exact H.
Qed.

Lemma nonneg_number_digits w : digits w = true -> nonneg_number (str w).
Proof.
  intros H. apply nonneg_number_plus. apply digits_not_sign; [reflexivity | exact H].
Qed.

Lemma nonneg_number_int z : (0 <= z)%Z -> nonneg_number (PInt z).
Proof. intros H. left. exists z. split; [reflexivity | exact H]. Qed.

(** X3. On every valid record: [client_port] and the queue pair are
    integers that are not negative; [total_time], [bytes_read], the four
    connection counters and [retries] are numbers that are not negative,
    integers or strings of digits after an optional [+]; in the HTTP format
    [status_code] is a string of digits after an optional [-].  [int]
    converts such a string to its value when it has no more digits than the
    limit of [int], and raises [ValueError] when it has more: the
    constructor does not convert these strings, so a valid record can hold
    one that is over the limit. *)
Theorem numeric_attributes_convert (line : string) (r : Line) (out : list string) :
  new_Line line = (inr r, out) -> is_valid r = true ->
  (exists p, client_port r = PInt p /\ (0 <= p)%Z)
  /\ (exists q, queue_server r = PInt q /\ (0 <= q)%Z)
  /\ (exists q, queue_backend r = PInt q /\ (0 <= q)%Z)
  /\ nonneg_number (total_time r)
  /\ nonneg_number (bytes_read r)
  /\ nonneg_number (connections_active r)
  /\ nonneg_number (connections_frontend r)
  /\ nonneg_number (connections_backend r)
  /\ nonneg_number (connections_server r)
  /\ nonneg_number (retries r)
  /\ (log_type r = PKind HTTP -> number_text "-" (status_code r)).
Proof.
  intros H Hv. apply new_Line_valid in H; [|exact Hv].
  destruct H as (m & v & d & _ & _ & Hok & _ & -> & _). clear Hv.
  destruct v as [ip port dt sh ac fe be sv re sq bq t].
  destruct sh; destruct t as [[[|h|rq rs] req]|];
    unfold view_ok in Hok; simpl in Hok;
    repeat match goal with
      | Hc : _ && _ = true |- _ => apply andb_true_iff in Hc; destruct Hc
      end;
    unfold record_of; cbn [v_shape v_tail];
    try destruct (request_fields req) as [[[? ?] ?] ?];
    cbn -[signed_value dec_value number_text nonneg_number str];
    repeat match goal with
      | |- _ /\ _ => split
      | |- exists p, PInt ?z = PInt p /\ _ =>
          exists z; split; [reflexivity | apply dec_value_nonneg]
      | |- nonneg_number (PInt _) =>
          apply nonneg_number_int; apply signed_plus_nonneg; assumption
      | |- nonneg_number (str _) =>
          first [ apply nonneg_number_digits; assumption
                | apply nonneg_number_plus; assumption ]
      | |- _ -> number_text _ (str _) =>
          intros _; apply number_text_signed; [auto | assumption]
      | |- PKind TCP = PKind HTTP -> _ => intros Hd; discriminate Hd
      end.
Qed.

Lemma numeric_attributes_convert_witness :
  new_Line tcp_line = (inr tcp_record, [])
  /\ is_valid tcp_record = true
  /\ (exists p, client_port tcp_record = PInt p /\ (0 <= p)%Z)
  /\ nonneg_number (total_time tcp_record)
  /\ nonneg_number (bytes_read tcp_record)
  /\ nonneg_number (retries tcp_record).
Proof.
  split; [vm_compute; reflexivity|]. split; [reflexivity|].
  destruct (numeric_attributes_convert tcp_line tcp_record [])
    as (H1 & _ & _ & H4 & H5 & _ & _ & _ & _ & H10 & _);
    [vm_compute; reflexivity | reflexivity |].
  auto.
Defined.

(** ** The attributes of one format only *)

(** X4. On a valid record of the HTTP format, [captured_request_headers] is
    the single brace group when the line has one, the first of the two
    groups when it has two; [captured_response_headers] is the second group
    and is set only together with the first.  A valid record of the TCP
    format leaves the headers, the request attributes, [time_wait_request],
    [time_wait_response] and [status_code] unset, whatever the tail of the
    line holds. *)
Theorem format_specific_attributes (line : string) (r : Line) (out : list string) :
  new_Line line = (inr r, out) -> is_valid r = true ->
  exists m,
    re_match HAPROXY_LINE_REGEX (L line) = Some m
    /\ (mgroup "headers" m <> None ->
          mgroup "captured_request_headers" m = None
          /\ mgroup "captured_response_headers" m = None)
    /\ (mgroup "captured_request_headers" m <> None <->
        mgroup "captured_response_headers" m <> None)
    /\ (log_type r = PKind HTTP ->
          captured_request_headers r
          = match mgroup "headers" m with
            | Some h => PStr (S_ h)
            | None => G "captured_request_headers" m
            end
          /\ captured_response_headers r = G "captured_response_headers" m
          /\ raw_http_request r = G "http_request" m
          /\ (captured_response_headers r <> PNone ->
              captured_request_headers r <> PNone))
    /\ (log_type r = PKind TCP ->
          captured_request_headers r = PNone
          /\ captured_response_headers r = PNone
          /\ raw_http_request r = PNone
          /\ http_request_method r = PNone
          /\ http_request_path r = PNone
          /\ http_request_protocol r = PNone
          /\ time_wait_request r = PNone
          /\ time_wait_response r = PNone
          /\ status_code r = PNone).
Proof.
  intros H Hv. apply new_Line_valid in H; [|exact Hv].
  destruct H as (m & v & d & Hm & Hg & _ & _ & -> & _).
  exists m. split; [exact Hm|]. unfold G, mgroup. rewrite Hg. clear Hm Hg Hv.
  destruct v as [ip port dt sh ac fe be sv re sq bq t].
  destruct sh; destruct t as [[[|h|rq rs] req]|];
    unfold record_of; cbn [v_shape v_tail];
    try destruct (request_fields req) as [[[? ?] ?] ?];
    cbn -[str];
    repeat match goal with
      | |- _ /\ _ => split
      | |- _ <-> _ => split
      | |- _ -> _ => intros ?
      | |- _ = _ => reflexivity
      | Hd : PKind _ = PKind _ |- _ => discriminate Hd
      | Hn : None <> None |- _ => contradiction Hn; reflexivity
      | Hn : PNone <> PNone |- _ => contradiction Hn; reflexivity
      | |- _ <> _ => discriminate
      end.
Qed.

Lemma format_specific_attributes_witness :
  new_Line example_line = (inr example_record, [])
  /\ is_valid example_record = true
  /\ exists m,
       re_match HAPROXY_LINE_REGEX (L example_line) = Some m
       /\ (mgroup "headers" m <> None ->
             mgroup "captured_request_headers" m = None
             /\ mgroup "captured_response_headers" m = None).
Proof.
  split; [vm_compute; reflexivity|]. split; [reflexivity|].
  destruct (format_specific_attributes example_line example_record [])
    as (m & Hm & H1 & _); [vm_compute; reflexivity | reflexivity |].
  exists m. auto.
Defined.

(** ** The time window on the records of the constructor *)

Lemma lex_ltb_irrefl l : lex_ltb l l = false.
Proof.
  induction l as [|x l IH]; simpl; [reflexivity|].
  rewrite Z.ltb_irrefl, Z.eqb_refl, IH. reflexivity.
Qed.

Lemma dt_leb_refl a : dt_leb a a = true.
Proof. unfold dt_leb, dt_ltb. rewrite lex_ltb_irrefl. reflexivity. Qed.

(** X5. With a start bound, [is_within_time_frame] on a valid record never
    raises and answers whether start <= accept_date and, when an end bound is
    given, accept_date <= end: both bounds are inclusive, so the window from
    the accept date to itself contains the record.  On an invalid record,
    whose accept date is unset, the call with a start bound raises
    [TypeError]. *)
Theorem time_frame_with_start (line : string) (r : Line) (out : list string) :
  new_Line line = (inr r, out) ->
  (is_valid r = true ->
     exists a,
       accept_date r = PDate a
       /\ (forall s e,
             is_within_time_frame r (Some s) e
             = inr (dt_leb s a
                    && match e with
                       | None => true
                       | Some e' => dt_leb a e'
                       end))
       /\ is_within_time_frame r (Some a) (Some a) = inr true)
  /\ (is_valid r = false ->
        forall s e, is_within_time_frame r (Some s) e = inl TypeError).
Proof.
  intros H. split; intros Hv.
  - apply new_Line_valid in H; [|exact Hv].
    destruct H as (m & v & d & _ & _ & _ & _ & -> & _).
    assert (Ha : accept_date (record_of line v d) = PDate d).
    { unfold record_of. destruct (v_shape v); [|reflexivity].
      destruct (v_tail v) as [[h req]|];
        [destruct (request_fields req) as [[[? ?] ?] ?]|]; reflexivity. }
    exists d. split; [exact Ha|]. split.
    + intros s e. rewrite (is_within_time_frame_eval _ d (Some s) e Ha).
      reflexivity.
    + rewrite (is_within_time_frame_eval _ d (Some d) (Some d) Ha).
      fold (dt_leb d d). rewrite dt_leb_refl. reflexivity.
  - apply new_Line_invalid in H; [|exact Hv]. destruct H as [-> _].
    intros s e. reflexivity.
Qed.

Lemma time_frame_with_start_witness :
  new_Line example_line = (inr example_record, [])
  /\ is_valid example_record = true
  /\ is_within_time_frame example_record (Some day_before) None = inr true
  /\ is_within_time_frame example_record (Some day_before) (Some day_before)
     = inr false.
Proof.
  split; [vm_compute; reflexivity|]. split; [reflexivity|].
  destruct (time_frame_with_start example_line example_record [])
    as (H & _); [vm_compute; reflexivity|].
  destruct (H eq_refl) as (a & Ha & Hw & _).
  inversion Ha; subst a. rewrite !Hw. split; reflexivity.
Defined.

(** ** The substring test of [is_https] *)

Lemma is_prefix_spec p l :
  is_prefix p l = true <-> exists post, l = p ++ post.
Proof.
  revert l. induction p as [|a p IH]; intros l; simpl.
  - split; [intros _; exists l; reflexivity | reflexivity].
  - destruct l as [|b l]; [split; [discriminate | intros (post & E); discriminate]|].
    split.
    + intros H. apply andb_true_iff in H. destruct H as [Hab Hp].
      apply Ascii.eqb_eq in Hab. subst b. apply IH in Hp.
      destruct Hp as (post & ->). exists post. reflexivity.
    + intros (post & E). inversion E; subst. rewrite Ascii.eqb_refl. simpl.
      apply IH. exists post. reflexivity.
Qed.

Lemma contains_spec needle hay :
  contains needle hay = true <-> exists pre post, hay = pre ++ needle ++ post.
Proof.
  induction hay as [|b hay IH]; simpl.
  - rewrite orb_false_r. rewrite is_prefix_spec. split.
    + intros (post & E). exists [], post. exact E.
    + intros (pre & post & E). destruct pre; simpl in E.
      * exists post. exact E.
      * discriminate.
  - rewrite orb_true_iff, is_prefix_spec, IH. split.
    + intros [(post & E) | (pre & post & E)].
      * exists [], post. exact E.
      * exists (b :: pre), post. rewrite E. reflexivity.
    + intros (pre & post & E). destruct pre as [|a pre]; simpl in E.
      * left. exists post. exact E.
      * right. inversion E; subst. exists pre, post. reflexivity.
Qed.

(** X6. On a record whose request path is a string, [is_https] returns
    normally, and returns [True] exactly when [:443] occurs somewhere in the
    path, wherever it stands and whatever follows it. *)
Theorem is_https_substring (r : Line) (p : string) :
  http_request_path r = PStr p ->
  (is_https r = inr true \/ is_https r = inr false)
  /\ (is_https r = inr true <->
      exists pre post, L p = pre ++ L ":443" ++ post).
Proof.
  intros Hp. unfold is_https. rewrite Hp.
  rewrite <- contains_spec.
  destruct (contains (L ":443") (L p)); split; auto; split; auto; discriminate.
Qed.

Lemma is_https_substring_witness :
  http_request_path https_record = PStr "/domain:443/to/image"
  /\ is_https https_record = inr true
  /\ exists pre post, L "/domain:443/to/image" = pre ++ L ":443" ++ post.
Proof.
  split; [reflexivity|].
  destruct (is_https_substring https_record "/domain:443/to/image" eq_refl)
    as (_ & H).
  split; [reflexivity|]. apply H. reflexivity.
Defined.

(** ** The address taken from the headers *)

(** X7. When the captured request headers are a string, [ip] returns what
    stands before their first [|] (all of them when they hold none), which
    itself holds no [|], unless that part is empty, in which case it returns
    [client_ip].  On an invalid record [ip] returns [None]. *)
Theorem ip_before_first_bar (r : Line) (h : string) :
  captured_request_headers r = PStr h ->
  exists tok rest,
    L h = tok ++ rest
    /\ forallb (fun a => negb (Ascii.eqb a "|")) tok = true
    /\ (rest = [] \/ exists rest', rest = "|"%char :: rest')
    /\ ((tok <> [] /\ ip r = inr (PStr (S_ tok)))
        \/ (tok = [] /\ ip r = inr (client_ip r))).
Proof.
  intros Hh. destruct (first_token_prefix (L h)) as (rest & E & Hall & Hrest).
  exists (first_token (L h)), rest.
  split; [exact E|]. split; [exact Hall|]. split; [exact Hrest|].
  unfold ip. rewrite Hh. cbv zeta.
  destruct (first_token (L h)) as [|a tok].
  - right. split; reflexivity.
  - left. split; [discriminate | reflexivity].
Qed.

Lemma ip_before_first_bar_witness :
  captured_request_headers two_headers_record = PStr "1.2.3.4|example.org"
  /\ ip two_headers_record = inr (PStr "1.2.3.4")
  /\ exists tok rest,
       L "1.2.3.4|example.org" = tok ++ rest
       /\ forallb (fun a => negb (Ascii.eqb a "|")) tok = true
       /\ (rest = [] \/ exists rest', rest = "|"%char :: rest').
Proof.
  split; [reflexivity|]. split; [reflexivity|].
  destruct (ip_before_first_bar two_headers_record "1.2.3.4|example.org" eq_refl)
    as (tok & rest & H1 & H2 & H3 & _).
  exists tok, rest. auto.
Defined.

(** X8. [ip] never raises on a record the constructor returned; on an
    invalid record it returns [None]. *)
Theorem ip_returns (line : string) (r : Line) (out : list string) :
  new_Line line = (inr r, out) ->
  (exists v, ip r = inr v)
  /\ (is_valid r = false -> ip r = inr PNone).
Proof.
  intros H. destruct (is_valid r) eqn:Hv.
  - split; [|discriminate].
    destruct (valid_record_address line r out H Hv) as ([Hn | (h & Hh)] & _).
    + unfold ip. rewrite Hn. eauto.
    + unfold ip. rewrite Hh. cbv zeta.
      destruct (nonempty (first_token (L h))); eauto.
  - apply new_Line_invalid in H; [|exact Hv]. destruct H as [-> _].
    split; [exists PNone|intros _]; reflexivity.
Qed.

Lemma ip_returns_witness :
  new_Line wrong_bytes_line
    = (inr (set_raw_line (PStr wrong_bytes_line) Line_defaults), [])
  /\ ip (set_raw_line (PStr wrong_bytes_line) Line_defaults) = inr PNone.
Proof.
  split; [vm_compute; reflexivity|].
  apply (ip_returns wrong_bytes_line _ []); [vm_compute; reflexivity | reflexivity].
Defined.

(** ** [parse_line]: the line is stripped first *)

Lemma lstrip_spaces ws l :
  forallb cls_space ws = true -> lstrip (ws ++ l) = lstrip l.
Proof.
  induction ws as [|a ws IH]; simpl; [reflexivity|].
  intros H. apply andb_true_iff in H. destruct H as [Ha Hws].
  rewrite Ha. apply IH. exact Hws.
Qed.

Lemma lstrip_head a l : cls_space a = false -> lstrip (a :: l) = a :: l.
Proof. intros H. simpl. rewrite H. reflexivity. Qed.

Lemma lstrip_all_spaces ws : forallb cls_space ws = true -> lstrip ws = [].
Proof.
  intros H. rewrite <- (app_nil_r ws). rewrite lstrip_spaces by exact H.
  reflexivity.
Qed.

Lemma strip_surrounded ws1 core ws2 :
  forallb cls_space ws1 = true -> forallb cls_space ws2 = true ->
  no_outer_space core = true ->
  strip (ws1 ++ core ++ ws2) = core.
Proof.
  intros H1 H2 Hc. unfold strip. rewrite lstrip_spaces by exact H1.
  destruct core as [|a core].
  - simpl. rewrite (lstrip_all_spaces _ H2). simpl.
    reflexivity.
  - cbv beta iota delta [no_outer_space] in Hc.
    apply andb_true_iff in Hc. destruct Hc as [Ha Hl].
    apply negb_true_iff in Ha. apply negb_true_iff in Hl.
    change ((a :: core) ++ ws2) with (a :: core ++ ws2).
    rewrite (lstrip_head _ _ Ha).
    change (a :: core ++ ws2) with ((a :: core) ++ ws2).
    rewrite rev_app_distr.
    rewrite lstrip_spaces by (rewrite forallb_rev; exact H2).
    assert (Hne : a :: core <> []) by discriminate.
    destruct (exists_last Hne) as (i & z & E).
    rewrite E in Hl |- *. rewrite last_last in Hl. rewrite rev_unit.
    rewrite (lstrip_head _ _ Hl). rewrite <- rev_unit. apply rev_involutive.
Qed.

(** X9. [parse_line] ignores white space around the line, a trailing line
    feed included: for a line that neither starts nor ends with white space,
    surrounded by any white space, it builds the record of the line itself,
    whose [raw_line] is the stripped line. *)
Theorem parse_line_strips (ws1 core ws2 : chars) :
  forallb cls_space ws1 = true -> forallb cls_space ws2 = true ->
  no_outer_space core = true ->
  parse_line (S_ (ws1 ++ core ++ ws2)) = new_Line (S_ core)
  /\ forall r out, parse_line (S_ (ws1 ++ core ++ ws2)) = (inr r, out) ->
       raw_line r = PStr (S_ core).
Proof.
  intros H1 H2 Hc. unfold parse_line.
  rewrite L_S, (strip_surrounded _ _ _ H1 H2 Hc).
  split; [reflexivity|].
  intros r out H. destruct (is_valid r) eqn:Hv.
  - apply new_Line_valid in H; [|exact Hv].
    destruct H as (m & v & d & _ & _ & _ & _ & -> & _).
    unfold record_of. destruct (v_shape v); [|reflexivity].
    destruct (v_tail v) as [[h req]|];
      [destruct (request_fields req) as [[[? ?] ?] ?]|]; reflexivity.
  - apply new_Line_invalid in H; [|exact Hv]. destruct H as [-> _]. reflexivity.
Qed.

Lemma parse_line_strips_witness :
  forallb cls_space (L " ") = true
  /\ forallb cls_space [ascii_of_nat 13; ascii_of_nat 10] = true
  /\ no_outer_space (L example_line) = true
  /\ parse_line (S_ (L " " ++ L example_line ++ [ascii_of_nat 13; ascii_of_nat 10]))
     = new_Line (S_ (L example_line)).
Proof.
  split; [reflexivity|]. split; [reflexivity|]. split; [vm_compute; reflexivity|].
  apply (parse_line_strips (L " ") (L example_line)
           [ascii_of_nat 13; ascii_of_nat 10]);
    vm_compute; reflexivity.
Defined.

(** ** The request pattern on a full request *)

Lemma space_not_path a : cls_space a = true -> cls_path a = false.
Proof. by_all_chars a. Qed.

Lemma space_not_slash a : cls_space a = true -> is_char "/" a = false.
Proof. by_all_chars a. Qed.

Lemma word_not_space a : cls_word a = true -> cls_space a = false.
Proof. by_all_chars a. Qed.

Lemma run_of_head cs w : run_of cs w = true -> exists a w', w = a :: w' /\ cs a = true.
Proof.
  unfold run_of. destruct w as [|a w]; [discriminate|]. simpl.
  intros H. apply andb_true_iff in H. destruct H as [Ha _]. eauto.
Qed.

Lemma run_Alt_left total (R : Type) r1 r2 s c (k : cont R) x :
  run total r1 s c k = Some x -> run total (Alt r1 r2) s c k = Some x.
Proof. intros H. cbn [run]. rewrite H. reflexivity. Qed.

(** A star whose body starts with a character that is not there stops. *)
Lemma run_star_chr_stops total (R : Type) x r a s c (k : cont R) :
  is_char x a = false ->
  run total (Star (Cat (Chr x) r)) (a :: s) c k = k (a :: s) c.
Proof.
  intros H. cbn [run List.length star_loop]. unfold Chr. cbn [run].
  rewrite H. reflexivity.
Qed.

Lemma request_with_protocol (me sp rest sp2 w after : chars) (d1 d2 : ascii) :
  run_of cls_word me = true -> run_of cls_space sp = true ->
  forallb cls_path rest = true -> run_of cls_space sp2 = true ->
  run_of cls_word w = true -> cls_digit d1 = true -> cls_digit d2 = true ->
  re_match HTTP_REQUEST_REGEX
    (me ++ sp ++ "/"%char :: rest ++ sp2 ++ w
        ++ "/"%char :: d1 :: "."%char :: d2 :: after)
  = Some (mkMatch [("protocol", w ++ ["/"%char; d1; "."%char; d2]);
                   ("path", "/"%char :: rest); ("method", me)] after).
Proof.
  intros Hme Hsp Hrest Hsp2 Hw Hd1 Hd2. unfold re_match.
  set (total := List.length _).
  unfold HTTP_REQUEST_REGEX. cbn [Seq].
  rewrite run_Cat, run_Named.
  destruct (run_of_head _ _ Hsp) as (a1 & sp' & Esp & Ha1).
  destruct (run_of_head _ _ Hsp2) as (a2 & sp2' & Esp2 & Ha2).
  destruct (run_of_head _ _ Hw) as (a3 & w' & Ew & Ha3).
  apply run_plus_set_greedy; [exact Hme | |].
  { rewrite Esp. simpl. apply space_not_word. exact Ha1. }
  rewrite firstn_consumed.
  rewrite run_Cat.
  apply run_plus_set_greedy; [exact Hsp | reflexivity |].
  rewrite run_Cat, run_Named. unfold Plus at 1. rewrite !run_Cat.
  unfold Chr at 1. cbn [run].
  change (is_char "/" "/") with true. cbv iota.
  apply (run_star_set_greedy total); [exact Hrest | |].
  { rewrite Esp2. simpl. apply space_not_path. exact Ha2. }
  rewrite Esp2 at 1 2. cbn [app List.length star_loop].
  unfold Chr at 1. cbn [run]. rewrite (space_not_slash _ Ha2).
  change (a2 :: sp2' ++ ?t) with ((a2 :: sp2') ++ t). rewrite <- Esp2.
  match goal with
  | |- context [firstn ?n ?l] => replace (firstn n l) with ("/"%char :: rest)
  end.
  2:{ symmetry. rewrite Esp2.
      exact (firstn_consumed ("/"%char :: rest)
               ((a2 :: sp2') ++ w ++ "/"%char :: d1 :: "."%char :: d2 :: after)). }
  apply run_Alt_left. rewrite run_Cat.
  apply run_plus_set_greedy; [exact Hsp2 | |].
  { rewrite Ew. simpl. apply word_not_space. exact Ha3. }
  rewrite run_Named, run_Cat.
  apply run_plus_set_greedy; [exact Hw | reflexivity |].
  unfold Chr, Digit. cbn [run]. rewrite Hd1, Hd2.
  change (is_char "/" "/") with true. change (is_char "." ".") with true.
  cbv iota.
  replace (w ++ "/"%char :: d1 :: "."%char :: d2 :: after)
    with ((w ++ ["/"%char; d1; "."%char; d2]) ++ after)
    by (rewrite <- app_assoc; reflexivity).
  rewrite firstn_consumed. reflexivity.
Qed.

(** A record with a raw request is a valid HTTP record built from a match
    whose request group is that raw request. *)
Lemma record_with_request line r out raw :
  new_Line line = (inr r, out) -> raw_http_request r = PStr (S_ raw) ->
  is_valid r = true /\ log_type r = PKind HTTP
  /\ http_request_method r = fst (fst (fst (request_fields raw)))
  /\ http_request_path r = snd (fst (fst (request_fields raw)))
  /\ http_request_protocol r = snd (fst (request_fields raw))
  /\ out = snd (request_fields raw).
Proof.
  intros H Hraw. destruct (is_valid r) eqn:Hv.
  - apply new_Line_valid in H; [|exact Hv].
    destruct H as (m & v & d & _ & _ & _ & _ & -> & ->).
    revert Hraw. unfold record_of, output_of.
    destruct (v_shape v); [|discriminate].
    destruct (v_tail v) as [[h req]|]; [|discriminate].
    destruct (request_fields req) as [[[me pa] pr] o] eqn:E.
    cbn [raw_http_request]. unfold str. intros Hraw.
    inversion Hraw as [Hreq]. apply S_inj in Hreq. subst req.
    rewrite E. cbn [fst snd]. repeat split; reflexivity.
  - apply new_Line_invalid in H; [|exact Hv]. destruct H as [-> _].
    discriminate Hraw.
Qed.

(** X10. A raw request made of a method (word characters), white space, a
    path (a slash and path characters), white space and a protocol (word
    characters, a slash, digit, dot, digit) is parsed into these three
    attributes, whatever follows the protocol, and nothing is printed. *)
Theorem full_request_parsed (me sp rest sp2 w after : chars) (d1 d2 : ascii)
    (line : string) (r : Line) (out : list string) :
  run_of cls_word me = true -> run_of cls_space sp = true ->
  forallb cls_path rest = true -> run_of cls_space sp2 = true ->
  run_of cls_word w = true -> cls_digit d1 = true -> cls_digit d2 = true ->
  new_Line line = (inr r, out) ->
  raw_http_request r
    = PStr (S_ (me ++ sp ++ "/"%char :: rest ++ sp2 ++ w
                   ++ "/"%char :: d1 :: "."%char :: d2 :: after)) ->
  http_request_method r = PStr (S_ me)
  /\ http_request_path r = PStr (S_ ("/"%char :: rest))
  /\ http_request_protocol r = PStr (S_ (w ++ ["/"%char; d1; "."%char; d2]))
  /\ out = [].
Proof.
  intros Hme Hsp Hrest Hsp2 Hw Hd1 Hd2 H Hraw.
  destruct (record_with_request _ _ _ _ H Hraw) as (_ & _ & -> & -> & -> & ->).
  unfold request_fields.
  rewrite (request_with_protocol _ _ _ _ _ after _ _ Hme Hsp Hrest Hsp2 Hw Hd1 Hd2).
  repeat split; reflexivity.
Qed.

Lemma full_request_parsed_witness :
  http_request_method example_record = PStr "GET"
  /\ http_request_path example_record = PStr "/path/to/image"
  /\ http_request_protocol example_record = PStr "HTTP/1.1"
  /\ @nil string = [].
Proof.
  apply (full_request_parsed (L "GET") (L " ") (L "path/to/image") (L " ")
           (L "HTTP") [] "1" "1" example_line example_record []);
    vm_compute; reflexivity.
Defined.

Lemma token_protocol_like :
  token protocol_like (Seq [Plus Word; Chr "/"; Digit; Chr "."; Digit]).
Proof.
  cbn [Seq]. eapply token_weaken.
  2:{ apply token_Cat; [apply token_Plus_Set|].
      apply token_Cat; [apply token_Chr|].
      apply token_Cat; [apply token_Set|].
      apply token_Cat; [apply token_Chr | apply token_Set]. }
  intros x (w & v1 & -> & Hw & u1 & v2 & -> & -> & u2 & v3 & -> &
            (d1 & -> & Hd1) & u3 & v4 & -> & -> & d2 & -> & Hd2).
  exists w, d1, d2. auto.
Qed.

(** The pieces of a raw request the request pattern matches. *)
Lemma request_pieces (s : chars) (m : Match) :
  re_match HTTP_REQUEST_REGEX s = Some m ->
  exists me sp pa,
    run_of cls_word me = true /\ run_of cls_space sp = true /\ path_like pa
    /\ mgroup "method" m = Some me /\ mgroup "path" m = Some pa
    /\ ((mgroup "protocol" m = None /\ s = me ++ sp ++ pa ++ m_rest m)
        \/ exists sp2 pr,
             run_of cls_space sp2 = true /\ protocol_like pr
             /\ mgroup "protocol" m = Some pr
             /\ s = me ++ sp ++ pa ++ sp2 ++ pr ++ m_rest m).
Proof.
  unfold re_match. intros H. apply run_sound in H.
  destruct H as (s' & c' & D & Hm). inversion Hm; subst m; clear Hm.
  unfold mgroup. cbn [m_groups m_rest].
  unfold HTTP_REQUEST_REGEX in D; cbn [Seq] in D.
  apply den_Cat in D. destruct D as (s1 & c1 & D1 & D).
  apply den_Cat in D. destruct D as (s2 & c2 & D2 & D).
  apply den_Cat in D. destruct D as (s3 & c3 & D3 & D4).
  apply (den_Named_token _ _ _ (token_Plus_Set cls_word)) in D1.
  destruct D1 as (me & -> & -> & Hme).
  apply (den_token _ _ token_Sp) in D2. destruct D2 as (sp & -> & -> & Hsp).
  apply (den_Named_token _ _ _ token_request_path) in D3.
  destruct D3 as (pa & -> & -> & Hpa).
  exists me, sp, pa.
  split; [exact Hme|]. split; [exact Hsp|]. split; [exact Hpa|].
  destruct D4 as [D4|D4].
  - apply den_Cat in D4. destruct D4 as (s4 & c4 & D4 & D5).
    apply (den_token _ _ token_Sp) in D4. destruct D4 as (sp2 & -> & -> & Hsp2).
    apply (den_Named_token _ _ _ token_protocol_like) in D5.
    destruct D5 as (pr & -> & -> & Hpr).
    split; [reflexivity|]. split; [reflexivity|].
    right. exists sp2, pr. auto.
  - destruct D4 as [-> ->].
    split; [reflexivity|]. split; [reflexivity|].
    left. split; reflexivity.
Qed.

(** X11. On every record with a raw request, either the request pattern does
    not match it and the three request attributes are the string [invalid],
    or they are consecutive pieces of the raw request, from its start: the
    method (a run of word characters), white space, the path (a slash and path
    characters) and, when a protocol was captured, white space and the
    protocol (word characters, slash, digit, dot, digit); what follows is not
    looked at. *)
Theorem request_attributes_are_pieces (line : string) (r : Line)
    (out : list string) (raw : chars) :
  new_Line line = (inr r, out) -> raw_http_request r = PStr (S_ raw) ->
  (re_match HTTP_REQUEST_REGEX raw = None
   /\ http_request_method r = PStr "invalid"
   /\ http_request_path r = PStr "invalid"
   /\ http_request_protocol r = PStr "invalid")
  \/ exists me sp pa,
       run_of cls_word me = true /\ run_of cls_space sp = true /\ path_like pa
       /\ http_request_method r = PStr (S_ me)
       /\ http_request_path r = PStr (S_ pa)
       /\ ((http_request_protocol r = PNone
            /\ exists after, raw = me ++ sp ++ pa ++ after)
           \/ exists sp2 pr after,
                run_of cls_space sp2 = true /\ protocol_like pr
                /\ http_request_protocol r = PStr (S_ pr)
                /\ raw = me ++ sp ++ pa ++ sp2 ++ pr ++ after).
Proof.
  intros H Hraw.
  destruct (record_with_request _ _ _ _ H Hraw) as (_ & _ & -> & -> & -> & _).
  unfold request_fields.
  destruct (re_match HTTP_REQUEST_REGEX raw) as [m|] eqn:Hm.
  - right. destruct (request_pieces _ _ Hm)
      as (me & sp & pa & Hme & Hsp & Hpa & Gm & Gp & Hpr).
    exists me, sp, pa. cbn [fst snd]. unfold G. rewrite Gm, Gp. cbn [of_group].
    split; [exact Hme|]. split; [exact Hsp|]. split; [exact Hpa|].
    split; [reflexivity|]. split; [reflexivity|].
    destruct Hpr as [[Gr E] | (sp2 & pr & Hsp2 & Hprl & Gr & E)].
    + left. rewrite Gr. split; [reflexivity|]. exists (m_rest m). exact E.
    + right. exists sp2, pr, (m_rest m). rewrite Gr. auto.
  - left. repeat split; reflexivity.
Qed.

Lemma request_attributes_are_pieces_witness :
  new_Line example_line = (inr example_record, [])
  /\ raw_http_request example_record = PStr (S_ (L "GET /path/to/image HTTP/1.1"))
  /\ ((re_match HTTP_REQUEST_REGEX (L "GET /path/to/image HTTP/1.1") = None
       /\ http_request_method example_record = PStr "invalid"
       /\ http_request_path example_record = PStr "invalid"
       /\ http_request_protocol example_record = PStr "invalid")
      \/ exists me sp pa,
           run_of cls_word me = true /\ run_of cls_space sp = true /\ path_like pa
           /\ http_request_method example_record = PStr (S_ me)
           /\ http_request_path example_record = PStr (S_ pa)
           /\ ((http_request_protocol example_record = PNone
                /\ exists after, L "GET /path/to/image HTTP/1.1"
                                 = me ++ sp ++ pa ++ after)
               \/ exists sp2 pr after,
                    run_of cls_space sp2 = true /\ protocol_like pr
                    /\ http_request_protocol example_record = PStr (S_ pr)
                    /\ L "GET /path/to/image HTTP/1.1"
                       = me ++ sp ++ pa ++ sp2 ++ pr ++ after)).
Proof.
  split; [vm_compute; reflexivity|]. split; [reflexivity|].
  apply (request_attributes_are_pieces example_line example_record []
           (L "GET /path/to/image HTTP/1.1"));
    [vm_compute; reflexivity | reflexivity].
Defined.

(** ** What a valid record always holds *)

(** X12. On a valid record the raw line is the constructor's argument, the
    client address is a non-empty string of hexadecimal digits, [+], [.] and
    [:], the raw accept date is the non-empty captured string, without line
    feed, that [strptime] parsed into [accept_date], [request_date] is the
    same instant, and the three names are strings. *)
Theorem leading_attributes (line : string) (r : Line) (out : list string) :
  new_Line line = (inr r, out) -> is_valid r = true ->
  raw_line r = PStr line
  /\ (exists ip, client_ip r = PStr (S_ ip) /\ run_of cls_ip ip = true)
  /\ (exists date d,
        raw_accept_date r = PStr (S_ date) /\ run_of cls_dot date = true
        /\ strptime date = Some d
        /\ accept_date r = PDate d /\ request_date r = PDate d)
  /\ (exists fe be sv,
        frontend_name r = PStr fe /\ backend_name r = PStr be
        /\ server_name r = PStr sv).
Proof.
  intros H Hv. apply new_Line_valid in H; [|exact Hv].
  destruct H as (m & v & d & _ & _ & Hok & Hd & -> & _).
  assert (Hlead : run_of cls_ip (v_ip v) = true /\ run_of cls_dot (v_date v) = true).
  { unfold view_ok in Hok. repeat rewrite andb_true_iff in Hok. tauto. }
  destruct Hlead as [Hip Hdate].
  unfold record_of. destruct (v_shape v).
  - destruct (v_tail v) as [[h req]|];
      [destruct (request_fields req) as [[[? ?] ?] ?]|];
      (split; [reflexivity|];
       split; [exists (v_ip v); split; [reflexivity | exact Hip]|];
       split; [exists (v_date v), d; repeat split; assumption|];
       eexists _, _, _; repeat split; reflexivity).
  - split; [reflexivity|].
    split; [exists (v_ip v); split; [reflexivity | exact Hip]|].
    split; [exists (v_date v), d; repeat split; assumption|].
    eexists _, _, _; repeat split; reflexivity.
Qed.

Lemma leading_attributes_witness :
  raw_line tcp_record = PStr tcp_line
  /\ exists ip, client_ip tcp_record = PStr (S_ ip) /\ run_of cls_ip ip = true.
Proof.
  destruct (leading_attributes tcp_line tcp_record [])
    as (Hraw & Hip & _); [vm_compute; reflexivity | reflexivity |].
  split; [exact Hraw | exact Hip].
Defined.

(** X13. The constructor never assigns the attributes
    [captured_request_cookie], [captured_response_cookie] and
    [termination_state]: the line pattern lets any text stand in their place
    and captures none of it, so they are [None] on every record. *)
Theorem cookies_and_termination_state_unset (line : string) (r : Line)
    (out : list string) :
  new_Line line = (inr r, out) ->
  captured_request_cookie r = PNone
  /\ captured_response_cookie r = PNone
  /\ termination_state r = PNone.
Proof.
  intros H. destruct (is_valid r) eqn:Hv.
  - apply new_Line_valid in H; [|exact Hv].
    destruct H as (m & v & d & _ & _ & _ & _ & -> & _).
    unfold record_of. destruct (v_shape v).
    + destruct (v_tail v) as [[h req]|];
        [destruct (request_fields req) as [[[? ?] ?] ?]|];
        repeat split; reflexivity.
    + repeat split; reflexivity.
  - apply new_Line_invalid in H; [|exact Hv]. destruct H as [-> _].
    repeat split; reflexivity.
Qed.

Lemma cookies_and_termination_state_unset_witness :
  captured_request_cookie example_record = PNone
  /\ captured_response_cookie example_record = PNone
  /\ termination_state example_record = PNone.
Proof.
  apply (cookies_and_termination_state_unset example_line example_record []).
  vm_compute; reflexivity.
Defined.

(** ** The syslog prefix *)

(** The matcher does not depend on the length of the subject where the
    pattern does not look at its start. *)
Lemma star_loop_ext (R : Type) (body body' : chars -> caps -> cont R -> option R)
    (k k' : cont R) :
  (forall s c k1 k2, (forall s' c', k1 s' c' = k2 s' c') ->
                     body s c k1 = body' s c k2) ->
  (forall s c, k s c = k' s c) ->
  forall fuel s c, star_loop body k fuel s c = star_loop body' k' fuel s c.
Proof.
  intros Hb Hk. induction fuel as [|fuel IH]; intros s c; cbn [star_loop].
  - apply Hk.
  - rewrite (Hb s c _ (fun s1 c1 =>
               if List.length s1 <? List.length s
               then star_loop body' k' fuel s1 c1 else None)).
    + rewrite Hk. reflexivity.
    + intros s' c'. rewrite IH. reflexivity.
Qed.

Lemma run_total_indep (R : Type) t1 t2 r :
  no_bos r = true ->
  forall s c (k k' : cont R), (forall s' c', k s' c' = k' s' c') ->
  run t1 r s c k = run t2 r s c k'.
Proof.
  induction r as [|cs|r1 IH1 r2 IH2|r1 IH1 r2 IH2|r1 IH1|g r1 IH1| |];
    intros Hr s c k k' Hk; cbn [run]; cbn [no_bos] in Hr.
  - apply Hk.
  - destruct s as [|a s']; [reflexivity|]. destruct (cs a); [apply Hk | reflexivity].
  - apply andb_true_iff in Hr. destruct Hr as [H1 H2].
    apply (IH1 H1). intros s' c'. apply (IH2 H2). exact Hk.
  - apply andb_true_iff in Hr. destruct Hr as [H1 H2].
    rewrite (IH1 H1 s c k k' Hk), (IH2 H2 s c k k' Hk). reflexivity.
  - apply star_loop_ext; [|exact Hk].
    intros s0 c0 k1 k2 H12. apply (IH1 Hr). exact H12.
  - apply (IH1 Hr). intros s' c'. apply Hk.
  - discriminate.
  - destruct s; [apply Hk | reflexivity].
Qed.

Lemma run_star_set_cons total (R : Type) cs a s c (k : cont R) :
  run total (Star (Set_ cs)) (a :: s) c k
  = if cs a
    then match run total (Star (Set_ cs)) s c k with
         | Some x => Some x
         | None => k (a :: s) c
         end
    else k (a :: s) c.
Proof.
  cbn [run List.length star_loop]. destruct (cs a); [|reflexivity].
  replace (List.length s <? S (List.length s)) with true
    by (symmetry; apply Nat.ltb_lt; lia).
  reflexivity.
Qed.

Lemma run_PREFIX_END_fails total (R : Type) s c (k : cont R) :
  starts_prefix_end s = false -> run total PREFIX_END s c k = None.
Proof.
  unfold PREFIX_END, Sp, Plus, Space, Chr. cbn [Seq run].
  destruct s as [|a [|b [|x s]]]; cbn [starts_prefix_end].
  - reflexivity.
  - destruct (is_char "]" a); reflexivity.
  - destruct (is_char "]" a); [|reflexivity]. destruct (is_char ":" b); reflexivity.
  - destruct (is_char "]" a); [|reflexivity].
    destruct (is_char ":" b); [|reflexivity].
    cbn [andb]. intros ->. reflexivity.
Qed.

Lemma run_PREFIX_END_hit total (R : Type) ws rest c (k : cont R) x :
  run_of cls_space ws = true -> stops cls_space rest -> k rest c = Some x ->
  run total PREFIX_END ("]"%char :: ":"%char :: ws ++ rest) c k = Some x.
Proof.
  intros Hws Hrest Hk. unfold PREFIX_END. cbn [Seq]. rewrite !run_Cat.
  unfold Chr. cbn [run].
  change (is_char "]" "]") with true. change (is_char ":" ":") with true.
  cbv iota. apply run_plus_set_greedy; assumption.
Qed.

Lemma no_prefix_end_tail a l : no_prefix_end (a :: l) = true -> no_prefix_end l = true.
Proof. cbn [no_prefix_end]. intros H. apply andb_true_iff in H. apply H. Qed.

Lemma no_prefix_end_head l : no_prefix_end l = true -> starts_prefix_end l = false.
Proof.
  destruct l as [|a l]; [reflexivity|]. cbn [no_prefix_end]. intros H.
  apply andb_true_iff in H. destruct H as [H _]. apply negb_true_iff in H. exact H.
Qed.

(** No prefix end in the text: the prefix is not found. *)
Lemma run_Any_no_prefix_end total (R : Type) s c (k : cont R) :
  no_prefix_end s = true ->
  run total Any s c (fun s1 c1 => run total PREFIX_END s1 c1 k) = None.
Proof.
  unfold Any, Dot. induction s as [|a s IH]; intros H.
  - cbn [run List.length star_loop]. apply run_PREFIX_END_fails. reflexivity.
  - rewrite run_star_set_cons. rewrite (IH (no_prefix_end_tail _ _ H)).
    rewrite (run_PREFIX_END_fails total R (a :: s) c k (no_prefix_end_head _ H)).
    destruct (cls_dot a); reflexivity.
Qed.

(** The last prefix end of the text is the one the matcher takes. *)
Lemma run_Any_last_prefix_end total (R : Type) P s c (k : cont R) x :
  forallb cls_dot P = true ->
  match s with [] => True | _ :: s' => no_prefix_end s' = true end ->
  run total PREFIX_END s c k = Some x ->
  run total Any (P ++ s) c (fun s1 c1 => run total PREFIX_END s1 c1 k) = Some x.
Proof.
  unfold Any, Dot. intros HP Hs Hk. induction P as [|a P IH].
  - cbn [app]. destruct s as [|b s].
    + cbn [run List.length star_loop]. exact Hk.
    + rewrite run_star_set_cons.
      pose proof (run_Any_no_prefix_end total R s c k Hs) as Hn.
      unfold Any, Dot in Hn. rewrite Hn, Hk. destruct (cls_dot b); reflexivity.
  - cbn [forallb] in HP. apply andb_true_iff in HP. destruct HP as [Ha HP].
    cbn [app]. rewrite run_star_set_cons, Ha, (IH HP). reflexivity.
Qed.

Lemma space_not_bracket a : cls_space a = true -> is_char "]" a = false.
Proof. by_all_chars a. Qed.

Lemma ip_not_space a : cls_ip a = true -> cls_space a = false.
Proof. by_all_chars a. Qed.

Lemma no_prefix_end_spaces ws l :
  forallb cls_space ws = true -> no_prefix_end l = true ->
  no_prefix_end (ws ++ l) = true.
Proof.
  intros Hws Hl. induction ws as [|a ws IH]; [exact Hl|].
  cbn [forallb] in Hws. apply andb_true_iff in Hws. destruct Hws as [Ha Hws].
  cbn [app no_prefix_end]. rewrite (IH Hws), andb_true_r.
  apply negb_true_iff. unfold starts_prefix_end.
  rewrite (space_not_bracket _ Ha). destruct (ws ++ l) as [|b [|x t]]; reflexivity.
Qed.

Lemma line_pattern_split : HAPROXY_LINE_REGEX
  = Cat (Opt (Cat Bos (Cat Any PREFIX_END))) AFTER_PREFIX.
Proof. reflexivity. Qed.

Lemma no_bos_AFTER_PREFIX : no_bos AFTER_PREFIX = true.
Proof. reflexivity. Qed.

(** What comes after the prefix starts with a character of the address. *)
Lemma run_AFTER_PREFIX_head total (R : Type) s c (k : cont R) x :
  run total AFTER_PREFIX s c k = Some x -> stops cls_space s.
Proof.
  unfold AFTER_PREFIX, CLIENT. cbn [Seq]. rewrite !run_Cat, run_Named.
  unfold Plus at 1. rewrite run_Cat.
  destruct s as [|a s]; [intros _; exact I|].
  cbn [stops]. destruct (cls_ip a) eqn:E.
  - intros _. apply ip_not_space. exact E.
  - cbn [run]. rewrite E. discriminate.
Qed.

(** A line the pattern matches, and that holds no prefix end, is matched in
    the same way behind a syslog prefix. *)
Lemma prefixed_match (P ws line : chars) (m : Match) :
  forallb cls_dot P = true -> run_of cls_space ws = true ->
  no_prefix_end line = true ->
  re_match HAPROXY_LINE_REGEX line = Some m ->
  re_match HAPROXY_LINE_REGEX (P ++ "]"%char :: ":"%char :: ws ++ line) = Some m.
Proof.
  intros HP Hws Hline. unfold re_match. rewrite line_pattern_split.
  set (k0 := fun (s' : chars) (c : caps) => Some (mkMatch c s')).
  set (t := List.length line). set (t' := List.length (P ++ _)).
  rewrite !run_Cat. unfold Opt. cbn [run].
  rewrite !Nat.eqb_refl.
  rewrite (run_Any_no_prefix_end t Match line [] _ Hline).
  intros H.
  assert (H' : run t' AFTER_PREFIX line [] k0 = Some m).
  { rewrite <- H. apply run_total_indep; [exact no_bos_AFTER_PREFIX | reflexivity]. }
  rewrite (run_Any_last_prefix_end t' Match P _ [] _ m HP).
  - reflexivity.
  - cbn [no_prefix_end]. apply andb_true_iff. split.
    { unfold starts_prefix_end. destruct (ws ++ line) as [|b [|y u]]; reflexivity. }
    apply no_prefix_end_spaces; [|exact Hline].
    unfold run_of in Hws. apply andb_true_iff in Hws. apply Hws.
  - apply run_PREFIX_END_hit; [exact Hws | | exact H'].
    apply (run_AFTER_PREFIX_head _ _ _ _ _ _ H').
Qed.

Lemma record_of_raw_line line line' v d :
  record_of line' v d = set_raw_line (PStr line') (record_of line v d).
Proof.
  unfold record_of. destruct (v_shape v); [|reflexivity].
  destruct (v_tail v) as [[h req]|];
    [destruct (request_fields req) as [[[? ?] ?] ?]|]; reflexivity.
Qed.

(** X14. A syslog prefix is ignored: when the line pattern matches a line in
    which no [\]:] is followed by white space, the constructor does on that
    line behind any prefix without line feed that ends with [\]:] and white
    space what it does on the line itself, but for the raw line it keeps:
    the same exception, or the same record and the same output. *)
Theorem syslog_prefix_ignored (P ws line : chars) :
  forallb cls_dot P = true -> run_of cls_space ws = true ->
  no_prefix_end line = true ->
  re_match HAPROXY_LINE_REGEX line <> None ->
  new_Line (S_ (P ++ "]"%char :: ":"%char :: ws ++ line))
  = match new_Line (S_ line) with
    | (inr r, out) =>
        (inr (set_raw_line
                (PStr (S_ (P ++ "]"%char :: ":"%char :: ws ++ line))) r), out)
    | (inl e, out) => (inl e, out)
    end.
Proof.
  intros HP Hws Hline Hm.
  destruct (re_match HAPROXY_LINE_REGEX line) as [m|] eqn:E; [clear Hm|congruence].
  pose proof (prefixed_match P ws line m HP Hws Hline E) as E'.
  rewrite <- (L_S line) in E. rewrite <- (L_S (P ++ _)) in E'.
  destruct (line_view _ _ E) as (v & Hg & Hok & _).
  rewrite (new_Line_accepted _ _ _ E Hg Hok), (new_Line_accepted _ _ _ E' Hg Hok).
  unfold outcome_of.
  destruct (within_limit (v_port v)); [|reflexivity].
  destruct (strptime (v_date v)) as [d|]; [|reflexivity].
  destruct (shape_fits (v_shape v)); [|reflexivity].
  destruct (within_limit (v_srv_queue v) && within_limit (v_backend_queue v));
    [|reflexivity].
  rewrite (record_of_raw_line (S_ line)). reflexivity.
Qed.

Lemma syslog_prefix_ignored_witness :
  new_Line syslog_line
  = (inr (set_raw_line (PStr syslog_line) example_record), []).
Proof.
  apply (syslog_prefix_ignored (L "Dec  9 13:01:26 localhost haproxy[28029")
           (L " ") (L example_line));
    [reflexivity | reflexivity | vm_compute; reflexivity
    | vm_compute; discriminate].
Defined.

(** ** Which requests are parsed *)

Lemma den_Star_Set total cs w s c :
  forallb cs w = true -> den total (Star (Set_ cs)) (w ++ s) c s c.
Proof.
  intros Hw. induction w as [|a w IH]; cbn [den app].
  - apply iter_done.
  - cbn [forallb] in Hw. apply andb_true_iff in Hw. destruct Hw as [Ha Hw].
    apply (iter_step _ _ _ (w ++ s) c).
    + exists a. auto.
    + cbn [List.length]. lia.
    + apply IH. exact Hw.
Qed.

Lemma den_Plus_Set total cs w s c :
  run_of cs w = true -> den total (Plus (Set_ cs)) (w ++ s) c s c.
Proof.
  unfold run_of. destruct w as [|a w]; [discriminate|]. cbn [nonempty forallb].
  intros H. apply andb_true_iff in H. destruct H as [_ H].
  apply andb_true_iff in H. destruct H as [Ha Hw].
  unfold Plus. exists (w ++ s), c. split.
  - exists a. auto.
  - apply den_Star_Set. exact Hw.
Qed.

Lemma request_like_matches (raw : chars) :
  request_like raw -> re_match HTTP_REQUEST_REGEX raw <> None.
Proof.
  intros (me & sp & after & -> & Hme & Hsp). unfold re_match.
  apply (run_complete _ _ _ _ _ after
           (set_group "path" ["/"%char] (set_group "method" me []))); [|discriminate].
  unfold HTTP_REQUEST_REGEX. cbn [Seq].
  exists (sp ++ "/"%char :: after), (set_group "method" me []). split.
  { exists []. split; [apply den_Plus_Set; exact Hme|].
    rewrite firstn_consumed. reflexivity. }
  exists ("/"%char :: after), (set_group "method" me []). split.
  { apply den_Plus_Set. exact Hsp. }
  exists after, (set_group "path" ["/"%char] (set_group "method" me [])). split.
  { exists (set_group "method" me []). split.
    - unfold Plus. exists after, (set_group "method" me []). split.
      + exists after, (set_group "method" me []). split.
        * exists "/"%char. auto.
        * apply iter_done.
      + apply iter_done.
    - change ("/"%char :: after) with (["/"%char] ++ after).
      rewrite (firstn_consumed ["/"%char] after). reflexivity. }
  right. split; reflexivity.
Qed.

(** X15. On a record with a raw request, the path is the string [invalid]
    exactly when the raw request does not start with a run of word
    characters, white space and a slash; otherwise the request pattern
    matched and the path starts with a slash. *)
Theorem request_flagged_invalid (line : string) (r : Line) (out : list string)
    (raw : chars) :
  new_Line line = (inr r, out) -> raw_http_request r = PStr (S_ raw) ->
  (http_request_path r = PStr "invalid" <-> ~ request_like raw)
  /\ (request_like raw ->
      exists rest, http_request_path r = PStr (S_ ("/"%char :: rest))).
Proof.
  intros H Hraw.
  destruct (record_with_request _ _ _ _ H Hraw) as (_ & _ & _ & -> & _ & _).
  unfold request_fields.
  destruct (re_match HTTP_REQUEST_REGEX raw) as [m|] eqn:Hm.
  - destruct (request_pieces _ _ Hm)
      as (me & sp & pa & Hme & Hsp & (rest & -> & Hrest) & _ & Gp & Hpr).
    cbn [fst snd]. unfold G. rewrite Gp. cbn [of_group].
    assert (Hlike : request_like raw).
    { destruct Hpr as [[_ E] | (sp2 & pr & _ & _ & _ & E)];
        rewrite E; cbn [app]; eexists me, sp, _; eauto. }
    split; [split|].
    + intros Hp. inversion Hp.
    + intros Hn. destruct (Hn Hlike).
    + intros _. exists rest. reflexivity.
  - cbn [fst snd]. split; [split|].
    + intros _ Hlike. apply request_like_matches in Hlike. congruence.
    + reflexivity.
    + intros Hlike. apply request_like_matches in Hlike. congruence.
Qed.

Lemma request_flagged_invalid_witness :
  (http_request_path bad_request_record = PStr "invalid"
   <-> ~ request_like (L "something"))
  /\ (request_like (L "something") ->
      exists rest,
        http_request_path bad_request_record = PStr (S_ ("/"%char :: rest))).
Proof.
  apply (request_flagged_invalid bad_request_line bad_request_record
           ["Could not process HTTP request something"] (L "something"));
    [vm_compute; reflexivity | reflexivity].
Defined.

(** ** Lines of the two log formats are accepted *)

Lemma reaches_Empty total s : reaches total Empty s s.
Proof. intros c. exists c. split; reflexivity. Qed.

Lemma reaches_Chr total x s : reaches total (Chr x) (x :: s) s.
Proof.
  intros c. exists c. exists x. split; [reflexivity|].
  split; [apply Ascii.eqb_refl | reflexivity].
Qed.

Lemma reaches_Cat total r1 r2 s s1 s' :
  reaches total r1 s s1 -> reaches total r2 s1 s' -> reaches total (Cat r1 r2) s s'.
Proof.
  intros H1 H2 c. destruct (H1 c) as (c1 & D1). destruct (H2 c1) as (c' & D2).
  exists c', s1, c1. auto.
Qed.

Lemma reaches_Alt_l total r1 r2 s s' :
  reaches total r1 s s' -> reaches total (Alt r1 r2) s s'.
Proof. intros H c. destruct (H c) as (c' & D). exists c'. left. exact D. Qed.

Lemma reaches_Alt_r total r1 r2 s s' :
  reaches total r2 s s' -> reaches total (Alt r1 r2) s s'.
Proof. intros H c. destruct (H c) as (c' & D). exists c'. right. exact D. Qed.

Lemma reaches_Named total g r s s' :
  reaches total r s s' -> reaches total (Named g r) s s'.
Proof.
  intros H c. destruct (H c) as (c1 & D).
  eexists. exists c1. split; [exact D | reflexivity].
Qed.

Lemma reaches_Star_Set total cs w s :
  forallb cs w = true -> reaches total (Star (Set_ cs)) (w ++ s) s.
Proof.
  intros Hw c. exists c. induction w as [|a w IH]; cbn [den app].
  - apply iter_done.
  - cbn [forallb] in Hw. apply andb_true_iff in Hw. destruct Hw as [Ha Hw].
    apply (iter_step _ _ _ (w ++ s) c).
    + exists a. auto.
    + cbn [List.length]. lia.
    + apply IH. exact Hw.
Qed.

Lemma reaches_Plus_Set total cs w s :
  run_of cs w = true -> reaches total (Plus (Set_ cs)) (w ++ s) s.
Proof.
  unfold run_of. destruct w as [|a w]; [discriminate|]. cbn [nonempty forallb].
  intros H. apply andb_true_iff in H. destruct H as [_ H].
  apply andb_true_iff in H. destruct H as [Ha Hw].
  unfold Plus. apply (reaches_Cat _ _ _ _ (w ++ s)).
  - intros c. exists c. exists a. auto.
  - apply reaches_Star_Set. exact Hw.
Qed.

Lemma reaches_Sp total s : reaches total Sp (" "%char :: s) s.
Proof. apply (reaches_Plus_Set total cls_space [" "%char] s). reflexivity. Qed.

Lemma reaches_Any total w s :
  forallb cls_dot w = true -> reaches total Any (w ++ s) s.
Proof. apply reaches_Star_Set. Qed.

Lemma reaches_Digits total w s :
  digits w = true -> reaches total Digits (w ++ s) s.
Proof. apply reaches_Plus_Set. Qed.

Lemma reaches_signed total x w s :
  signed x w = true -> reaches total (Cat (Opt (Chr x)) Digits) (w ++ s) s.
Proof.
  unfold signed. destruct w as [|a w]; [discriminate|].
  destruct (Ascii.eqb a x) eqn:E; intros H.
  - apply Ascii.eqb_eq in E. subst a. cbn [app].
    apply (reaches_Cat _ _ _ _ (w ++ s)).
    + apply reaches_Alt_l. apply reaches_Chr.
    + apply reaches_Digits. exact H.
  - apply (reaches_Cat _ _ _ _ ((a :: w) ++ s)).
    + apply reaches_Alt_r. apply reaches_Empty.
    + apply reaches_Digits. exact H.
Qed.

Lemma reaches_Neg total w s :
  signed "-" w = true -> reaches total Neg (w ++ s) s.
Proof. apply reaches_signed. Qed.

Lemma reaches_Pos total w s :
  signed "+" w = true -> reaches total Pos (w ++ s) s.
Proof. apply reaches_signed. Qed.

(** Consume the pieces of a text one after the other. *)
Ltac reach :=
  repeat first
    [ apply reaches_Named
    | apply reaches_Chr
    | apply reaches_Sp
    | apply reaches_Any; assumption
    | apply reaches_Digits; assumption
    | apply reaches_Neg; assumption
    | apply reaches_Pos; assumption
    | apply reaches_Plus_Set; assumption
    | eapply reaches_Cat ].

Lemma reaches_shape total w s :
  shape_text w -> reaches total (Alt HTTP_SHAPE TCP_SHAPE) (w ++ s) s.
Proof.
  intros [fe be sv tq tw tc tr ta st by_ ? ? ? ? ? ? ? ? ? ?
         |fe be sv tw tc ttot by_ ? ? ? ? ? ? ?].
  - apply reaches_Alt_l. unfold HTTP_SHAPE. cbn [Seq].
    repeat (rewrite <- app_assoc; cbn [app]). reach.
  - apply reaches_Alt_r. unfold TCP_SHAPE. cbn [Seq].
    repeat (rewrite <- app_assoc; cbn [app]). reach.
Qed.

Lemma reaches_HEADERS total hs s :
  headers_text hs -> reaches total HEADERS (hs ++ s) s.
Proof.
  intros [|h ?|rq rs ? ?]; unfold HEADERS, Opt; cbn [Seq].
  - apply reaches_Alt_r. apply reaches_Empty.
  - apply reaches_Alt_l, reaches_Alt_r, reaches_Alt_l.
    cbn [app]. repeat (rewrite <- app_assoc; cbn [app]). reach.
  - apply reaches_Alt_l, reaches_Alt_l.
    cbn [app]. repeat (rewrite <- app_assoc; cbn [app]). reach.
Qed.

Lemma reaches_TAIL total w :
  tail_text w -> reaches total TAIL w [].
Proof.
  intros [|hs req cq Hhs Hreq Hcq]; unfold TAIL, Opt; cbn [Seq].
  - apply reaches_Alt_r. apply reaches_Empty.
  - apply reaches_Alt_l.
    eapply reaches_Cat; [apply reaches_Sp|].
    eapply reaches_Cat; [apply reaches_HEADERS; exact Hhs|].
    eapply reaches_Cat; [apply reaches_Chr|].
    eapply reaches_Cat; [apply reaches_Named, reaches_Plus_Set; exact Hreq|].
    destruct Hcq as [-> | ->].
    + apply reaches_Alt_r. apply reaches_Empty.
    + apply reaches_Alt_l. apply reaches_Chr.
Qed.

Lemma reaches_line total ip port date shape flags ac fc bc sc re sq bq tail :
  run_of cls_ip ip = true -> digits port = true -> run_of cls_dot date = true ->
  shape_text shape -> forallb cls_dot flags = true ->
  digits ac = true -> digits fc = true -> digits bc = true -> digits sc = true ->
  signed "+" re = true -> digits sq = true -> digits bq = true ->
  tail_text tail ->
  reaches total HAPROXY_LINE_REGEX
    (log_line ip port date shape flags ac fc bc sc re sq bq tail) [].
Proof.
  intros Hip Hport Hdate Hshape Hflags Hac Hfc Hbc Hsc Hre Hsq Hbq Htail.
  unfold HAPROXY_LINE_REGEX, LINE_WITH, log_line. cbn [Seq].
  eapply reaches_Cat; [apply reaches_Alt_r, reaches_Empty|].
  eapply reaches_Cat; [unfold CLIENT; cbn [Seq]; reach|].
  eapply reaches_Cat; [unfold ACCEPT_DATE; cbn [Seq]; reach|].
  eapply reaches_Cat; [apply reaches_shape; exact Hshape|].
  eapply reaches_Cat; [unfold COUNTERS; cbn [Seq]; reach|].
  eapply reaches_Cat; [unfold QUEUES; cbn [Seq]; reach|].
  eapply reaches_Cat; [apply reaches_TAIL; exact Htail|].
  intros c. exists c. repeat split.
Qed.

(** X16. Every line of the HTTP or of the TCP log format is accepted: an
    address, a port, an accept date in brackets, the names, timers and sizes
    of the format, any flags, the counters, the queue pair and, or not, the
    captured headers and the quoted request, closed or not.  The constructor
    never returns an invalid record for such a line: it returns a valid
    record, or raises [ValueError], on the accept date or on a number with
    more digits than [int] accepts; when the line as a whole has no more
    digits than that limit, [ValueError] can only come from the accept date,
    before anything is printed. *)
Theorem log_format_accepted
    (ip port date shape flags ac fc bc sc re sq bq tail : chars) :
  run_of cls_ip ip = true -> digits port = true -> run_of cls_dot date = true ->
  shape_text shape -> forallb cls_dot flags = true ->
  digits ac = true -> digits fc = true -> digits bc = true -> digits sc = true ->
  signed "+" re = true -> digits sq = true -> digits bq = true ->
  tail_text tail ->
  re_match HAPROXY_LINE_REGEX
    (log_line ip port date shape flags ac fc bc sc re sq bq tail) <> None
  /\ ((exists out,
         new_Line (S_ (log_line ip port date shape flags ac fc bc sc re sq bq tail))
         = (inl ValueError, out))
      \/ exists r out,
           new_Line (S_ (log_line ip port date shape flags ac fc bc sc re sq bq tail))
             = (inr r, out)
           /\ is_valid r = true)
  /\ (within_limit (log_line ip port date shape flags ac fc bc sc re sq bq tail)
      = true ->
      new_Line (S_ (log_line ip port date shape flags ac fc bc sc re sq bq tail))
      = (inl ValueError, [])
      \/ exists r out,
           new_Line (S_ (log_line ip port date shape flags ac fc bc sc re sq bq tail))
             = (inr r, out)
           /\ is_valid r = true).
Proof.
  intros Hip Hport Hdate Hshape Hflags Hac Hfc Hbc Hsc Hre Hsq Hbq Htail.
  set (line := log_line ip port date shape flags ac fc bc sc re sq bq tail).
  assert (Hm : re_match HAPROXY_LINE_REGEX line <> None).
  { unfold re_match.
    destruct (reaches_line (List.length line) ip port date shape flags
                ac fc bc sc re sq bq tail Hip Hport Hdate Hshape Hflags
                Hac Hfc Hbc Hsc Hre Hsq Hbq Htail []) as (c' & D).
    apply (run_complete _ _ _ _ _ [] c' _ D). discriminate. }
  split; [exact Hm|].
  destruct (re_match HAPROXY_LINE_REGEX line) as [m|] eqn:E; [clear Hm|congruence].
  pose proof (short_line_fits _ _ E) as Hshort.
  rewrite <- (L_S line) in E.
  destruct (line_view _ _ E) as (v & Hg & Hok & _).
  rewrite (converted_fit_view _ _ Hg) in Hshort.
  rewrite (new_Line_accepted _ _ _ E Hg Hok).
  destruct (view_fits v) eqn:Hfit.
  - rewrite (outcome_of_fits _ _ Hfit).
    destruct (strptime (v_date v)) as [d|].
    + split; [right | intros _; right];
        (eexists _, _; split; [reflexivity | apply record_of_valid]).
    + split; [left; eexists; reflexivity | intros _; left; reflexivity].
  - split.
    + left.
      destruct (outcome_of_raises (S_ line) v (or_introl Hfit)) as (out & Ho & _).
      exists out. exact Ho.
    + intros Hl. discriminate (Hshort Hl).
Qed.

Lemma log_format_accepted_witness :
  log_line (L "127.0.0.1") (L "2345") (L "09/Dec/2013:12:59:46.633")
    example_shape (L " - - ----") (L "87") (L "89") (L "98") (L "1") (L "20")
    (L "2") (L "67") example_tail = L example_line
  /\ re_match HAPROXY_LINE_REGEX (L example_line) <> None.
Proof.
  split; [vm_compute; reflexivity|].
  apply (log_format_accepted (L "127.0.0.1") (L "2345")
           (L "09/Dec/2013:12:59:46.633")
           example_shape (L " - - ----") (L "87") (L "89") (L "98") (L "1")
           (L "20") (L "2") (L "67") example_tail);
    try reflexivity.
  - apply (http_text (L "loadbalancer") (L "default") (L "instance8")
             (L "0") (L "51536") (L "1") (L "48082") (L "99627")
             (L "200") (L "83285")); reflexivity.
  - apply (request_tail (L "{77.24.148.74} ") (L "GET /path/to/image HTTP/1.1")
             [dquote]);
      [apply (one_group (L "77.24.148.74")); reflexivity
      | reflexivity | right; reflexivity].
Defined.

(** ** Lines that are not log lines *)

Lemma run_AFTER_PREFIX_no_address total (R : Type) s c (k : cont R) :
  no_address_start s = true -> run total AFTER_PREFIX s c k = None.
Proof.
  unfold AFTER_PREFIX, CLIENT. cbn [Seq]. rewrite !run_Cat, run_Named.
  unfold Plus at 1. rewrite run_Cat.
  destruct s as [|a s]; [reflexivity|].
  cbn [no_address_start]. intros H. apply negb_true_iff in H.
  cbn [run]. rewrite H. reflexivity.
Qed.

(** X17. A line that does not start with a character of an address, and in
    which no [\]:] is followed by white space, is not a log line: the
    constructor returns the default record with the raw line, not valid, and
    prints nothing.  The empty line is such a line. *)
Theorem not_a_log_line (line : chars) :
  no_address_start line = true -> no_prefix_end line = true ->
  re_match HAPROXY_LINE_REGEX line = None
  /\ new_Line (S_ line) = (inr (set_raw_line (PStr (S_ line)) Line_defaults), [])
  /\ is_valid (set_raw_line (PStr (S_ line)) Line_defaults) = false.
Proof.
  intros Hstart Hline.
  assert (Hm : re_match HAPROXY_LINE_REGEX line = None).
  { unfold re_match. rewrite line_pattern_split.
    rewrite !run_Cat. unfold Opt. cbn [run]. rewrite Nat.eqb_refl.
    rewrite (run_Any_no_prefix_end _ Match line [] _ Hline).
    apply run_AFTER_PREFIX_no_address. exact Hstart. }
  split; [exact Hm|]. split; [|reflexivity].
  apply new_Line_unmatched. rewrite L_S. exact Hm.
Qed.

Lemma not_a_log_line_witness :
  new_Line "" = (inr (set_raw_line (PStr "") Line_defaults), []).
Proof.
  apply (not_a_log_line []); reflexivity.
Defined.

(** X18. [parse_line] on a line of white space only, the empty line
    included, returns the invalid default record of the empty line. *)
Theorem parse_line_blank (ws : chars) :
  forallb cls_space ws = true ->
  parse_line (S_ ws) = (inr (set_raw_line (PStr "") Line_defaults), []).
Proof.
  intros H. unfold parse_line, strip. rewrite L_S.
  rewrite (lstrip_all_spaces _ H). cbn [rev lstrip S_ string_of_list_ascii].
  vm_compute. reflexivity.
Qed.

Lemma parse_line_blank_witness :
  parse_line (S_ [" "%char; ascii_of_nat 10])
  = (inr (set_raw_line (PStr "") Line_defaults), []).
Proof.
  apply (parse_line_blank [" "%char; ascii_of_nat 10]). reflexivity.
Defined.
